(** * numpy typing tests: the mypy-output harness and the extended-precision
      declarations

    A shallow embedding of [numpy/typing/tests/test_typing.py] and of
    [numpy/_typing/_extended_precision.py], and the properties of the
    natural-language specification stated over it.

    Conventions of the embedding.
    - Python [str] values are [string]s of ASCII characters.  The character
      classes of [re] ([\w], [\d]) and of [str.strip] are the ASCII ones.
    - [os.path] is [posixpath]: [splitdrive] never finds a drive.  A
      property that rests on it has the hypothesis that [splitdrive] finds
      no drive in the lines it is about.
    - A Python call that may raise returns a [result]: [Ok v] or [Raise e].
    - [int] values are [Z]; [int(s)] refuses more than 4300 digits, the
      limit of the interpreter as it starts, and an index is refused when
      it does not fit 64 bits.
    - An array of numpy is the list of its elements as Python gets them: a
      text of an array has no NUL character at its end. *)

From Stdlib Require Import ZArith Ascii String.
From stdpp Require Import base option list gmap strings pretty fin_maps.

Local Open Scope Z_scope.
#[local] Arguments String.append : simpl nomatch.

(** ** Exceptions and the result monad *)

Inductive pykey :=
| KStr (s : string)
| KInt (z : Z).

(** [Failed] is the exception raised by [pytest.fail].  [Unmodelled] is not
    a Python exception: it marks the part of [str.format] that lies outside
    the fragment embedded here (see [py_format]). *)
Inductive exn :=
| AssertionError (msg : string)
| ValueError (msg : string)
| KeyError (key : pykey)
| IndexError (msg : string)
| Failed (msg : string)
| Unmodelled.

Inductive result (A : Type) :=
| Ok (a : A)
| Raise (e : exn).
Arguments Ok {A} a.
Arguments Raise {A} e.

#[export] Instance result_ret : MRet result := fun A a => Ok a.
#[export] Instance result_bind : MBind result := fun A B f m =>
  match m with
  | Ok a => f a
  | Raise e => Raise e
  end.

Definition is_ok {A} (r : result A) : bool :=
  match r with Ok _ => true | Raise _ => false end.

(** [for x in l: body(x)], left at the first exception. *)
Fixpoint for_each {A} (body : A -> result unit) (l : list A) : result unit :=
  match l with
  | [] => Ok tt
  | x :: l' =>
      match body x with
      | Ok _ => for_each body l'
      | Raise e => Raise e
      end
  end.

(** [enumerate(l)], counting from [i]. *)
Fixpoint enumerate {A} (i : nat) (l : list A) : list (nat * A) :=
  match l with
  | [] => []
  | x :: l' => (i, x) :: enumerate (S i) l'
  end.

(** ** Python string operations *)

Module Py.

Definition chr (n : nat) : ascii := ascii_of_nat n.
Definition ord (c : ascii) : nat := nat_of_ascii c.

Definition nl : string := String (chr 10) EmptyString.

Definition between (lo hi : nat) (c : ascii) : bool :=
  (Nat.leb lo (ord c)) && (Nat.leb (ord c) hi).

(** [\d] *)
Definition is_digit (c : ascii) : bool := between 48 57 c.

(** [\w] *)
Definition is_word (c : ascii) : bool :=
  between 97 122 c || between 65 90 c || is_digit c || Ascii.eqb c "_".

(** the characters removed by [str.strip()] *)
Definition is_space (c : ascii) : bool :=
  between 9 13 c || between 28 32 c.

(** [s.startswith(p)] *)
Fixpoint startswith (p s : string) : bool :=
  match p, s with
  | EmptyString, _ => true
  | String a p', String b s' => Ascii.eqb a b && startswith p' s'
  | String _ _, EmptyString => false
  end.

(** [sub in s] *)
Fixpoint contains (sub s : string) : bool :=
  startswith sub s ||
  match s with
  | EmptyString => false
  | String _ s' => contains sub s'
  end.

Fixpoint drop (n : nat) (s : string) : string :=
  match n, s with
  | O, _ => s
  | S n', String _ s' => drop n' s'
  | S _, EmptyString => EmptyString
  end.

(** The first occurrence of [sep] in [s]: the text before it and the text
    after it. *)
Fixpoint cut (sep s : string) : option (string * string) :=
  if startswith sep s then Some (EmptyString, drop (String.length sep) s)
  else match s with
       | EmptyString => None
       | String c s' =>
           match cut sep s' with
           | Some (a, b) => Some (String c a, b)
           | None => None
           end
       end.

(** [s.partition(sep)] *)
Definition partition (sep s : string) : string * string * string :=
  match cut sep s with
  | Some (a, b) => (a, sep, b)
  | None => (s, EmptyString, EmptyString)
  end.

(** [s.split(sep, 1)] *)
Definition split1 (sep s : string) : list string :=
  match cut sep s with
  | Some (a, b) => [a; b]
  | None => [s]
  end.

(** [s.split(sep)] for a non-empty [sep].  [skip] counts the characters of
    a separator that are still to be passed over, [cur] is the piece being
    read. *)
Fixpoint split_go (sep : string) (skip : nat) (cur : string) (s : string)
  : list string :=
  match s with
  | EmptyString => [cur]
  | String c s' =>
      match skip with
      | S k => split_go sep k cur s'
      | O =>
          if startswith sep s
          then cur :: split_go sep (String.length sep - 1) EmptyString s'
          else split_go sep O (cur +:+ String c EmptyString) s'
      end
  end.

Definition split (sep s : string) : list string :=
  split_go sep O EmptyString s.

(** [sep.join(l)] *)
Fixpoint join (sep : string) (l : list string) : string :=
  match l with
  | [] => EmptyString
  | [x] => x
  | x :: l' => x +:+ sep +:+ join sep l'
  end.

(** [s.replace(c, "")] for a one-character [c] *)
Fixpoint remove_char (c : ascii) (s : string) : string :=
  match s with
  | EmptyString => EmptyString
  | String a s' =>
      if Ascii.eqb a c then remove_char c s' else String a (remove_char c s')
  end.

(** [s.lstrip()], [s.rstrip()], [s.strip()] *)
Fixpoint lstrip (s : string) : string :=
  match s with
  | EmptyString => EmptyString
  | String c s' => if is_space c then lstrip s' else s
  end.

Fixpoint rstrip_by (f : ascii -> bool) (s : string) : string :=
  match s with
  | EmptyString => EmptyString
  | String c s' =>
      match rstrip_by f s' with
      | EmptyString => if f c then EmptyString else String c EmptyString
      | r => String c r
      end
  end.

Definition rstrip (s : string) : string := rstrip_by is_space s.
Definition strip (s : string) : string := rstrip (lstrip s).

(** [s.rstrip("\n")] *)
Definition rstrip_nl (s : string) : string :=
  rstrip_by (fun c => Ascii.eqb c (chr 10)) s.

(** [repr(s)] of a [str]: single quotes unless the text has a single quote
    and no double quote; backslash, the chosen quote and the characters
    that are not printable are escaped. *)
Definition squote : ascii := chr 39.
Definition dquote : ascii := chr 34.
Definition backslash : ascii := chr 92.

Fixpoint has_char (c : ascii) (s : string) : bool :=
  match s with
  | EmptyString => false
  | String a s' => Ascii.eqb a c || has_char c s'
  end.

Definition hex_digit (n : nat) : ascii :=
  if Nat.ltb n 10 then chr (48 + n) else chr (87 + n).

Definition repr_char (q c : ascii) : string :=
  if Ascii.eqb c q || Ascii.eqb c backslash
  then String backslash (String c EmptyString)
  else if Ascii.eqb c (chr 10) then String backslash "n"
  else if Ascii.eqb c (chr 13) then String backslash "r"
  else if Ascii.eqb c (chr 9) then String backslash "t"
  else if between 32 126 c then String c EmptyString
  else String backslash
         (String "x" (String (hex_digit (Nat.div (ord c) 16))
                        (String (hex_digit (Nat.modulo (ord c) 16))
                           EmptyString))).

Fixpoint repr_body (q : ascii) (s : string) : string :=
  match s with
  | EmptyString => EmptyString
  | String c s' => repr_char q c +:+ repr_body q s'
  end.

Definition repr (s : string) : string :=
  let q := if has_char squote s && negb (has_char dquote s)
           then dquote else squote in
  String q (repr_body q s) +:+ String q EmptyString.

(** [str(n)] of an [int] *)
Definition str_of_int (n : Z) : string := pretty n.

Definition digit_val (c : ascii) : Z := Z.of_nat (ord c) - 48.

(** The first [n] characters of a text. *)
Fixpoint take (n : nat) (s : string) : string :=
  match n, s with
  | S n', String c s' => String c (take n' s')
  | _, _ => EmptyString
  end.

(** The white space that [int(s)] skips at both ends of an ASCII text: that
    of [isspace] of C, which is not that of [str.strip()]. *)
Definition is_c_space (c : ascii) : bool :=
  between 9 13 c || Ascii.eqb c " ".

Fixpoint lstrip_c (s : string) : string :=
  match s with
  | EmptyString => EmptyString
  | String c s' => if is_c_space c then lstrip_c s' else s
  end.

(** The run of digits and underscores at the head of a text, as [int(s)]
    scans it: its value, the number of its digits and the rest of the text;
    no run when two underscores follow each other or an underscore ends the
    run. *)
Inductive scanned :=
| BadRun
| Run (value : Z) (digits : nat) (rest : string).

Fixpoint int_scan (acc : Z) (digits : nat) (after_underscore : bool)
    (s : string) : scanned :=
  match s with
  | EmptyString => if after_underscore then BadRun else Run acc digits s
  | String c s' =>
      if is_digit c then int_scan (acc * 10 + digit_val c) (S digits) false s'
      else if Ascii.eqb c "_" then
        if after_underscore then BadRun else int_scan acc digits true s'
      else if after_underscore then BadRun else Run acc digits s
  end.

(** [sys.get_int_max_str_digits()], as the interpreter starts. *)
Definition int_max_str_digits : nat := 4300.

Definition int_limit_message (digits : nat) : string :=
  "Exceeds the limit (4300 digits) for integer string conversion: value has "
  +:+ str_of_int (Z.of_nat digits)
  +:+ " digits; use sys.set_int_max_str_digits() to increase the limit".

(** [int(s)] of an ASCII text: white space is skipped at both ends, a sign is
    allowed, the digits may have single underscores between them, and a run
    of more digits than the limit is refused before the rest of the text is
    looked at.  The message of an invalid literal has the first 200
    characters of [repr(s)]. *)
Definition int (s : string) : result Z :=
  let invalid :=
    Raise (ValueError ("invalid literal for int() with base 10: "
                       +:+ take 200 (repr s))) in
  let t := lstrip_c s in
  let negative := startswith "-" t in
  let t := if startswith "-" t || startswith "+" t then drop 1 t else t in
  if startswith "_" t then invalid
  else
    match int_scan 0 0 false t with
    | BadRun => invalid
    | Run value digits rest =>
        if Nat.ltb int_max_str_digits digits
        then Raise (ValueError (int_limit_message digits))
        else if Nat.eqb digits 0 then invalid
        else
          match lstrip_c rest with
          | EmptyString => Ok (if negative then - value else value)
          | _ => invalid
          end
    end.

(** The largest index of a sequence, [sys.maxsize]. *)
Definition maxsize : Z := 2 ^ 63 - 1.

(** [l[i]] on a list: negative indices count from the end; an index that
    does not fit the index type is refused before the length is looked
    at. *)
Definition index {A} (l : list A) (i : Z) : result A :=
  if (i <? - maxsize - 1) || (maxsize <? i)
  then Raise (IndexError "cannot fit 'int' into an index-sized integer")
  else
    let n := Z.of_nat (length l) in
    let j := if i <? 0 then i + n else i in
    if (0 <=? j) && (j <? n) then
      match l !! Z.to_nat j with
      | Some x => Ok x
      | None => Raise (IndexError "list index out of range")
      end
    else Raise (IndexError "list index out of range").

(** [f.readlines()]: the lines of a text, each with its line end. *)
Fixpoint readlines_go (cur : string) (s : string) : list string :=
  match s with
  | EmptyString =>
      match cur with EmptyString => [] | _ => [cur] end
  | String c s' =>
      if Ascii.eqb c (chr 10)
      then (cur +:+ nl) :: readlines_go EmptyString s'
      else readlines_go (cur +:+ String c EmptyString) s'
  end.

Definition readlines (s : string) : list string := readlines_go EmptyString s.

End Py.

(** [dict.update(pairs)]: a later pair for a key replaces an earlier one. *)
Definition dict_update {V} (m : gmap string V) (l : list (string * V))
  : gmap string V :=
  fold_left (fun acc kv => <[kv.1 := kv.2]> acc) l m.

(** [itertools.groupby(l, key)]: the maximal runs of consecutive elements
    with one key, each with its key. *)
Fixpoint groupby {A} (key : A -> string) (l : list A)
  : list (string * list A) :=
  match l with
  | [] => []
  | x :: l' =>
      match groupby key l' with
      | (k, g) :: rest =>
          if decide (key x = k) then (k, x :: g) :: rest
          else (key x, [x]) :: (k, g) :: rest
      | [] => [(key x, [x])]
      end
  end.

(** [os.path.splitdrive] and [os.path.join] of [posixpath] *)
Definition splitdrive (p : string) : string * string := (EmptyString, p).

Fixpoint endswith_slash (s : string) : bool :=
  match s with
  | EmptyString => false
  | String c EmptyString => Ascii.eqb c "/"
  | String _ s' => endswith_slash s'
  end.

Definition os_path_join (a b : string) : string :=
  if Py.startswith "/" b then b
  else if String.eqb a EmptyString || endswith_slash a then a +:+ b
  else a +:+ "/" +:+ b.

(** ** numpy/_typing/_extended_precision.py *)

Module ExtendedPrecision.

(** The type expressions of the module: a generic numpy type with its
    parameters, or the name of a class of the module. *)
Inductive ty :=
| Generic (base : string) (args : list string)
| Class (name : string).

(** A statement of the module: an alias [name = t], or
    [class name(base): ...] with an empty body. *)
Inductive stmt :=
| Alias (name : string) (t : ty)
| ClassDef (name : string) (base : ty).

#[export] Instance ty_eq_dec : EqDecision ty.
Proof. solve_decision. Defined.

Definition module : list stmt :=
  [ Alias "Uint128" (Generic "np.unsignedinteger" ["_128Bit"]);
    ClassDef "uint128" (Generic "np.unsignedinteger" ["_128Bit"]);
    Alias "Uint256" (Generic "np.unsignedinteger" ["_256Bit"]);
    ClassDef "uint256" (Class "uint128");
    Alias "Int128" (Generic "np.signedinteger" ["_128Bit"]);
    ClassDef "int128" (Generic "np.signedinteger" ["_128Bit"]);
    Alias "Int256" (Generic "np.signedinteger" ["_256Bit"]);
    ClassDef "int256" (Class "int128");
    Alias "Float80" (Generic "np.floating" ["_80Bit"]);
    ClassDef "float80" (Generic "np.floating" ["_80Bit"]);
    Alias "Float96" (Generic "np.floating" ["_96Bit"]);
    ClassDef "float96" (Generic "np.floating" ["_96Bit"]);
    Alias "Float128" (Generic "np.floating" ["_128Bit"]);
    ClassDef "float128" (Generic "np.floating" ["_128Bit"]);
    Alias "Float256" (Generic "np.floating" ["_256Bit"]);
    ClassDef "float256" (Generic "np.floating" ["_256Bit"]);
    Alias "Complex160" (Generic "np.complexfloating" ["_80Bit"; "_80Bit"]);
    ClassDef "complex160" (Generic "np.complexfloating" ["_80Bit"; "_80Bit"]);
    Alias "Complex192" (Generic "np.complexfloating" ["_96Bit"; "_96Bit"]);
    ClassDef "complex192" (Generic "np.complexfloating" ["_96Bit"; "_96Bit"]);
    Alias "Complex256" (Generic "np.complexfloating" ["_128Bit"; "_128Bit"]);
    ClassDef "complex256" (Generic "np.complexfloating" ["_128Bit"; "_128Bit"]);
    Alias "Complex512" (Generic "np.complexfloating" ["_256Bit"; "_256Bit"]);
    ClassDef "complex512" (Generic "np.complexfloating" ["_256Bit"; "_256Bit"])
  ].

(** What a name is bound to once the module has run: the last statement for
    it. *)
Fixpoint alias_of (name : string) (m : list stmt) : option ty :=
  match m with
  | [] => None
  | st :: m' =>
      match alias_of name m' with
      | Some t => Some t
      | None =>
          match st with
          | Alias n t => if String.eqb n name then Some t else None
          | ClassDef _ _ => None
          end
      end
  end.

Fixpoint class_base (name : string) (m : list stmt) : option ty :=
  match m with
  | [] => None
  | st :: m' =>
      match class_base name m' with
      | Some t => Some t
      | None =>
          match st with
          | ClassDef n b => if String.eqb n name then Some b else None
          | Alias _ _ => None
          end
      end
  end.

(** The extended-precision kind names, each with the name of its alias. *)
Definition kinds : list (string * string) :=
  [ ("uint128", "Uint128"); ("uint256", "Uint256");
    ("int128", "Int128"); ("int256", "Int256");
    ("float80", "Float80"); ("float96", "Float96");
    ("float128", "Float128"); ("float256", "Float256");
    ("complex160", "Complex160"); ("complex192", "Complex192");
    ("complex256", "Complex256"); ("complex512", "Complex512") ].

(** The base of the class of a kind is the type its alias names. *)
Definition base_matches_alias (kind : string * string) : bool :=
  match class_base kind.1 module, alias_of kind.2 module with
  | Some b, Some a => bool_decide (b = a)
  | _, _ => false
  end.

End ExtendedPrecision.

(** ** numpy/typing/tests/test_typing.py *)

(** What [api.run] of mypy returns. *)
Record mypy_result := {
  stdout : string;
  stderr : string;
  exit_code : Z
}.

(** The state the module works on: the global [OUTPUT_MYPY] and whether the
    directory [CACHE_DIR] exists.  What mypy itself writes to its cache is
    not part of the model. *)
Record state := {
  OUTPUT_MYPY : gmap string (list string);
  cache_isdir : bool
}.

(** [_key_func] *)
Definition _key_func (key : string) : string :=
  let '(drive, tail) := splitdrive key in
  os_path_join drive (hd EmptyString (Py.split1 ":" tail)).

(** [_strip_filename] *)
Definition _strip_filename (msg : string) : string :=
  let '(_, tail) := splitdrive msg in
  List.last (Py.split1 ":" tail) EmptyString.

(** The text begins with a word character; the text is not empty. *)
Definition starts_with_word (s : string) : bool :=
  match s with
  | EmptyString => false
  | String c _ => Py.is_word c
  end.

(** The truth value of a [str]. *)
Definition nonempty (s : string) : bool :=
  match s with EmptyString => false | _ => true end.

(** [_STRIP_PATTERN.sub(strip_func, s)] with
    [_STRIP_PATTERN = re.compile(r"(\w+\.)+(\w+)")] and [strip_func] the
    second group.  A match starts at the beginning of a run of word
    characters that is followed by a dot and a word character, takes as many
    dotted runs as there are, and is replaced by the last run.  So the
    substitution deletes each run of word characters that is followed by a
    dot and a word character, and that dot.  [cur] is the run being read. *)
Fixpoint strip_sub_go (cur : string) (s : string) : string :=
  match s with
  | EmptyString => cur
  | String c s' =>
      if Py.is_word c then strip_sub_go (cur +:+ String c EmptyString) s'
      else if Ascii.eqb c "." && nonempty cur && starts_with_word s'
      then strip_sub_go EmptyString s'
      else cur +:+ String c (strip_sub_go EmptyString s')
  end.

Definition _STRIP_PATTERN_sub (s : string) : string :=
  strip_sub_go EmptyString s.

(** *** Inputs of the concrete runs *)

(** A platform for the runs below: the scalar types of numpy on 64-bit
    Linux, [dct['_NBitInt']] and [_C_INTP] as computed there. *)
Definition linux_dtype (np_name : string) : string * Z :=
  default ("V", 0)
    (list_to_map (M := gmap string (string * Z))
       [ ("ubyte", ("u", 1)); ("ushort", ("u", 2)); ("uintc", ("u", 4));
         ("uint", ("u", 8)); ("ulonglong", ("u", 8)); ("byte", ("i", 1));
         ("short", ("i", 2)); ("intc", ("i", 4)); ("int_", ("i", 8));
         ("longlong", ("i", 8)); ("single", ("f", 4)); ("double", ("f", 8));
         ("longdouble", ("f", 16)) ] !! np_name).

Definition linux_NBitInt : string := "numpy._typing._64Bit".
Definition linux_C_INTP : string := "c_long".
Definition linux_extended : list string :=
  ["float128"; "complex256"].

(** The text of a file with the lines [l]. *)
Definition lines_of (l : list string) : string :=
  Py.join Py.nl l +:+ Py.nl.

(** mypy on four directories, with one diagnostic for a file of the
    directory [pass]. *)
Definition mypy_one_error (args : list string) : mypy_result :=
  if String.eqb (List.last args EmptyString) "data/pass"
  then {| stdout := lines_of
                      [ "data/pass/a.py:3: error: oops";
                        "Found 1 error in 1 file (checked 2 source files)" ];
          stderr := EmptyString;
          exit_code := 1 |}
  else {| stdout := lines_of ["Success: no issues found in 3 source files"];
          stderr := EmptyString;
          exit_code := 0 |}.

(** Files of the directories [reveal], [fail] and [misc], and outputs of
    mypy for them. *)
Definition reveal_src : string :=
  lines_of [ "reveal_type(x)  # E: int"; "reveal_type(y)  # E: {int8}" ].

Definition reveal_output : gmap string (list string) :=
  {[ "f.pyi" := [ "f.pyi:1: note: Revealed type is 'builtins.int'";
                  "f.pyi:2: note: Revealed type is 'numpy.int8'" ] ]}.

Definition fail_src : string :=
  lines_of [ "np.add(1, 'a')"; "np.sin(1, 2)  # E: No overload variant" ].

Definition fail_output : gmap string (list string) :=
  {[ "f.py" := [ "f.py:1: error: Unsupported operand";
                 "f.py:2: error: No overload variant of sin" ] ]}.

Definition reveal_output_bad : gmap string (list string) :=
  {[ "f.pyi" := [ "f.pyi:1: note: Revealed type is 'builtins.int'";
                  "f.pyi: note: In module imported here:" ] ]}.

Definition extended_src : string :=
  lines_of [ "import numpy as np"; "";
             "reveal_type(np.uint128())"; "reveal_type(np.uint256())" ].

(** mypy on four directories, with the diagnostics of a file of the
    directory [pass] in two runs, one for another file between them. *)
Definition mypy_two_runs (args : list string) : mypy_result :=
  if String.eqb (List.last args EmptyString) "data/pass"
  then {| stdout := lines_of
                      [ "data/pass/a.py:1: error: x";
                        "data/pass/b.py:1: error: y";
                        "data/pass/a.py:2: error: z";
                        "Found 3 errors in 2 files (checked 2 source files)" ];
          stderr := EmptyString;
          exit_code := 1 |}
  else {| stdout := lines_of ["Success: no issues found in 3 source files"];
          stderr := EmptyString;
          exit_code := 0 |}.

(** mypy with the diagnostics of the file [a.py] in two runs, one for the
    file [b.py] between them. *)
Definition mypy_interleaved (args : list string) : mypy_result :=
  {| stdout := lines_of [ "a.py:1: error: x"; "b.py:1: error: y";
                          "a.py:2: error: z" ];
     stderr := EmptyString;
     exit_code := 1 |}.

Section Harness.

Set Default Proof Using "Type".

(** [SRC_DATA_DIR] and [DATA_DIR] are computed from the path of the test
    file. *)
Variable SRC_DATA_DIR : string.
Variable DATA_DIR : string.

Definition PASS_DIR := os_path_join SRC_DATA_DIR "pass".
Definition FAIL_DIR := os_path_join SRC_DATA_DIR "fail".
Definition REVEAL_DIR := os_path_join SRC_DATA_DIR "reveal".
Definition MISC_DIR := os_path_join SRC_DATA_DIR "misc".
Definition MYPY_INI := os_path_join DATA_DIR "mypy.ini".
Definition CACHE_DIR := os_path_join DATA_DIR ".mypy_cache".

(** [os.environ], and [api.run] of mypy as a function of its arguments. *)
Variable environ : gmap string string.
Variable api_run : list string -> mypy_result.

(** [bool(os.environ.get("NUMPY_TYPING_TEST_CLEAR_CACHE", True))]: the
    value is a [str] when the variable is set, and a [str] is true when it
    is not empty. *)
Definition clear_cache_requested : bool :=
  match environ !! "NUMPY_TYPING_TEST_CLEAR_CACHE" with
  | Some v => nonempty v
  | None => true
  end.

(** The first statement of [run_mypy]: [shutil.rmtree(CACHE_DIR)] under its
    condition. *)
Definition clear_cache (st : state) : state :=
  if cache_isdir st && clear_cache_requested
  then {| OUTPUT_MYPY := OUTPUT_MYPY st; cache_isdir := false |}
  else st.

Definition directories : list string :=
  [PASS_DIR; REVEAL_DIR; FAIL_DIR; MISC_DIR].

(** The body of the loop of [run_mypy] for one directory. *)
Definition run_directory (directory : string)
    (output : gmap string (list string))
  : result (gmap string (list string)) :=
  let r := api_run ["--config-file"; MYPY_INI; "--cache-dir"; CACHE_DIR;
                    directory] in
  if nonempty (stderr r) then
    Raise (Failed ("Unexpected mypy standard error" +:+ Py.nl +:+ Py.nl
                   +:+ stderr r))
  else if negb ((exit_code r =? 0) || (exit_code r =? 1)) then
    Raise (Failed ("Unexpected mypy exit code: "
                   +:+ Py.str_of_int (exit_code r) +:+ Py.nl +:+ Py.nl
                   +:+ stdout r))
  else
    let out := Py.remove_char "*" (stdout r) in
    let iterator := groupby _key_func (Py.split Py.nl out) in
    Ok (dict_update output
          (List.filter (fun kv => nonempty kv.1) iterator)).

Fixpoint run_directories (ds : list string)
    (output : gmap string (list string))
  : result (gmap string (list string)) :=
  match ds with
  | [] => Ok output
  | d :: ds' =>
      match run_directory d output with
      | Ok output' => run_directories ds' output'
      | Raise e => Raise e
      end
  end.

(** [run_mypy]: the state it leaves when it returns, or the exception.  The
    state left behind an exception is not reported: the fixture has failed
    and no test of the module runs. *)
Definition run_mypy (st : state) : result state :=
  let st1 := clear_cache st in
  match run_directories directories (OUTPUT_MYPY st1) with
  | Ok output => Ok {| OUTPUT_MYPY := output; cache_isdir := cache_isdir st1 |}
  | Raise e => Raise e
  end.

(** [test_success] *)
Definition test_success (output_mypy : gmap string (list string))
    (path : string) : result unit :=
  match output_mypy !! path with
  | Some lines =>
      let msg := "Unexpected mypy output" +:+ Py.nl +:+ Py.nl in
      let msg := msg +:+ Py.join Py.nl (List.map _strip_filename lines) in
      Raise (AssertionError msg)
  | None => Ok tt
  end.

(** The regular expressions of [test_fail] and [test_reveal], matched with
    [re.match]. *)

(** The longest prefix of digits, and the rest. *)
Fixpoint take_digits (s : string) : string * string :=
  match s with
  | EmptyString => (EmptyString, EmptyString)
  | String c s' =>
      if Py.is_digit c
      then let '(d, r) := take_digits s' in (String c d, r)
      else (EmptyString, s)
  end.

(** [.+$] at the end of a pattern: one character or more, none of them a
    line end, up to the end of the text or to a line end that is its last
    character. *)
Fixpoint dot_star_end (s : string) : bool :=
  match s with
  | EmptyString => true
  | String c s' =>
      if Ascii.eqb c (Py.chr 10) then String.eqb s' EmptyString
      else dot_star_end s'
  end.

Definition dot_plus_end (s : string) : bool :=
  match s with
  | EmptyString => false
  | String c s' => negb (Ascii.eqb c (Py.chr 10)) && dot_star_end s'
  end.

(** [re.match(r"(?P<lineno>\d+): (error|note): .+$", s)]: the group
    [lineno] of the match. *)
Definition match_fail_line (s : string) : option string :=
  let '(d, r) := take_digits s in
  if nonempty d &&
     ((Py.startswith ": error: " r && dot_plus_end (Py.drop 9 r))
      || (Py.startswith ": note: " r && dot_plus_end (Py.drop 8 r)))
  then Some d else None.

(** [re.match(r"(?P<lineno>\d+): note: .+$", s)] *)
Definition match_reveal_line (s : string) : option string :=
  let '(d, r) := take_digits s in
  if nonempty d && Py.startswith ": note: " r && dot_plus_end (Py.drop 8 r)
  then Some d else None.

(** [errors[lineno]] on the [defaultdict(lambda: "")].  The entry that a
    missing key gets on such a read is not modelled: [test_fail] reads each
    line number once, after the last test of membership for it. *)
Definition errors_get (errors : gmap Z string) (lineno : Z) : string :=
  default EmptyString (errors !! lineno).

(** The first loop of [test_fail]. *)
Fixpoint collect_errors (out : list string) (errors : gmap Z string)
  : result (gmap Z string) :=
  match out with
  | [] => Ok errors
  | error_line :: out' =>
      let error_line := hd EmptyString
                          (Py.split1 Py.nl (_strip_filename error_line)) in
      match match_fail_line error_line with
      | None =>
          Raise (ValueError ("Unexpected error line format: " +:+ error_line))
      | Some group =>
          lineno ← Py.int group;
          collect_errors out'
            (<[lineno := errors_get errors lineno +:+ error_line +:+ Py.nl]>
               errors)
      end
  end.

Definition _FAIL_MSG1 (lineno : Z) (expression error : string) : string :=
  "Extra error at line " +:+ Py.str_of_int lineno +:+ Py.nl +:+ Py.nl
  +:+ "Expression: " +:+ expression +:+ Py.nl
  +:+ "Extra error: " +:+ Py.repr error +:+ Py.nl.

Definition _FAIL_MSG2 (lineno : Z) (expression a b : string) : string :=
  "Error mismatch at line " +:+ Py.str_of_int lineno +:+ Py.nl +:+ Py.nl
  +:+ "Expression: " +:+ expression +:+ Py.nl
  +:+ "Expected error: " +:+ Py.repr a +:+ Py.nl
  +:+ "Observed error: " +:+ Py.repr b +:+ Py.nl.

(** [_test_fail] *)
Definition _test_fail (path expression error : string)
    (expected_error : option string) (lineno : Z) : result unit :=
  match expected_error with
  | None => Raise (AssertionError (_FAIL_MSG1 lineno expression error))
  | Some expected_error =>
      if negb (Py.contains error expected_error) then
        Raise (AssertionError
                 (_FAIL_MSG2 lineno expression expected_error error))
      else Ok tt
  end.

(** The body of the second loop of [test_fail] for the line [line] of
    number [lineno]; [target_line = lines[lineno - 1]] is [line]. *)
Definition check_fail_line (path : string) (errors : gmap Z string)
    (lineno : Z) (line : string) : result unit :=
  if Py.startswith "#" line
     || (negb (Py.contains " E:" line) && bool_decide (errors !! lineno = None))
  then Ok tt
  else
    let target_line := line in
    if Py.contains "# E:" target_line then
      let '(expression, _, marker) := Py.partition "  # E: " target_line in
      let expected_error := Py.strip (errors_get errors lineno) in
      let marker := Py.strip marker in
      _test_fail path expression marker (Some expected_error) lineno
    else
      Raise (Failed ("Unexpected mypy output at line "
                     +:+ Py.str_of_int lineno +:+ Py.nl +:+ Py.nl
                     +:+ errors_get errors lineno)).

(** The second loop of [test_fail]. *)
Definition check_fail_lines (path : string) (errors : gmap Z string)
    (lines : list string) : result unit :=
  for_each (fun '(i, line) =>
              let lineno := Z.of_nat i + 1 in
              check_fail_line path errors lineno line)
    (enumerate 0 lines).

(** [test_fail]; [src] is the text of the file [path]. *)
Definition test_fail (output_mypy : gmap string (list string))
    (path : string) (src : string) : result unit :=
  let lines := Py.readlines src in
  match output_mypy !! path with
  | None => Raise (AssertionError EmptyString)
  | Some out =>
      match collect_errors out ∅ with
      | Ok errors => check_fail_lines path errors lines
      | Raise e => Raise e
      end
  end.

(** *** [str.format]

    [fmt.format( **kwargs)] with no positional arguments, after CPython's
    [MarkupIterator_next], [parse_field], [field_name_split] and
    [get_field_object].  Embedded in full: literal text and the escapes
    [{{] and [}}]; the errors of a format string that is not well formed;
    the look-up of the first part of a field name.  Not embedded: what
    happens to the value found when the field goes on with an attribute or
    an index, a conversion or a format specification that is not empty;
    there the result is [Raise Unmodelled]. *)

Definition PY_SSIZE_T_MAX : Z := 2 ^ 63 - 1.

Inductive field_index :=
| NotIndex
| Index (n : Z)
| TooManyDigits.

Fixpoint get_integer_go (acc : Z) (s : string) : field_index :=
  match s with
  | EmptyString => Index acc
  | String c s' =>
      if negb (Py.is_digit c) then NotIndex
      else if acc >? (PY_SSIZE_T_MAX - Py.digit_val c) / 10 then TooManyDigits
      else get_integer_go (acc * 10 + Py.digit_val c) s'
  end.

(** [get_integer]: [NotIndex] stands for the [-1] without an error. *)
Definition get_integer (s : string) : field_index :=
  match s with
  | EmptyString => NotIndex
  | _ => get_integer_go 0 s
  end.

(** [field_name_split]: the part before the first [.] or [[], and the
    rest. *)
Fixpoint field_name_split (s : string) : string * string :=
  match s with
  | EmptyString => (EmptyString, EmptyString)
  | String c s' =>
      if Ascii.eqb c "." || Ascii.eqb c "["
      then (EmptyString, s)
      else let '(a, r) := field_name_split s' in (String c a, r)
  end.

(** [get_field_object] and the rendering of one field.  [plain] says that
    the field has neither a conversion nor a format specification.  An
    empty or a numeric first part indexes the positional arguments, of
    which there are none. *)
(** The message of the [IndexError] of a field that names a positional
    argument; [str.format] is called with keyword arguments only, and an
    empty field name stands for the argument 0. *)
Definition replacement_index_message (i : Z) : string :=
  "Replacement index " +:+ Py.str_of_int i
  +:+ " out of range for positional args tuple".

Definition render_field (kwargs : gmap string string) (field_name : string)
    (plain : bool) : result string :=
  let '(first, rest) := field_name_split field_name in
  obj ← match get_integer first with
        | TooManyDigits =>
            Raise (ValueError "Too many decimal digits in format string")
        | Index i => Raise (IndexError (replacement_index_message i))
        | NotIndex =>
            if nonempty first then
              match kwargs !! first with
              | Some v => Ok v
              | None => Raise (KeyError (KStr first))
              end
            else Raise (IndexError (replacement_index_message 0))
        end;
  if nonempty rest || negb plain then Raise Unmodelled else Ok obj.

Inductive fmode :=
| FText
| FName (name : string)
| FBracket (name : string)
| FSpec (name : string) (plain : bool) (count : nat).

Definition prepend (p : string) (r : result string) : result string :=
  match r with
  | Ok s => Ok (p +:+ s)
  | Raise e => Raise e
  end.

Definition snoc (s : string) (c : ascii) : string :=
  s +:+ String c EmptyString.

Fixpoint format_go (kwargs : gmap string string) (m : fmode) (s : string)
  : result string :=
  match s with
  | EmptyString =>
      match m with
      | FText => Ok EmptyString
      | FName _ | FBracket _ =>
          Raise (ValueError "expected '}' before end of string")
      | FSpec _ _ _ => Raise (ValueError "unmatched '{' in format spec")
      end
  | String c s' =>
      match m with
      | FText =>
          if Ascii.eqb c "{" then
            match s' with
            | EmptyString =>
                Raise (ValueError "Single '{' encountered in format string")
            | String d s'' =>
                if Ascii.eqb d "{"
                then prepend "{" (format_go kwargs FText s'')
                else format_go kwargs (FName EmptyString) s'
            end
          else if Ascii.eqb c "}" then
            match s' with
            | String "}" s'' => prepend "}" (format_go kwargs FText s'')
            | _ => Raise (ValueError "Single '}' encountered in format string")
            end
          else prepend (String c EmptyString) (format_go kwargs FText s')
      | FName n =>
          if Ascii.eqb c "{" then
            Raise (ValueError "unexpected '{' in field name")
          else if Ascii.eqb c "[" then format_go kwargs (FBracket (snoc n c)) s'
          else if Ascii.eqb c "}" then
            match render_field kwargs n true with
            | Ok v => prepend v (format_go kwargs FText s')
            | Raise e => Raise e
            end
          else if Ascii.eqb c ":" then format_go kwargs (FSpec n true 1) s'
          else if Ascii.eqb c "!" then
            match s' with
            | EmptyString =>
                Raise (ValueError
                  "end of string while looking for conversion specifier")
            | String _ EmptyString =>
                Raise (ValueError "unmatched '{' in format spec")
            | String _ (String e s''') =>
                if Ascii.eqb e "}" then
                  match render_field kwargs n false with
                  | Ok v => prepend v (format_go kwargs FText s''')
                  | Raise e => Raise e
                  end
                else if Ascii.eqb e ":"
                then format_go kwargs (FSpec n false 1) s'''
                else Raise (ValueError
                              "expected ':' after conversion specifier")
            end
          else format_go kwargs (FName (snoc n c)) s'
      | FBracket n =>
          if Ascii.eqb c "]" then format_go kwargs (FName (snoc n c)) s'
          else format_go kwargs (FBracket (snoc n c)) s'
      | FSpec n plain count =>
          if Ascii.eqb c "{" then format_go kwargs (FSpec n false (S count)) s'
          else if Ascii.eqb c "}" then
            match count with
            | S (S k) => format_go kwargs (FSpec n false (S k)) s'
            | _ =>
                match render_field kwargs n plain with
                | Ok v => prepend v (format_go kwargs FText s')
                | Raise e => Raise e
                end
            end
          else format_go kwargs (FSpec n false count) s'
      end
  end.

Definition py_format (fmt : string) (kwargs : gmap string string)
  : result string :=
  format_go kwargs FText fmt.

(** [re.findall(r"\{(.*?)\}", s)]: from each opening brace to the next
    closing brace on the same line.  [inside] is the text read since the
    opening brace. *)
Fixpoint findall_go (inside : option string) (s : string) : list string :=
  match s with
  | EmptyString => []
  | String c s' =>
      match inside with
      | None =>
          if Ascii.eqb c "{" then findall_go (Some EmptyString) s'
          else findall_go None s'
      | Some acc =>
          if Ascii.eqb c "}" then acc :: findall_go None s'
          else if Ascii.eqb c (Py.chr 10) then findall_go None s'
          else findall_go (Some (snoc acc c)) s'
      end
  end.

Definition findall_braces (s : string) : list string := findall_go None s.

(** *** The format table *)

(** Of [numpy.typing.mypy_plugin], which is not among the sources: the
    entry [dct['_NBitInt']] that [_construct_format_dict] computes from
    [_PRECISION_DICT], the name [_C_INTP], and the list
    [_EXTENDED_PRECISION_LIST].  Of numpy itself: the [kind] and the
    [itemsize] of the [dtype] of each scalar type. *)
Variable dct_NBitInt : string.
Variable _C_INTP : string.
Variable _EXTENDED_PRECISION_LIST : list string.
Variable np_dtype : string -> string * Z.

(** [_construct_ctypes_dict] *)
Definition ctypes_names : list (string * string) :=
  [ ("ubyte", "c_ubyte"); ("ushort", "c_ushort"); ("uintc", "c_uint");
    ("uint", "c_ulong"); ("ulonglong", "c_ulonglong"); ("byte", "c_byte");
    ("short", "c_short"); ("intc", "c_int"); ("int_", "c_long");
    ("longlong", "c_longlong"); ("single", "c_float");
    ("double", "c_double"); ("longdouble", "c_longdouble") ].

Definition ctypes_step
    (acc : gmap string string * gmap (string * Z) string)
    (item : string * string)
  : gmap string string * gmap (string * Z) string :=
  let '(ret, visited) := acc in
  let '(np_name, ct_name) := item in
  let key := np_dtype np_name in
  let v := default ("ctypes." +:+ ct_name) (visited !! key) in
  (<[ct_name := v]> ret, <[key := v]> visited).

Definition _construct_ctypes_dict : gmap string string :=
  (fold_left ctypes_step ctypes_names (∅, ∅)).1.

(** [_construct_format_dict] *)
Definition _construct_format_dict : gmap string string :=
  dict_update ∅
  [ ("uint8", "numpy.uint8");
    ("UInt8", "numpy.unsignedinteger[numpy._typing.8Bit]");
    ("uint16", "numpy.uint16");
    ("UInt16", "numpy.unsignedinteger[numpy._typing._16Bit]");
    ("uint32", "numpy.uint32");
    ("UInt32", "numpy.unsignedinteger[numpy._typing._32Bit]");
    ("uint64", "numpy.uint64");
    ("UInt64", "numpy.unsignedinteger[numpy._typing._64Bit]");
    ("uint128", "numpy.uint128");
    ("UInt128", "numpy.unsignedinteger[numpy._typing._128Bit]");
    ("uint256", "numpy.uint256");
    ("UInt256", "numpy.unsignedinteger[numpy._typing._256Bit]");
    ("int8", "numpy.int8");
    ("int16", "numpy.int16");
    ("Int16", "numpy.signedinteger[numpy._typing._16Bit]");
    ("int32", "numpy.int32");
    ("Int32", "numpy.signedinteger[numpy._typing._32Bit]");
    ("int64", "numpy.int64");
    ("Int64", "numpy.signedinteger[numpy._typing._64Bit]");
    ("int128", "numpy.int128");
    ("Int128", "numpy.signedinteger[numpy._typing._128Bit]");
    ("int256", "numpy.int256");
    ("Int256", "numpy.signedinteger[numpy._typing._256Bit]");
    ("float16", "numpy.float16");
    ("Float16", "numpy.floating[numpy._typing._16Bit]");
    ("float32", "numpy.float32");
    ("Float32", "numpy.floating[numpy._typing._32Bit]");
    ("float64", "numpy.float64");
    ("Float64", "numpy.floating[numpy._typing._64Bit]");
    ("float80", "numpy.float80");
    ("float96", "numpy.float96");
    ("float128", "numpy.float128");
    ("Float128", "numpy.floating[numpy._typing._128Bit]");
    ("float256", "numpy.float256");
    ("complex64", "numpy.complex64");
    ("complex128", "numpy.complex128");
    ("complex160", "numpy.complex160");
    ("complex192", "numpy.complex192");
    ("complex256", "numpy.complex256");
    ("complex512", "numpy.complex512");
    ("ubyte", "numpy.ubyte");
    ("ushort", "numpy.ushort");
    ("uintc", "numpy.uintc");
    ("uintp", "numpy.uintp");
    ("uint", "numpy.uint");
    ("ulonglong", "numpy.ulonglong");
    ("byte", "numpy.byte");
    ("short", "numpy.short");
    ("intc", "numpy.intc");
    ("intp", "numpy.intp");
    ("int_", "numpy.int_");
    ("longlong", "numpy.longlong");
    ("half", "numpy.half");
    ("single", "numpy.single");
    ("double", "numpy.double");
    ("longdouble", "numpy.longdouble");
    ("csingle", "numpy.csingle");
    ("cdouble", "numpy.cdouble");
    ("clongdouble", "numpy.clongdouble");
    ("_NBitInt", dct_NBitInt);
    ("c_intp", "ctypes." +:+ _C_INTP) ].

(** [FORMAT_DICT], after its [update]. *)
Definition FORMAT_DICT : gmap string string :=
  _construct_ctypes_dict ∪ _construct_format_dict.

(** *** Arrays of numpy

    An array of texts of one dimension is the list of its elements as Python
    gets them. *)

(** An element of an array of [str_] as Python gets it: the stored text
    without the NUL characters at its end. *)
Definition np_str (s : string) : string :=
  Py.rstrip_by (fun c => Ascii.eqb c (Py.chr 0)) s.

(** [a[i]] on an array of one dimension: negative indices count from the
    end.  [test_reveal] comes here with an index that a list has
    accepted. *)
Definition np_getitem (a : list string) (i : Z) : result string :=
  let n := Z.of_nat (length a) in
  let j := if i <? 0 then i + n else i in
  let out_of_bounds :=
    Raise (IndexError ("index " +:+ Py.str_of_int i
                       +:+ " is out of bounds for axis 0 with size "
                       +:+ Py.str_of_int n)) in
  if (0 <=? j) && (j <? n) then
    match a !! Z.to_nat j with
    | Some x => Ok x
    | None => out_of_bounds
    end
  else out_of_bounds.

(** [np.char.partition(a, sep)]: the three columns of [str.partition] on
    the elements of [a]. *)
Definition np_char_partition (a : list string) (sep : string)
  : list (string * string * string) :=
  List.map (fun x => let '(before, s, after) := Py.partition sep (np_str x) in
                     (np_str before, np_str s, np_str after)) a.

(** *** [_parse_reveals] and [test_reveal] *)

Definition unrecognized (k : string) : string :=
  "<UNRECOGNIZED FORMAT KEY " +:+ Py.repr k +:+ ">".

(** The dictionary [kwargs] of [_parse_reveals]. *)
Definition format_kwargs (table : gmap string string) (key_set : gset string)
  : gmap string string :=
  set_to_map (fun k => (k, default (unrecognized k) (table !! k))) key_set.

(** The lines 336 to 341 of [_parse_reveals]: the substitution of the format
    keys in [comments]. *)
Definition substitute (table : gmap string string) (comments : string)
  : result string :=
  let key_set : gset string := list_to_set (findall_braces comments) in
  py_format comments (format_kwargs table key_set).

(** [_parse_reveals]; [src] is what [file.read()] returns. *)
Definition _parse_reveals (src : string)
  : result (list string * list string) :=
  let string := Py.remove_char "*" src in
  let rows := np_char_partition (Py.split Py.nl string) "  # E: " in
  let expression_array := List.map (fun r => r.1.1) rows in
  let comments_array := List.map (fun r => r.2) rows in
  let comments := Py.join "/n" comments_array in
  fmt_str ← substitute FORMAT_DICT comments;
  Ok (expression_array, Py.split "/n" fmt_str).

Definition _REVEAL_MSG (lineno : Z) (expression a b : string) : string :=
  "Reveal mismatch at line " +:+ Py.str_of_int lineno +:+ Py.nl +:+ Py.nl
  +:+ "Expression: " +:+ expression +:+ Py.nl
  +:+ "Expected reveal: " +:+ Py.repr a +:+ Py.nl
  +:+ "Observed reveal: " +:+ Py.repr b +:+ Py.nl.

(** [_test_reveal] *)
Definition _test_reveal (path expression reveal expected_reveal : string)
    (lineno : Z) : result unit :=
  let stripped_reveal := _STRIP_PATTERN_sub reveal in
  let stripped_expected_reveal := _STRIP_PATTERN_sub expected_reveal in
  if negb (Py.contains stripped_reveal stripped_expected_reveal) then
    Raise (AssertionError
             (_REVEAL_MSG lineno expression stripped_expected_reveal
                stripped_reveal))
  else Ok tt.

(** The body of the loop of [test_reveal]. *)
Definition check_reveal_line (path : string)
    (expression_array reveal_list : list string) (error_line : string)
  : result unit :=
  let error_line := _strip_filename error_line in
  match match_reveal_line error_line with
  | None =>
      Raise (ValueError ("Unexpected reveal line format: " +:+ error_line))
  | Some group =>
      n ← Py.int group;
      let lineno := n - 1 in
      if negb (Py.contains "Revealed type is" error_line)
      then Raise (AssertionError EmptyString)
      else
        marker ← Py.index reveal_list lineno;
        expression ← np_getitem expression_array lineno;
        _test_reveal path expression marker error_line (1 + lineno)
  end.

Definition check_reveal_lines (path : string)
    (expression_array reveal_list : list string) (out : list string)
  : result unit :=
  for_each (check_reveal_line path expression_array reveal_list) out.

(** [test_reveal]; [src] is the text of the file [path]. *)
Definition test_reveal (output_mypy : gmap string (list string))
    (path : string) (src : string) : result unit :=
  match _parse_reveals src with
  | Raise e => Raise e
  | Ok (expression_array, reveal_list) =>
      match output_mypy !! path with
      | None => Raise (AssertionError EmptyString)
      | Some out => check_reveal_lines path expression_array reveal_list out
      end
  end.

(** *** [test_extended_precision] *)

Definition LINENO_MAPPING : gmap Z string :=
  list_to_map
    [ (3, "uint128"); (4, "uint256"); (6, "int128"); (7, "int256");
      (9, "float80"); (10, "float96"); (11, "float128"); (12, "float256");
      (14, "complex160"); (15, "complex192"); (16, "complex256");
      (17, "complex512") ].

(** [d[k]] on a dictionary with [int] keys, and with [str] keys. *)
Definition getitem_int (d : gmap Z string) (k : Z) : result string :=
  match d !! k with
  | Some v => Ok v
  | None => Raise (KeyError (KInt k))
  end.

Definition getitem_str (d : gmap string string) (k : string) : result string :=
  match d !! k with
  | Some v => Ok v
  | None => Raise (KeyError (KStr k))
  end.

(** [*_, _lineno, msg_typ, msg = parts]: the last three of [parts]. *)
Definition unpack_last3 (parts : list string)
  : result (string * string * string) :=
  match rev parts with
  | msg :: msg_typ :: _lineno :: _ => Ok (_lineno, msg_typ, msg)
  | _ =>
      Raise (ValueError
               ("not enough values to unpack (expected at least 3, got "
                +:+ Py.str_of_int (Z.of_nat (length parts)) +:+ ")"))
  end.

Definition in_list (x : string) (l : list string) : bool :=
  existsb (String.eqb x) l.

(** The body of the loop of [test_extended_precision]. *)
Definition check_extended_line (path : string) (expression_list : list string)
    (_msg : string) : result unit :=
  '(_lineno, msg_typ, msg) ← unpack_last3 (Py.split ":" _msg);
  let msg := _strip_filename msg in
  lineno ← Py.int _lineno;
  line ← Py.index expression_list (lineno - 1);
  let expression := Py.rstrip_nl line in
  let msg_typ := Py.strip msg_typ in
  if negb (in_list msg_typ ["error"; "note"])
  then Raise (AssertionError EmptyString)
  else
    name ← getitem_int LINENO_MAPPING lineno;
    if in_list name _EXTENDED_PRECISION_LIST then
      if String.eqb msg_typ "error" then
        Raise (ValueError ("Unexpected reveal line format: "
                           +:+ Py.str_of_int lineno))
      else
        marker ← getitem_str FORMAT_DICT name;
        _test_reveal path expression marker msg lineno
    else
      if String.eqb msg_typ "error" then
        let marker := "Module has no attribute" in
        _test_fail path expression marker (Some msg) lineno
      else Ok tt.

Definition check_extended_lines (path : string) (expression_list : list string)
    (out : list string) : result unit :=
  for_each (check_extended_line path expression_list) out.

(** [test_extended_precision]; [src] is the text of the file
    [extended_precision.pyi] of [MISC_DIR]. *)
Definition test_extended_precision
    (output_mypy : gmap string (list string)) (src : string) : result unit :=
  let path := os_path_join MISC_DIR "extended_precision.pyi" in
  match output_mypy !! path with
  | None => Raise (AssertionError EmptyString)
  | Some out => check_extended_lines path (Py.readlines src) out
  end.

(** *** [get_test_cases] *)

(** [os.path.splitext] of [posixpath]: the extension begins at the last dot
    of the last component of the path, unless only dots precede that dot in
    the component. *)
Fixpoint rcut (sep : ascii) (s : string) : option (string * string) :=
  match s with
  | EmptyString => None
  | String c s' =>
      match rcut sep s' with
      | Some (a, b) => Some (String c a, b)
      | None => if Ascii.eqb c sep then Some (EmptyString, s') else None
      end
  end.

Fixpoint only_dots (s : string) : bool :=
  match s with
  | EmptyString => true
  | String c s' => Ascii.eqb c "." && only_dots s'
  end.

Definition splitext (p : string) : string * string :=
  let '(head, name) :=
    match rcut "/" p with
    | Some (d, name) => (d +:+ "/", name)
    | None => (EmptyString, p)
    end in
  match rcut "." name with
  | Some (stem, e) =>
      if only_dots stem then (p, EmptyString)
      else (head +:+ stem, String "." e)
  | None => (p, EmptyString)
  end.

(** A directory as [os.walk] sees it: its sub-directories and its files, in
    the order of the listing.  Links to directories are not followed by
    [os.walk] and count as having nothing below them. *)
#[warnings="-register-all"]
Inductive tree :=
| Tree (dirs : list (string * tree)) (files : list string).

(** [os.walk(root)], top down: the triples [(root, dirs, files)]. *)
Fixpoint walk (root : string) (t : tree)
  : list (string * list string * list string) :=
  match t with
  | Tree dirs files =>
      (root, List.map fst dirs, files)
      :: (fix below (ds : list (string * tree)) :=
            match ds with
            | [] => []
            | (name, sub) :: ds' =>
                walk (os_path_join root name) sub ++ below ds'
            end) dirs
  end.

(** The cases of one directory of the walk; a case is the pair of the
    arguments of [pytest.param]: the path and the [id]. *)
Definition cases_of_files (root : string) (files : list string)
  : list (string * string) :=
  flat_map (fun fname =>
              let '(short_fname, ext) := splitext fname in
              if in_list ext [".pyi"; ".py"]
              then [(os_path_join root fname, short_fname)]
              else [])
    files.

(** [get_test_cases] *)
Definition get_test_cases (directory : string) (t : tree)
  : list (string * string) :=
  flat_map (fun '(root, _, files) => cases_of_files root files)
    (walk directory t).

(** *** Notions used in the properties *)

(** The call of mypy for one directory, the lines of its output as
    [run_mypy] reads them, and the pairs it adds to [OUTPUT_MYPY]. *)
Definition mypy_call (directory : string) : mypy_result :=
  api_run ["--config-file"; MYPY_INI; "--cache-dir"; CACHE_DIR; directory].

Definition output_lines (directory : string) : list string :=
  Py.split Py.nl (Py.remove_char "*" (stdout (mypy_call directory))).

Definition parsed_output (directory : string)
  : list (string * list string) :=
  List.filter (fun kv => nonempty kv.1)
    (groupby _key_func (output_lines directory)).

(** The invocation of mypy failed: something on the standard error, or an
    exit code that is neither 0 nor 1. *)
Definition invocation_failed (r : mypy_result) : Prop :=
  stderr r ≠ EmptyString ∨ (exit_code r ≠ 0 ∧ exit_code r ≠ 1).

(** What the loop of [run_mypy] leaves in [OUTPUT_MYPY]. *)
Definition updated_output (ds : list string)
    (output : gmap string (list string)) : gmap string (list string) :=
  fold_left (fun out d => dict_update out (parsed_output d)) ds output.

(** A text of digits. *)
Fixpoint all_digits (s : string) : bool :=
  match s with
  | EmptyString => true
  | String c s' => Py.is_digit c && all_digits s'
  end.

(** The first and the last character of a text are not white space. *)
Definition first_not_space (m : string) : bool :=
  match m with
  | EmptyString => false
  | String c _ => negb (Py.is_space c)
  end.

Fixpoint last_not_space (m : string) : bool :=
  match m with
  | EmptyString => false
  | String c EmptyString => negb (Py.is_space c)
  | String _ m' => last_not_space m'
  end.

(** An output line as the first loop of [test_fail] reads it, and the line
    number it reports. *)
Definition fail_error_line (raw : string) : string :=
  hd EmptyString (Py.split1 Py.nl (_strip_filename raw)).

Definition fail_lineno (raw : string) : option Z :=
  match match_fail_line (fail_error_line raw) with
  | Some group =>
      match Py.int group with
      | Ok n => Some n
      | Raise _ => None
      end
  | None => None
  end.

(** An output line passes the body of the loop of [test_reveal]: it matches
    the pattern, says [Revealed type is], names a line of the file, and the
    expected reveal of that line, stripped, is found in the line, stripped. *)
Definition reveal_line_ok (expression_array reveal_list : list string)
    (raw : string) : Prop :=
  ∃ group n marker expression,
    match_reveal_line (_strip_filename raw) = Some group ∧
    Py.int group = Ok n ∧
    Py.contains "Revealed type is" (_strip_filename raw) = true ∧
    Py.index reveal_list (n - 1) = Ok marker ∧
    np_getitem expression_array (n - 1) = Ok expression ∧
    Py.contains (_STRIP_PATTERN_sub marker)
      (_STRIP_PATTERN_sub (_strip_filename raw)) = true.

(** The keys of [LINENO_MAPPING]. *)
Definition LINENO_MAPPING_keys : list Z :=
  [3; 4; 6; 7; 9; 10; 11; 12; 14; 15; 16; 17].

(** A text of comments seen as literal pieces and format keys [{name}]. *)
Inductive piece :=
| Lit (s : string)
| Key (name : string).

(** Every character of a text satisfies [f]. *)
Fixpoint all_chars (f : ascii → bool) (s : string) : bool :=
  match s with
  | EmptyString => true
  | String c s' => f c && all_chars f s'
  end.

(** A character other than the two braces. *)
Definition not_brace (c : ascii) : bool :=
  negb (Ascii.eqb c "{") && negb (Ascii.eqb c "}").

(** The characters that end or structure a field of [str.format], and the
    line end that [.] of [re] does not match. *)
Definition name_char (c : ascii) : bool :=
  not_brace c && negb (Ascii.eqb c "[") && negb (Ascii.eqb c ".")
  && negb (Ascii.eqb c ":") && negb (Ascii.eqb c "!")
  && negb (Ascii.eqb c (Py.chr 10)).

(** [str.format] does not read the name as the index of a positional
    argument. *)
Definition not_an_index (name : string) : bool :=
  match get_integer name with
  | NotIndex => true
  | _ => false
  end.

(** A plain key: not empty, without the characters above, and not read as
    the index of a positional argument. *)
Definition plain_key (name : string) : bool :=
  nonempty name && all_chars name_char name && not_an_index name.

(** A literal piece has no brace, a key is plain. *)
Definition piece_ok (p : piece) : bool :=
  match p with
  | Lit s => all_chars not_brace s
  | Key name => plain_key name
  end.

(** The text of the pieces, and the text with each key replaced. *)
Fixpoint source (ps : list piece) : string :=
  match ps with
  | [] => EmptyString
  | Lit s :: ps' => s +:+ source ps'
  | Key name :: ps' => "{" +:+ name +:+ "}" +:+ source ps'
  end.

(** What a key is replaced by. *)
Definition replacement (table : gmap string string) (name : string)
  : string :=
  match table !! name with
  | Some v => v
  | None => "<UNRECOGNIZED FORMAT KEY " +:+ Py.repr name +:+ ">"
  end.

Fixpoint expand (table : gmap string string) (ps : list piece) : string :=
  match ps with
  | [] => EmptyString
  | Lit s :: ps' => s +:+ expand table ps'
  | Key name :: ps' => replacement table name +:+ expand table ps'
  end.

(** The names of the keys, in the order of the text. *)
Fixpoint keys (ps : list piece) : list string :=
  match ps with
  | [] => []
  | Lit _ :: ps' => keys ps'
  | Key name :: ps' => name :: keys ps'
  end.

(** Characters that [repr] leaves as they are, between single quotes. *)
Definition quotable (c : ascii) : bool :=
  Py.between 32 126 c && negb (Ascii.eqb c Py.squote)
  && negb (Ascii.eqb c Py.backslash).

(** The rows that [_parse_reveals] cuts the file into, the expressions and
    the text of the comments. *)
Definition reveal_rows (src : string) : list (string * string * string) :=
  np_char_partition (Py.split Py.nl (Py.remove_char "*" src)) "  # E: ".

Definition reveal_expressions (src : string) : list string :=
  List.map (fun r => r.1.1) (reveal_rows src).

Definition reveal_comments (src : string) : string :=
  Py.join "/n" (List.map (fun r => r.2) (reveal_rows src)).

(** The output lines that report the line number [n], and the text that the
    first loop of [test_fail] accumulates for them. *)
Definition lines_for (n : Z) (out : list string) : list string :=
  List.filter (fun raw => bool_decide (fail_lineno raw = Some n)) out.

Fixpoint concat_lines (l : list string) : string :=
  match l with
  | [] => EmptyString
  | raw :: l' => fail_error_line raw +:+ Py.nl +:+ concat_lines l'
  end.

(** The second loop of [test_fail] lets the line [line] of number [n]
    pass, for the output [out] of mypy. *)
Definition line_accepted (out : list string) (n : Z) (line : string) : Prop :=
  Py.startswith "#" line = true
  ∨ (Py.contains " E:" line = false ∧ lines_for n out = [])
  ∨ (Py.contains "# E:" line = true ∧
     Py.contains (Py.strip (Py.partition "  # E: " line).2)
       (Py.strip (concat_lines (lines_for n out))) = true).

(** Two results of the first loop of [test_fail] that differ at most for the
    line number [n]. *)
Definition same_errors_but (n : Z) (r1 r2 : result (gmap Z string)) : Prop :=
  match r1, r2 with
  | Ok e1, Ok e2 => ∀ m, m ≠ n → e1 !! m = e2 !! m
  | Raise x1, Raise x2 => x1 = x2
  | _, _ => False
  end.

(** The last character of a text. *)
Fixpoint last_char (s : string) : option ascii :=
  match s with
  | EmptyString => None
  | String c EmptyString => Some c
  | String _ s' => last_char s'
  end.

(** The name of [ctypes] under which [_construct_ctypes_dict] files the
    [dtype] [key]: the first name of the table whose scalar type has that
    [kind] and that [itemsize], among the items [l]. *)
Definition first_ctypes (key : string * Z) (l : list (string * string))
  : option string :=
  (fun item => "ctypes." +:+ item.2) <$>
  List.find (fun item => bool_decide (np_dtype item.1 = key)) l.

(** The names of the files and of the directories of a tree have no [/]. *)
Definition no_slash (name : string) : bool := negb (Py.has_char "/" name).

Fixpoint names_ok (t : tree) : bool :=
  match t with
  | Tree dirs files =>
      forallb no_slash files
      && (fix below (ds : list (string * tree)) :=
            match ds with
            | [] => true
            | (name, sub) :: ds' => no_slash name && names_ok sub && below ds'
            end) dirs
  end.

(** The line number that a note of mypy reports, as the loop of
    [test_reveal] reads it. *)
Definition note_lineno (raw : string) : option Z :=
  match match_reveal_line (_strip_filename raw) with
  | Some group =>
      match Py.int group with
      | Ok n => Some n
      | Raise _ => None
      end
  | None => None
  end.

(** A directory with a sub-directory. *)
Definition pass_tree : tree :=
  Tree [ ("sub", Tree [] ["b.pyi"; "notes.txt"]) ] ["a.py"; ".py"].

(** [run] is the last run of the lines of the key [k] in [l]: lines of that
    key that stand together, at the beginning of [l] or after a line of
    another key, with no line of that key after them. *)
Definition last_run (k : string) (l run : list string) : Prop :=
  ∃ pre post,
    l = pre ++ run ++ post ∧ run ≠ [] ∧
    Forall (fun line => _key_func line = k) run ∧
    (∀ x, last pre = Some x → _key_func x ≠ k) ∧
    Forall (fun line => _key_func line ≠ k) post.

(** No line of the output of mypy for the directory [d] has the key [k]. *)
Definition no_line_of (k : string) (d : string) : Prop :=
  Forall (fun line => _key_func line ≠ k) (output_lines d).

(** The lines that the loop of [run_mypy] over the directories [ds] leaves
    under the key [k]: the last run of the key in the output for the last
    directory that has a line of the key. *)
Definition kept_lines (ds : list string) (k : string) (lines : list string)
  : Prop :=
  ∃ ds1 d ds2,
    ds = ds1 ++ d :: ds2 ∧ last_run k (output_lines d) lines ∧
    Forall (no_line_of k) ds2.

(** ** Properties *)

(** Forgets the parameters of the section that the goal does not mention. *)
Local Ltac forget_parameters :=
  try clear np_dtype; try clear _EXTENDED_PRECISION_LIST;
  try clear _C_INTP; try clear dct_NBitInt; try clear api_run;
  try clear environ; try clear DATA_DIR; try clear SRC_DATA_DIR.

(** *** Running mypy *)

Lemma nonempty_true (s : string) : nonempty s = true ↔ s ≠ EmptyString.
Proof. destruct s; simpl; split; congruence. Qed.

Lemma nonempty_false (s : string) : nonempty s = false ↔ s = EmptyString.
Proof. destruct s; simpl; split; congruence. Qed.

Lemma run_directory_ok (d : string) (output : gmap string (list string)) :
  ¬ invocation_failed (mypy_call d) →
  run_directory d output = Ok (dict_update output (parsed_output d)).
Proof.
  intros Hgood. unfold run_directory.
  fold (mypy_call d).
  destruct (nonempty (stderr (mypy_call d))) eqn:Herr.
  { exfalso. apply Hgood. left. by apply nonempty_true. }
  destruct (exit_code (mypy_call d) =? 0) eqn:H0; simpl; [done|].
  destruct (exit_code (mypy_call d) =? 1) eqn:H1; simpl; [done|].
  exfalso. apply Hgood. right. split; [by apply Z.eqb_neq | by apply Z.eqb_neq].
Qed.

Lemma run_directory_failed (d : string) (output : gmap string (list string)) :
  invocation_failed (mypy_call d) →
  ∃ msg, run_directory d output = Raise (Failed msg).
Proof.
  intros Hbad. unfold run_directory. fold (mypy_call d).
  destruct (nonempty (stderr (mypy_call d))) eqn:Herr; [by eexists|].
  apply nonempty_false in Herr.
  destruct Hbad as [Hbad | [H0 H1]]; [done|].
  apply Z.eqb_neq in H0, H1. rewrite H0, H1. simpl. by eexists.
Qed.

Lemma invocation_failed_dec (r : mypy_result) :
  invocation_failed r ∨ ¬ invocation_failed r.
Proof.
  unfold invocation_failed.
  destruct (decide (stderr r = EmptyString)) as [He | He]; [|by left; left].
  destruct (decide (exit_code r = 0)) as [Hz | Hz];
    [right; intros [? | [? ?]]; done|].
  destruct (decide (exit_code r = 1)) as [Ho | Ho];
    [right; intros [? | [? ?]]; done|].
  left. by right.
Qed.

Lemma run_directories_spec (ds : list string)
    (output : gmap string (list string)) :
  (Forall (fun d => ¬ invocation_failed (mypy_call d)) ds ∧
   run_directories ds output = Ok (updated_output ds output))
  ∨ (Exists (fun d => invocation_failed (mypy_call d)) ds ∧
     ∃ msg, run_directories ds output = Raise (Failed msg)).
Proof.
  revert output. induction ds as [|d ds IH]; intros output; simpl.
  - left. split; [constructor | done].
  - destruct (invocation_failed_dec (mypy_call d)) as [Hbad | Hgood].
    + right. split; [by left|].
      destruct (run_directory_failed d output Hbad) as [msg ->]. by eexists.
    + rewrite (run_directory_ok d output Hgood).
      destruct (IH (dict_update output (parsed_output d)))
        as [[Hall Hrun] | [Hex Hrun]].
      * left. split; [by constructor | done].
      * right. split; [by right | done].
Qed.

Lemma Forall_not_Exists {A} (P : A → Prop) (l : list A) :
  Forall (fun x => ¬ P x) l → Exists P l → False.
Proof. intros Hall Hex. induction Hex; inversion Hall; subst; auto. Qed.

Lemma run_mypy_spec (st : state) :
  (is_ok (run_mypy st) = false ↔
   ∃ d, d ∈ directories ∧ invocation_failed (mypy_call d))
  ∧ (∀ e, run_mypy st = Raise e → ∃ msg, e = Failed msg)
  ∧ ((∀ d, d ∈ directories → ¬ invocation_failed (mypy_call d)) →
     ∃ st', run_mypy st = Ok st' ∧
            OUTPUT_MYPY st' = updated_output directories (OUTPUT_MYPY st)).
Proof.
  unfold run_mypy.
  assert (Hout : OUTPUT_MYPY (clear_cache st) = OUTPUT_MYPY st).
  { unfold clear_cache. by destruct (cache_isdir st && clear_cache_requested). }
  rewrite Hout.
  destruct (run_directories_spec directories (OUTPUT_MYPY st))
    as [[Hall ->] | [Hex [msg ->]]]; simpl.
  - split; [|split].
    + split; [done|]. intros (d & Hd & Hbad).
      rewrite Forall_forall in Hall. by destruct (Hall d Hd).
    + intros e He. discriminate.
    + intros _. by eexists.
  - split; [|split].
    + split; [|done]. intros _. by apply Exists_exists.
    + intros e [= <-]. by eexists.
    + intros Hall. exfalso.
      apply (Forall_not_Exists _ _ (proj2 (Forall_forall _ _) Hall) Hex).
Qed.

(** *** The keys of [OUTPUT_MYPY] *)

Lemma dict_update_is_Some {V} (l : list (string * V)) (m : gmap string V)
    (k : string) :
  is_Some (dict_update m l !! k) ↔ is_Some (m !! k) ∨ k ∈ l.*1.
Proof.
  forget_parameters.
  unfold dict_update. revert m.
  induction l as [|[k' v] l IH]; intros m; simpl.
  - rewrite elem_of_nil. tauto.
  - rewrite IH, lookup_insert_is_Some, elem_of_cons.
    destruct (decide (k' = k)) as [-> | Hne]; [tauto|].
    split; [intros [[? | [_ ?]] | ?] | intros [? | [? | ?]]];
      try tauto; try congruence.
Qed.

Lemma dict_update_lookup_Some {V} (l : list (string * V)) (m : gmap string V)
    (k : string) (v : V) :
  dict_update m l !! k = Some v → m !! k = Some v ∨ (k, v) ∈ l.
Proof.
  unfold dict_update. revert m.
  induction l as [|[k' v'] l IH]; intros m; simpl; [by left|].
  intros H. destruct (IH _ H) as [Hm | Hl].
  - destruct (decide (k' = k)) as [-> | Hne].
    + rewrite lookup_insert_eq in Hm. injection Hm as ->. right. by left.
    + rewrite lookup_insert_ne in Hm by done. by left.
  - right. by right.
Qed.

Lemma groupby_keys {A} (key : A → string) (l : list A) (k : string) :
  k ∈ (groupby key l).*1 ↔ ∃ x, x ∈ l ∧ key x = k.
Proof.
  induction l as [|x l IH]; simpl.
  - split; [by intros ?%elem_of_nil | by intros (? & ?%elem_of_nil & _)].
  - destruct (groupby key l) as [|[k' g] rest] eqn:Hg; simpl in *.
    + rewrite list_elem_of_singleton. split.
      * intros ->. exists x. split; [by left | done].
      * intros (y & Hy & <-). apply elem_of_cons in Hy as [-> | Hy]; [done|].
        exfalso. eapply elem_of_nil, IH. eauto.
    + destruct (decide (key x = k')) as [Hk | Hk]; simpl.
      * rewrite IH. split.
        -- intros (y & Hy & <-). exists y. split; [by right | done].
        -- intros (y & Hy & <-). apply elem_of_cons in Hy as [-> | Hy].
           ++ apply IH. rewrite Hk. by left.
           ++ by exists y.
      * rewrite elem_of_cons, IH. split.
        -- intros [-> | (y & Hy & <-)].
           ++ exists x. split; [by left | done].
           ++ exists y. split; [by right | done].
        -- intros (y & Hy & <-). apply elem_of_cons in Hy as [-> | Hy].
           ++ by left.
           ++ right. by exists y.
Qed.

(** Each group is a non-empty run of elements of the list, all with the key
    of the group. *)
Lemma groupby_groups {A} (key : A → string) (l : list A) (k : string)
    (g : list A) :
  (k, g) ∈ groupby key l →
  g ≠ [] ∧ ∀ x, x ∈ g → x ∈ l ∧ key x = k.
Proof.
  revert k g. induction l as [|x l IH]; intros k g; simpl.
  - by intros ?%elem_of_nil.
  - destruct (groupby key l) as [|[k' g'] rest] eqn:Hg.
    + intros [= -> ->]%list_elem_of_singleton. split; [done|].
      intros y ->%list_elem_of_singleton. split; [by left | done].
    + destruct (IH k' g') as [Hne Hg']; [by left|].
      destruct (decide (key x = k')) as [Hk | Hk].
      * intros [[= -> ->] | Hin]%elem_of_cons.
        -- split; [done|]. intros y [-> | Hy]%elem_of_cons.
           ++ split; [by left | done].
           ++ destruct (Hg' y Hy). split; [by right | done].
        -- destruct (IH k g) as [? Hgk]; [by right|]. split; [done|].
           intros y Hy. destruct (Hgk y Hy). split; [by right | done].
      * intros [[= -> ->] | Hin]%elem_of_cons.
        -- split; [done|]. intros y ->%list_elem_of_singleton.
           split; [by left | done].
        -- destruct (IH k g) as [? Hgk]; [done|]. split; [done|].
           intros y Hy. destruct (Hgk y Hy). split; [by right | done].
Qed.

Lemma parsed_output_keys (d k : string) :
  k ∈ (parsed_output d).*1 ↔
  nonempty k = true ∧ ∃ line, line ∈ output_lines d ∧ _key_func line = k.
Proof.
  unfold parsed_output. rewrite <- groupby_keys.
  rewrite !list_elem_of_fmap. split.
  - intros ([k' g] & -> & Hin). apply list_elem_of_In, filter_In in Hin.
    destruct Hin as [Hin Hk]. split; [done|].
    exists (k', g). split; [done | by apply list_elem_of_In].
  - intros (Hk & [k' g] & -> & Hin). exists (k', g). split; [done|].
    apply list_elem_of_In, filter_In. split; [by apply list_elem_of_In | done].
Qed.

Lemma updated_output_is_Some (ds : list string)
    (output : gmap string (list string)) (k : string) :
  is_Some (updated_output ds output !! k) ↔
  is_Some (output !! k) ∨
  (nonempty k = true ∧
   ∃ d line, d ∈ ds ∧ line ∈ output_lines d ∧ _key_func line = k).
Proof.
  unfold updated_output. revert output.
  induction ds as [|d ds IH]; intros output; simpl.
  - split; [by left|]. intros [? | (_ & d & ? & ?%elem_of_nil & _)]; done.
  - rewrite IH, dict_update_is_Some, parsed_output_keys. split.
    + intros [[? | (Hk & line & ? & ?)] | (Hk & d' & line & ? & ? & ?)].
      * by left.
      * right. split; [done|]. exists d, line. split; [by left | done].
      * right. split; [done|]. exists d', line. split; [by right | done].
    + intros [? | (Hk & d' & line & [-> | ?]%elem_of_cons & ? & ?)].
      * left. by left.
      * left. right. split; [done|]. by exists line.
      * right. split; [done|]. by exists d', line.
Qed.

Lemma updated_output_lookup (ds : list string)
    (output : gmap string (list string)) (k : string) (lines : list string) :
  updated_output ds output !! k = Some lines →
  output !! k = Some lines ∨
  (lines ≠ [] ∧ ∃ d, d ∈ ds ∧
     ∀ line, line ∈ lines → line ∈ output_lines d ∧ _key_func line = k).
Proof.
  unfold updated_output. revert output.
  induction ds as [|d ds IH]; intros output; simpl; [by left|].
  intros H. destruct (IH _ H) as [Hm | (Hne & d' & Hd' & Hl)].
  - apply dict_update_lookup_Some in Hm as [Hm | Hin]; [by left|].
    right. apply list_elem_of_In, filter_In in Hin as [Hin _].
    apply list_elem_of_In, groupby_groups in Hin as [Hne Hg].
    split; [done|]. exists d. split; [by left | done].
  - right. split; [done|]. exists d'. split; [by right | done].
Qed.

Lemma run_mypy_output (st st' : state) :
  run_mypy st = Ok st' →
  OUTPUT_MYPY st' = updated_output directories (OUTPUT_MYPY st).
Proof.
  intros Hrun.
  destruct (run_mypy_spec st) as (Hiff & _ & Hok).
  destruct Hok as (st'' & Hrun' & Hout).
  - intros d Hd Hbad.
    assert (Hf : is_ok (run_mypy st) = false) by (apply Hiff; eauto).
    by rewrite Hrun in Hf.
  - rewrite Hrun in Hrun'. by injection Hrun' as ->.
Qed.

(** *** Clearing the cache *)

(** [run_mypy] keeps an existing cache directory only when the variable is
    set to the empty text. *)
Lemma clear_cache_keeps_iff (st : state) :
  cache_isdir st = true →
  (cache_isdir (clear_cache st) = true ↔
   environ !! "NUMPY_TYPING_TEST_CLEAR_CACHE" = Some EmptyString).
Proof.
  intros Hdir. unfold clear_cache, clear_cache_requested. rewrite Hdir.
  destruct (environ !! "NUMPY_TYPING_TEST_CLEAR_CACHE") as [v|]; simpl.
  - destruct v; simpl; split; congruence.
  - split; congruence.
Qed.

(** *** Loops *)

Lemma bind_Ok {A B} (x : A) (f : A → result B) : (Ok x ≫= f) = f x.
Proof. done. Qed.

Lemma for_each_app {A} (body : A → result unit) (l1 l2 : list A) :
  for_each body (l1 ++ l2) =
  match for_each body l1 with
  | Ok _ => for_each body l2
  | Raise e => Raise e
  end.
Proof.
  induction l1 as [|x l1 IH]; simpl; [done|].
  by destruct (body x).
Qed.

Lemma for_each_Ok {A} (body : A → result unit) (l : list A) :
  for_each body l = Ok tt ↔ Forall (fun x => body x = Ok tt) l.
Proof.
  induction l as [|x l IH]; simpl.
  - split; [constructor | done].
  - destruct (body x) as [[]|e] eqn:Hx.
    + rewrite IH. split; [by constructor | by inversion 1].
    + split; [done | inversion 1; congruence].
Qed.

Lemma for_each_raise_at {A} (body : A → result unit) (l1 l2 : list A) (x : A)
    (e : exn) :
  for_each body l1 = Ok tt → body x = Raise e →
  for_each body (l1 ++ x :: l2) = Raise e.
Proof. intros H1 Hx. rewrite for_each_app, H1. simpl. by rewrite Hx. Qed.

Lemma for_each_not_ok {A} (body : A → result unit) (l : list A) (x : A) :
  x ∈ l → is_ok (body x) = false → is_ok (for_each body l) = false.
Proof.
  induction l as [|y l IH]; [by intros ?%elem_of_nil|].
  intros [-> | Hin]%elem_of_cons Hx; simpl.
  - by destruct (body y).
  - destruct (body y); [by apply IH | done].
Qed.

Lemma enumerate_app {A} (i : nat) (l1 l2 : list A) :
  enumerate i (l1 ++ l2) = enumerate i l1 ++ enumerate (i + length l1)%nat l2.
Proof.
  revert i. induction l1 as [|x l1 IH]; intros i; simpl.
  - by rewrite Nat.add_0_r.
  - rewrite IH. do 3 f_equal. lia.
Qed.

Lemma enumerate_lookup {A} (l : list A) (i : nat) (x : A) :
  l !! i = Some x →
  enumerate 0 l =
  enumerate 0 (take i l) ++ (i, x) :: enumerate (S i) (drop (S i) l).
Proof.
  intros Hl. rewrite <- (take_drop_middle l i x Hl) at 1.
  rewrite enumerate_app. simpl.
  rewrite length_take_le by (apply lookup_lt_Some in Hl; lia). done.
Qed.

(** *** Texts *)

Lemma append_assoc (a b c : string) : (a +:+ b) +:+ c = a +:+ b +:+ c.
Proof. induction a as [|x a IH]; simpl; [done | by rewrite IH]. Qed.

Lemma append_nil_r (a : string) : a +:+ EmptyString = a.
Proof. induction a as [|x a IH]; simpl; [done | by rewrite IH]. Qed.

Lemma startswith_app (p s : string) : Py.startswith p (p +:+ s) = true.
Proof.
  induction p as [|c p IH]; simpl; [done|].
  by rewrite Ascii.eqb_refl, IH.
Qed.

Lemma startswith_drop (p s : string) :
  Py.startswith p s = true → s = p +:+ Py.drop (String.length p) s.
Proof.
  revert s. induction p as [|c p IH]; intros s; simpl; [done|].
  destruct s as [|d s]; [done|].
  intros [->%Ascii.eqb_eq Hp]%andb_prop. f_equal. by apply IH.
Qed.

Lemma cut_Some (sep s a b : string) :
  Py.cut sep s = Some (a, b) → s = a +:+ sep +:+ b.
Proof.
  revert a. induction s as [|c s IH]; intros a; simpl.
  - destruct (Py.startswith sep EmptyString) eqn:Hp; [|done].
    intros [= <- <-]. by apply startswith_drop in Hp.
  - destruct (Py.startswith sep (String c s)) eqn:Hp.
    + intros [= <- <-]. by apply startswith_drop in Hp.
    + destruct (Py.cut sep s) as [[a' b']|]; [|done].
      intros [= <- <-]. simpl. f_equal. by apply IH.
Qed.

Lemma contains_app_r (sub a s : string) :
  Py.contains sub s = true → Py.contains sub (a +:+ s) = true.
Proof.
  intros Hs. induction a as [|c a IH]; simpl; [done|].
  rewrite IH. apply orb_true_r.
Qed.

Lemma contains_startswith (sub s : string) :
  Py.startswith sub s = true → Py.contains sub s = true.
Proof. intros H. destruct s; simpl in *; by rewrite H. Qed.

Lemma contains_nonempty_nil (sub : string) :
  sub ≠ EmptyString → Py.contains sub EmptyString = false.
Proof. by destruct sub. Qed.

(** *** Numbers *)

Lemma take_digits_all (s : string) : all_digits (take_digits s).1 = true.
Proof.
  induction s as [|c s IH]; simpl; [done|].
  destruct (Py.is_digit c) eqn:Hc; [|done].
  destruct (take_digits s) as [d r]. simpl in *. by rewrite Hc.
Qed.

Lemma is_digit_facts (c : ascii) :
  Py.is_digit c = true →
  Py.is_space c = false ∧ Ascii.eqb c "-" = false ∧ Ascii.eqb c "+" = false.
Proof.
  destruct c as [[] [] [] [] [] [] [] []]; vm_compute; intros; by repeat split.
Qed.

Lemma all_digits_rstrip (s : string) :
  all_digits s = true → Py.rstrip s = s.
Proof.
  unfold Py.rstrip. induction s as [|c s IH]; simpl; [done|].
  intros [Hc Hs]%andb_prop. rewrite (IH Hs).
  destruct s; [|done].
  by destruct (is_digit_facts c Hc) as (-> & _).
Qed.

Lemma all_digits_strip (s : string) : all_digits s = true → Py.strip s = s.
Proof.
  intros Hs. unfold Py.strip.
  assert (Py.lstrip s = s) as ->; [|by apply all_digits_rstrip].
  destruct s as [|c s]; simpl in *; [done|].
  apply andb_prop in Hs as [Hc _].
  by destruct (is_digit_facts c Hc) as (-> & _).
Qed.

Lemma is_digit_c_facts (c : ascii) :
  Py.is_digit c = true →
  Py.is_c_space c = false ∧ Ascii.eqb "-" c = false ∧
  Ascii.eqb "+" c = false ∧ Ascii.eqb "_" c = false.
Proof.
  destruct c as [[] [] [] [] [] [] [] []]; vm_compute; intros; by repeat split.
Qed.

Lemma int_scan_all_digits (acc : Z) (k : nat) (d : string) :
  all_digits d = true →
  ∃ n, Py.int_scan acc k false d
       = Py.Run n (k + String.length d) EmptyString.
Proof.
  revert acc k. induction d as [|c d IH]; intros acc k Hd; simpl.
  - exists acc. by rewrite Nat.add_0_r.
  - simpl in Hd. apply andb_prop in Hd as [-> Hd].
    destruct (IH (acc * 10 + Py.digit_val c) (S k) Hd) as [n ->].
    exists n. by rewrite Nat.add_succ_r.
Qed.

(** [int] on a run of digits: the number, unless the run is longer than the
    limit. *)
Lemma int_all_digits (d : string) :
  all_digits d = true → nonempty d = true →
  if Nat.ltb Py.int_max_str_digits (String.length d)
  then Py.int d = Raise (ValueError (Py.int_limit_message (String.length d)))
  else ∃ n, Py.int d = Ok n.
Proof.
  intros Hd Hne. unfold Py.int.
  destruct d as [|c d]; [done|].
  pose proof Hd as Hd'. simpl in Hd'. apply andb_prop in Hd' as [Hc _].
  destruct (is_digit_c_facts c Hc) as (Hsp & Hm & Hp & Hu).
  cbn [Py.lstrip_c]. rewrite Hsp. cbn [Py.startswith]. rewrite Hm, Hp.
  cbn [andb orb]. rewrite Hu. cbn [andb].
  destruct (int_scan_all_digits 0 0 (String c d) Hd) as [n ->].
  cbn [Nat.add].
  destruct (Nat.ltb Py.int_max_str_digits (String.length (String c d)));
    [done|].
  cbn [String.length Nat.eqb Py.lstrip_c]. by eexists.
Qed.

Lemma match_fail_line_digits (s g : string) :
  match_fail_line s = Some g → all_digits g = true ∧ nonempty g = true.
Proof.
  unfold match_fail_line. pose proof (take_digits_all s) as Hd.
  destruct (take_digits s) as [d r]. simpl in Hd.
  destruct (nonempty d) eqn:Hne; simpl; [|done].
  destruct (_ || _); [|done]. by intros [= <-].
Qed.

Lemma match_reveal_line_digits (s g : string) :
  match_reveal_line s = Some g → all_digits g = true ∧ nonempty g = true.
Proof.
  unfold match_reveal_line. pose proof (take_digits_all s) as Hd.
  destruct (take_digits s) as [d r]. simpl in Hd.
  destruct (nonempty d) eqn:Hne; simpl; [|done].
  destruct (_ && _); [|done]. by intros [= <-].
Qed.

(** The line number of a line that matches the pattern is read by [int], or
    refused for its length. *)
Lemma match_fail_line_int (s g : string) :
  match_fail_line s = Some g →
  (∃ n, Py.int g = Ok n)
  ∨ Py.int g = Raise (ValueError (Py.int_limit_message (String.length g))).
Proof.
  intros [Hd Hne]%match_fail_line_digits.
  pose proof (int_all_digits g Hd Hne) as H.
  destruct (Nat.ltb _ _); [by right | by left].
Qed.

Lemma match_reveal_line_int (s g : string) :
  match_reveal_line s = Some g →
  (∃ n, Py.int g = Ok n)
  ∨ Py.int g = Raise (ValueError (Py.int_limit_message (String.length g))).
Proof.
  intros [Hd Hne]%match_reveal_line_digits.
  pose proof (int_all_digits g Hd Hne) as H.
  destruct (Nat.ltb _ _); [by right | by left].
Qed.

(** *** [strip] and containment *)

Lemma startswith_nil_r (m : string) :
  m ≠ EmptyString → Py.startswith m EmptyString = false.
Proof. by destruct m. Qed.

Lemma last_not_space_nonempty (m : string) :
  last_not_space m = true → m ≠ EmptyString.
Proof. by destruct m. Qed.

Lemma contains_lstrip (m t : string) :
  first_not_space m = true → Py.contains m (Py.lstrip t) = Py.contains m t.
Proof.
  intros Hm. induction t as [|c t IH]; [done|].
  cbn [Py.lstrip]. destruct (Py.is_space c) eqn:Hc; [|done].
  rewrite IH. cbn [Py.contains].
  destruct m as [|a m]; [done|]. cbn [Py.startswith].
  destruct (Ascii.eqb a c) eqn:Hac; [|done].
  apply Ascii.eqb_eq in Hac as ->. simpl in Hm. by rewrite Hc in Hm.
Qed.

Lemma startswith_rstrip (m t : string) :
  last_not_space m = true →
  Py.startswith m (Py.rstrip t) = Py.startswith m t.
Proof.
  unfold Py.rstrip. revert m. induction t as [|c t IH]; intros m Hm; [done|].
  destruct m as [|a m]; [done|].
  cbn [Py.rstrip_by].
  destruct m as [|b m].
  - (* [a] is the last character of the pattern *)
    simpl in Hm. destruct (Py.rstrip_by Py.is_space t) as [|d r] eqn:Hr.
    + destruct (Py.is_space c) eqn:Hc; simpl.
      * destruct (Ascii.eqb a c) eqn:Hac; [|done].
        apply Ascii.eqb_eq in Hac as ->. by rewrite Hc in Hm.
      * by rewrite andb_true_r.
    + simpl. by rewrite !andb_true_r.
  - assert (Hm' : last_not_space (String b m) = true) by done.
    specialize (IH (String b m) Hm').
    destruct (Py.rstrip_by Py.is_space t) as [|d r] eqn:Hr.
    + assert (Ht : Py.startswith (String b m) t = false).
      { by rewrite <- IH. }
      cbn [Py.startswith] in *. rewrite Ht, andb_false_r.
      by destruct (Py.is_space c); simpl; rewrite ?andb_false_r.
    + change (Py.startswith (String a (String b m)) (String c (String d r)))
        with (Ascii.eqb a c && Py.startswith (String b m) (String d r)).
      rewrite IH. done.
Qed.

Lemma contains_rstrip (m t : string) :
  last_not_space m = true →
  Py.contains m (Py.rstrip t) = Py.contains m t.
Proof.
  intros Hm. pose proof (last_not_space_nonempty m Hm) as Hne.
  induction t as [|c t IH]; [done|].
  cbn [Py.contains]. rewrite <- IH, <- (startswith_rstrip m (String c t) Hm).
  unfold Py.rstrip. cbn [Py.rstrip_by].
  destruct (Py.rstrip_by Py.is_space t) as [|d r] eqn:Hr; [|done].
  destruct (Py.is_space c); simpl.
  - by rewrite startswith_nil_r.
  - by rewrite startswith_nil_r, orb_false_r.
Qed.

Lemma rstrip_last (s : string) :
  Py.rstrip s ≠ EmptyString → last_not_space (Py.rstrip s) = true.
Proof.
  unfold Py.rstrip. induction s as [|c s IH]; [done|].
  cbn [Py.rstrip_by].
  destruct (Py.rstrip_by Py.is_space s) as [|d r] eqn:Hr.
  - destruct (Py.is_space c) eqn:Hc; [done|]. simpl. by rewrite Hc.
  - intros _. change (last_not_space (String d r) = true). by apply IH.
Qed.

Lemma rstrip_first (s : string) :
  first_not_space s = true → first_not_space (Py.rstrip s) = true.
Proof.
  unfold Py.rstrip. destruct s as [|c s]; [done|]. simpl. intros Hc.
  destruct (Py.rstrip_by Py.is_space s); [|done].
  apply negb_true_iff in Hc. by rewrite Hc; simpl; rewrite Hc.
Qed.

Lemma lstrip_first (s : string) :
  Py.lstrip s ≠ EmptyString → first_not_space (Py.lstrip s) = true.
Proof.
  induction s as [|c s IH]; [done|]. simpl.
  destruct (Py.is_space c) eqn:Hc; [done|]. intros _. simpl. by rewrite Hc.
Qed.

Lemma strip_ends (s : string) :
  Py.strip s ≠ EmptyString →
  first_not_space (Py.strip s) = true ∧ last_not_space (Py.strip s) = true.
Proof.
  unfold Py.strip. intros Hne. split; [|by apply rstrip_last].
  apply rstrip_first, lstrip_first. intros Hl. by rewrite Hl in Hne.
Qed.

(** A text without white space at its ends is found in a text exactly when
    it is found in it once stripped. *)
Lemma contains_strip (m t : string) :
  first_not_space m = true → last_not_space m = true →
  Py.contains m (Py.strip t) = Py.contains m t.
Proof.
  intros Hf Hl. unfold Py.strip.
  by rewrite contains_rstrip, contains_lstrip.
Qed.

(** *** [test_fail] *)

Lemma collect_errors_cons (raw : string) (out : list string)
    (errors : gmap Z string) :
  collect_errors (raw :: out) errors =
  match match_fail_line (fail_error_line raw) with
  | None =>
      Raise (ValueError ("Unexpected error line format: "
                         +:+ fail_error_line raw))
  | Some group =>
      match Py.int group with
      | Ok lineno =>
          collect_errors out
            (<[lineno := errors_get errors lineno +:+ fail_error_line raw
                         +:+ Py.nl]> errors)
      | Raise e => Raise e
      end
  end.
Proof. done. Qed.

(** The line numbers with an entry in [errors] are those of the output
    lines. *)
Lemma collect_errors_dom (out : list string) (errors0 errors : gmap Z string)
    (n : Z) :
  collect_errors out errors0 = Ok errors →
  is_Some (errors !! n) ↔
  is_Some (errors0 !! n) ∨ ∃ raw, raw ∈ out ∧ fail_lineno raw = Some n.
Proof.
  revert errors0. induction out as [|raw out IH]; intros errors0.
  - intros [= <-]. split; [by left|].
    intros [? | (raw & ?%elem_of_nil & _)]; done.
  - rewrite collect_errors_cons.
    destruct (match_fail_line (fail_error_line raw)) as [g|] eqn:Hm; [|done].
    destruct (Py.int g) as [k|] eqn:Hk; [|done].
    intros Hc. rewrite (IH _ Hc), lookup_insert_is_Some.
    assert (Hraw : fail_lineno raw = Some k).
    { unfold fail_lineno. by rewrite Hm, Hk. }
    split.
    + intros [[<- | [_ ?]] | (raw' & Hin & Hn)].
      * right. exists raw. split; [by left | done].
      * by left.
      * right. exists raw'. split; [by right | done].
    + intros [? | (raw' & [-> | Hin]%elem_of_cons & Hn)].
      * left. destruct (decide (k = n)); [by left | by right].
      * left. left. congruence.
      * right. by exists raw'.
Qed.

(** An output line that does not match the pattern ends the first loop with
    a [ValueError], whatever precedes and follows it. *)
Lemma collect_errors_malformed (out : list string) (errors0 : gmap Z string)
    (raw : string) :
  raw ∈ out → match_fail_line (fail_error_line raw) = None →
  ∃ msg, collect_errors out errors0 = Raise (ValueError msg).
Proof.
  revert errors0. induction out as [|r out IH]; intros errors0.
  - by intros ?%elem_of_nil.
  - intros Hin Hbad. rewrite collect_errors_cons.
    destruct (match_fail_line (fail_error_line r)) as [g|] eqn:Hm;
      [|by eexists].
    destruct (match_fail_line_int _ _ Hm) as [[k ->] | ->]; [|by eexists].
    apply elem_of_cons in Hin as [-> | Hin]; [congruence|].
    by apply IH.
Qed.

Lemma marker_found (expression rest : string) :
  Py.contains "# E:" (expression +:+ "  # E: " +:+ rest) = true
  ∧ Py.contains " E:" (expression +:+ "  # E: " +:+ rest) = true.
Proof. split; by apply contains_app_r. Qed.

(** The check of a line that has a marker and is not a comment. *)
Lemma check_fail_line_marked (path : string) (errors : gmap Z string)
    (lineno : Z) (line expression rest : string) :
  Py.startswith "#" line = false →
  Py.cut "  # E: " line = Some (expression, rest) →
  check_fail_line path errors lineno line =
  if Py.contains (Py.strip rest) (Py.strip (errors_get errors lineno))
  then Ok tt
  else Raise (AssertionError
                (_FAIL_MSG2 lineno expression
                   (Py.strip (errors_get errors lineno)) (Py.strip rest))).
Proof.
  intros Hc Hcut. unfold check_fail_line, Py.partition. rewrite Hc, Hcut.
  apply cut_Some in Hcut as ->.
  destruct (marker_found expression rest) as [-> ->]. simpl.
  unfold _test_fail. by destruct (Py.contains _ _).
Qed.

(** The check of a line that has no marker, is not a comment, and for which
    mypy reported something. *)
Lemma check_fail_line_unmarked (path : string) (errors : gmap Z string)
    (lineno : Z) (line : string) :
  Py.startswith "#" line = false →
  Py.contains "# E:" line = false →
  is_Some (errors !! lineno) →
  check_fail_line path errors lineno line =
  Raise (Failed ("Unexpected mypy output at line "
                 +:+ Py.str_of_int lineno +:+ Py.nl +:+ Py.nl
                 +:+ errors_get errors lineno)).
Proof.
  intros Hc Hm [v Hv]. unfold check_fail_line. rewrite Hc, Hm, Hv.
  rewrite bool_decide_eq_false_2 by done. by rewrite andb_false_r.
Qed.

Lemma check_fail_lines_at (path : string) (errors : gmap Z string)
    (lines : list string) (i : nat) (line : string) (e : exn) :
  lines !! i = Some line →
  check_fail_lines path errors (take i lines) = Ok tt →
  check_fail_line path errors (Z.of_nat i + 1) line = Raise e →
  check_fail_lines path errors lines = Raise e.
Proof.
  intros Hl Hpre He. unfold check_fail_lines in *.
  rewrite (enumerate_lookup lines i line Hl).
  by apply for_each_raise_at.
Qed.

Lemma check_fail_lines_Ok (path : string) (errors : gmap Z string)
    (lines : list string) (i : nat) (line : string) :
  lines !! i = Some line →
  check_fail_lines path errors lines = Ok tt →
  check_fail_line path errors (Z.of_nat i + 1) line = Ok tt.
Proof.
  intros Hl Hok. unfold check_fail_lines in Hok.
  rewrite (enumerate_lookup lines i line Hl) in Hok.
  apply for_each_Ok, Forall_app in Hok as [_ Hok].
  by inversion Hok.
Qed.

(** C2, amended: an output line of mypy for a line of the file that does not
    begin with [#] and has no [# E:] marker makes [test_fail] fail; when the
    output is well formed and the lines before it pass, the failure is the
    report [Unexpected mypy output at line ...] of [pytest.fail]. *)
Theorem unmarked_error_fails (output_mypy : gmap string (list string))
    (path src : string) (out : list string) (raw line : string) (i : nat) :
  output_mypy !! path = Some out →
  raw ∈ out →
  fail_lineno raw = Some (Z.of_nat i + 1) →
  Py.readlines src !! i = Some line →
  Py.startswith "#" line = false →
  Py.contains "# E:" line = false →
  is_ok (test_fail output_mypy path src) = false
  ∧ ∀ errors,
      collect_errors out ∅ = Ok errors →
      check_fail_lines path errors (take i (Py.readlines src)) = Ok tt →
      test_fail output_mypy path src =
        Raise (Failed ("Unexpected mypy output at line "
                       +:+ Py.str_of_int (Z.of_nat i + 1) +:+ Py.nl +:+ Py.nl
                       +:+ errors_get errors (Z.of_nat i + 1))).
Proof.
  intros Hout Hraw Hno Hline Hc Hm. unfold test_fail. rewrite Hout.
  destruct (collect_errors out ∅) as [errors|e] eqn:Hcol; [|by split].
  assert (Hsome : is_Some (errors !! (Z.of_nat i + 1))).
  { apply (collect_errors_dom _ _ _ _ Hcol). right. by exists raw. }
  pose proof (check_fail_line_unmarked path errors _ line Hc Hm Hsome) as Hchk.
  split.
  - unfold check_fail_lines.
    apply (for_each_not_ok _ _ (i, line)); [|by rewrite Hchk].
    rewrite (enumerate_lookup _ i line Hline).
    apply elem_of_app. right. by left.
  - intros errors' [= <-] Hpre.
    by apply (check_fail_lines_at path errors _ i line).
Qed.

(** C3, amended: for a line that does not begin with [#] and has a marker
    [  # E: msg] with a message that is not empty, the check of the line
    passes exactly when mypy reported something for the line and the text
    accumulated for the line contains the message; otherwise, once the
    lines before it have passed, [test_fail] raises the assertion failure
    that shows the accumulated text and the message. *)
Theorem marked_line_passes_iff (output_mypy : gmap string (list string))
    (path src : string) (out : list string) (errors : gmap Z string)
    (i : nat) (line expression rest : string) :
  output_mypy !! path = Some out →
  collect_errors out ∅ = Ok errors →
  Py.readlines src !! i = Some line →
  Py.startswith "#" line = false →
  Py.cut "  # E: " line = Some (expression, rest) →
  Py.strip rest ≠ EmptyString →
  let lineno := Z.of_nat i + 1 in
  let marker := Py.strip rest in
  let reported :=
    (∃ raw, raw ∈ out ∧ fail_lineno raw = Some lineno)
    ∧ Py.contains marker (errors_get errors lineno) = true in
  (check_fail_line path errors lineno line = Ok tt ↔ reported)
  ∧ (test_fail output_mypy path src = Ok tt → reported)
  ∧ (¬ reported →
     check_fail_lines path errors (take i (Py.readlines src)) = Ok tt →
     test_fail output_mypy path src =
       Raise (AssertionError
                (_FAIL_MSG2 lineno expression
                   (Py.strip (errors_get errors lineno)) marker))).
Proof.
  intros Hout Hcol Hline Hc Hcut Hne lineno marker reported.
  pose proof (check_fail_line_marked path errors lineno line expression rest
                Hc Hcut) as Hchk.
  destruct (strip_ends rest Hne) as [Hf Hl].
  rewrite (contains_strip _ (errors_get errors lineno) Hf Hl) in Hchk.
  fold marker in Hchk.
  assert (Hrep : Py.contains marker (errors_get errors lineno) = true ↔
                 reported).
  { unfold reported. split; [|by intros [_ ?]]. intros Hin. split; [|done].
    assert (Hsome : is_Some (errors !! lineno)).
    { unfold errors_get in Hin.
      destruct (errors !! lineno) as [v|]; [done|].
      change (Py.contains marker EmptyString = true) in Hin.
      by rewrite contains_nonempty_nil in Hin. }
    apply (collect_errors_dom _ _ _ _ Hcol) in Hsome
      as [[? Hempty] | ?]; [|done].
    by rewrite lookup_empty in Hempty. }
  assert (Hiff : check_fail_line path errors lineno line = Ok tt ↔ reported).
  { rewrite Hchk, <- Hrep.
    destruct (Py.contains marker (errors_get errors lineno)); by split. }
  split; [done|]. unfold test_fail. rewrite Hout, Hcol. split.
  - intros Hok. apply Hiff.
    by apply (check_fail_lines_Ok path errors (Py.readlines src) i).
  - intros Hnot Hpre.
    apply (check_fail_lines_at path errors (Py.readlines src) i line);
      [done..|].
    fold lineno. rewrite Hchk.
    destruct (Py.contains marker (errors_get errors lineno)) eqn:Hin; [|done].
    destruct Hnot. by apply Hrep.
Qed.

(** *** [test_reveal] *)

Lemma check_reveal_line_found (path : string)
    (expression_array reveal_list : list string)
    (raw group marker expression : string) (n : Z) :
  match_reveal_line (_strip_filename raw) = Some group →
  Py.int group = Ok n →
  Py.contains "Revealed type is" (_strip_filename raw) = true →
  Py.index reveal_list (n - 1) = Ok marker →
  np_getitem expression_array (n - 1) = Ok expression →
  check_reveal_line path expression_array reveal_list raw =
  if Py.contains (_STRIP_PATTERN_sub marker)
       (_STRIP_PATTERN_sub (_strip_filename raw))
  then Ok tt
  else Raise (AssertionError
                (_REVEAL_MSG n expression
                   (_STRIP_PATTERN_sub (_strip_filename raw))
                   (_STRIP_PATTERN_sub marker))).
Proof.
  intros Hm Hn Hr Hmk Hex. unfold check_reveal_line.
  rewrite Hm, Hn. simpl. rewrite Hr. simpl. rewrite Hmk, Hex. simpl.
  unfold _test_reveal. replace (1 + (n - 1)) with n by lia.
  by destruct (Py.contains (_STRIP_PATTERN_sub marker) _).
Qed.

Lemma check_reveal_line_Ok (path : string)
    (expression_array reveal_list : list string) (raw : string) :
  check_reveal_line path expression_array reveal_list raw = Ok tt ↔
  reveal_line_ok expression_array reveal_list raw.
Proof.
  split.
  - unfold check_reveal_line, reveal_line_ok.
    destruct (match_reveal_line (_strip_filename raw)) as [g|] eqn:Hm; [|done].
    destruct (Py.int g) as [n|] eqn:Hn; [|done]. simpl.
    destruct (Py.contains "Revealed type is" _) eqn:Hr; [|done]. simpl.
    destruct (Py.index reveal_list (n - 1)) as [marker|] eqn:Hmk; [|done].
    destruct (np_getitem expression_array (n - 1)) as [expression|] eqn:Hex;
      [|done].
    simpl. unfold _test_reveal.
    destruct (Py.contains (_STRIP_PATTERN_sub marker) _) eqn:Hin; [|done].
    intros _. by exists g, n, marker, expression.
  - intros (g & n & marker & expression & Hm & Hn & Hr & Hmk & Hex & Hin).
    rewrite (check_reveal_line_found _ _ _ _ _ _ _ _ Hm Hn Hr Hmk Hex).
    by rewrite Hin.
Qed.

Lemma check_reveal_lines_Ok (path : string)
    (expression_array reveal_list out : list string) :
  check_reveal_lines path expression_array reveal_list out = Ok tt ↔
  Forall (reveal_line_ok expression_array reveal_list) out.
Proof.
  unfold check_reveal_lines. rewrite for_each_Ok.
  apply Forall_proper; [|done]. intros raw. apply check_reveal_line_Ok.
Qed.

(** C1, amended: [test_reveal] passes exactly when, for every note of mypy
    for the file, the expected reveal of the line of the note (after the
    substitution of the format keys), stripped of module names, is found in
    the note, stripped of module names.  The first note for which it is not
    found raises the assertion failure that shows the expression and the
    two stripped texts. *)
Theorem reveal_expected_in_observed (output_mypy : gmap string (list string))
    (path src : string) (expression_array reveal_list out : list string) :
  _parse_reveals src = Ok (expression_array, reveal_list) →
  output_mypy !! path = Some out →
  (test_reveal output_mypy path src = Ok tt ↔
   Forall (reveal_line_ok expression_array reveal_list) out)
  ∧ ∀ pre raw post group n marker expression,
      out = pre ++ raw :: post →
      Forall (reveal_line_ok expression_array reveal_list) pre →
      match_reveal_line (_strip_filename raw) = Some group →
      Py.int group = Ok n →
      Py.contains "Revealed type is" (_strip_filename raw) = true →
      Py.index reveal_list (n - 1) = Ok marker →
      np_getitem expression_array (n - 1) = Ok expression →
      Py.contains (_STRIP_PATTERN_sub marker)
        (_STRIP_PATTERN_sub (_strip_filename raw)) = false →
      test_reveal output_mypy path src =
        Raise (AssertionError
                 (_REVEAL_MSG n expression
                    (_STRIP_PATTERN_sub (_strip_filename raw))
                    (_STRIP_PATTERN_sub marker))).
Proof.
  intros Hparse Hout. unfold test_reveal. rewrite Hparse, Hout.
  split; [apply check_reveal_lines_Ok|].
  intros pre raw post g n marker expression -> Hpre Hm Hn Hr Hmk Hex Hin.
  apply for_each_raise_at; [by apply check_reveal_lines_Ok|].
  rewrite (check_reveal_line_found _ _ _ _ _ _ _ _ Hm Hn Hr Hmk Hex).
  by rewrite Hin.
Qed.

(** C7, amended: in [test_fail] an output line of the file that does not
    match the pattern raises a [ValueError], whatever the other lines are;
    in [test_reveal] it does so when the notes before it have passed. *)
Theorem malformed_line_raises_ValueError
    (output_mypy : gmap string (list string)) (path src : string)
    (out : list string) (raw : string) :
  output_mypy !! path = Some out →
  (raw ∈ out → match_fail_line (fail_error_line raw) = None →
   ∃ msg, test_fail output_mypy path src = Raise (ValueError msg))
  ∧ (∀ expression_array reveal_list pre post,
       _parse_reveals src = Ok (expression_array, reveal_list) →
       out = pre ++ raw :: post →
       Forall (reveal_line_ok expression_array reveal_list) pre →
       match_reveal_line (_strip_filename raw) = None →
       test_reveal output_mypy path src =
         Raise (ValueError ("Unexpected reveal line format: "
                            +:+ _strip_filename raw))).
Proof.
  intros Hout. split.
  - intros Hin Hbad. unfold test_fail. rewrite Hout.
    destruct (collect_errors_malformed out ∅ raw Hin Hbad) as (msg & ->).
    by eexists.
  - intros ea rl pre post Hparse -> Hpre Hbad.
    unfold test_reveal. rewrite Hparse, Hout.
    apply for_each_raise_at; [by apply check_reveal_lines_Ok|].
    unfold check_reveal_line. by rewrite Hbad.
Qed.

(** *** [test_extended_precision] *)

Lemma LINENO_MAPPING_None (lineno : Z) :
  lineno ∉ LINENO_MAPPING_keys → LINENO_MAPPING !! lineno = None.
Proof. intros H. by apply not_elem_of_list_to_map_1. Qed.

(** C10, amended: a diagnostic whose last three fields between colons are a
    line number, [error] or [note], and the message, whose line number is
    not a key of [LINENO_MAPPING] and is the number of a line of the file,
    and before which the diagnostics have passed, ends
    [test_extended_precision] with the [KeyError] of the look-up. *)
Theorem unlisted_line_raises_KeyError
    (output_mypy : gmap string (list string)) (src : string)
    (pre post : list string) (raw _lineno msg_typ msg line : string)
    (lineno : Z) :
  let path := os_path_join MISC_DIR "extended_precision.pyi" in
  output_mypy !! path = Some (pre ++ raw :: post) →
  check_extended_lines path (Py.readlines src) pre = Ok tt →
  unpack_last3 (Py.split ":" raw) = Ok (_lineno, msg_typ, msg) →
  Py.int _lineno = Ok lineno →
  Py.index (Py.readlines src) (lineno - 1) = Ok line →
  Py.strip msg_typ = "error" ∨ Py.strip msg_typ = "note" →
  lineno ∉ LINENO_MAPPING_keys →
  test_extended_precision output_mypy src = Raise (KeyError (KInt lineno)).
Proof.
  intros path Hout Hpre Hun Hint Hidx Htyp Hkey.
  unfold test_extended_precision. fold path. rewrite Hout.
  apply for_each_raise_at; [done|].
  unfold check_extended_line.
  rewrite Hun, bind_Ok. cbn beta iota. rewrite Hint, bind_Ok, Hidx, bind_Ok.
  assert (in_list (Py.strip msg_typ) ["error"; "note"] = true) as ->.
  { by destruct Htyp as [-> | ->]. }
  cbn [negb]. unfold getitem_int.
  by rewrite (LINENO_MAPPING_None lineno Hkey).
Qed.

(** *** The substitution of the format keys *)

Lemma not_brace_facts (c : ascii) :
  not_brace c = true → Ascii.eqb c "{" = false ∧ Ascii.eqb c "}" = false.
Proof.
  unfold not_brace. by destruct (Ascii.eqb c "{"), (Ascii.eqb c "}").
Qed.

Lemma name_char_facts (c : ascii) :
  name_char c = true →
  Ascii.eqb c "{" = false ∧ Ascii.eqb c "}" = false ∧
  Ascii.eqb c "[" = false ∧ Ascii.eqb c "." = false ∧
  Ascii.eqb c ":" = false ∧ Ascii.eqb c "!" = false ∧
  Ascii.eqb c (Py.chr 10) = false.
Proof.
  unfold name_char, not_brace.
  by destruct (Ascii.eqb c "{"), (Ascii.eqb c "}"), (Ascii.eqb c "["),
    (Ascii.eqb c "."), (Ascii.eqb c ":"), (Ascii.eqb c "!"),
    (Ascii.eqb c (Py.chr 10)).
Qed.

Lemma snoc_append (acc : string) (c : ascii) (s : string) :
  snoc acc c +:+ s = acc +:+ String c s.
Proof. unfold snoc. by rewrite append_assoc. Qed.

(** [re.findall] on the pieces. *)
Lemma findall_go_lit (s rest : string) :
  all_chars not_brace s = true →
  findall_go None (s +:+ rest) = findall_go None rest.
Proof.
  induction s as [|c s IH]; simpl; [done|].
  intros [Hc Hs]%andb_prop. destruct (not_brace_facts c Hc) as [-> _]. auto.
Qed.

Lemma findall_go_key (acc name rest : string) :
  all_chars name_char name = true →
  findall_go (Some acc) (name +:+ "}" +:+ rest) =
  (acc +:+ name) :: findall_go None rest.
Proof.
  revert acc. induction name as [|c name IH]; intros acc; simpl.
  - by rewrite append_nil_r.
  - intros [Hc Hs]%andb_prop.
    destruct (name_char_facts c Hc) as (_ & -> & _ & _ & _ & _ & ->).
    by rewrite (IH _ Hs), snoc_append.
Qed.

Lemma findall_source (ps : list piece) :
  Forall (fun p => piece_ok p = true) ps →
  findall_braces (source ps) = keys ps.
Proof.
  unfold findall_braces.
  induction 1 as [|[s|name] ps Hp Hps IH]; cbn [source keys].
  - done.
  - by rewrite findall_go_lit.
  - apply andb_prop in Hp as [[_ Hn]%andb_prop _].
    change (findall_go None ("{" +:+ name +:+ "}" +:+ source ps))
      with (findall_go (Some EmptyString) (name +:+ "}" +:+ source ps)).
    by rewrite (findall_go_key EmptyString name _ Hn), IH.
Qed.

(** [str.format] on the pieces. *)
Lemma prepend_Ok (a b : string) : prepend a (Ok b) = Ok (a +:+ b).
Proof. done. Qed.

Lemma format_go_lit (kwargs : gmap string string) (s rest : string) :
  all_chars not_brace s = true →
  format_go kwargs FText (s +:+ rest) =
  prepend s (format_go kwargs FText rest).
Proof.
  induction s as [|c s IH].
  - intros _. simpl. by destruct (format_go kwargs FText rest).
  - intros [Hc Hs]%andb_prop. destruct (not_brace_facts c Hc) as [Ho Hcl].
    change (String c s +:+ rest) with (String c (s +:+ rest)).
    cbn [format_go]. rewrite Ho, Hcl, (IH Hs).
    by destruct (format_go kwargs FText rest).
Qed.

Lemma format_go_name (kwargs : gmap string string) (acc name rest : string) :
  all_chars name_char name = true →
  format_go kwargs (FName acc) (name +:+ "}" +:+ rest) =
  match render_field kwargs (acc +:+ name) true with
  | Ok v => prepend v (format_go kwargs FText rest)
  | Raise e => Raise e
  end.
Proof.
  revert acc. induction name as [|c name IH]; intros acc.
  - intros _. by rewrite append_nil_r.
  - intros [Hc Hs]%andb_prop.
    destruct (name_char_facts c Hc) as (Ho & Hcl & Hb & _ & Hco & Hex & _).
    change (String c name +:+ "}" +:+ rest)
      with (String c (name +:+ "}" +:+ rest)).
    cbn [format_go]. rewrite Ho, Hb, Hcl, Hco, Hex, (IH _ Hs).
    by rewrite snoc_append.
Qed.

Lemma field_name_split_plain (name : string) :
  all_chars name_char name = true →
  field_name_split name = (name, EmptyString).
Proof.
  induction name as [|c name IH]; simpl; [done|].
  intros [Hc Hs]%andb_prop.
  destruct (name_char_facts c Hc) as (_ & _ & -> & -> & _).
  simpl. by rewrite (IH Hs).
Qed.

Lemma render_field_plain (kwargs : gmap string string) (name v : string) :
  plain_key name = true → kwargs !! name = Some v →
  render_field kwargs name true = Ok v.
Proof.
  unfold plain_key, not_an_index.
  intros [[Hne Hn]%andb_prop Hi]%andb_prop Hv. unfold render_field.
  rewrite (field_name_split_plain name Hn).
  destruct (get_integer name); [|done..]. by rewrite Hne, Hv.
Qed.

Lemma format_go_key (kwargs : gmap string string) (name v rest : string) :
  plain_key name = true → kwargs !! name = Some v →
  format_go kwargs FText ("{" +:+ name +:+ "}" +:+ rest) =
  prepend v (format_go kwargs FText rest).
Proof.
  intros Hp Hv. pose proof Hp as Hp'. unfold plain_key in Hp'.
  apply andb_prop in Hp' as [[Hne Hn]%andb_prop _].
  transitivity (format_go kwargs (FName EmptyString) (name +:+ "}" +:+ rest)).
  - destruct name as [|c name]; [done|].
    simpl in Hn. apply andb_prop in Hn as [Hc _].
    destruct (name_char_facts c Hc) as (Ho & _).
    change (format_go kwargs FText ("{" +:+ String c name +:+ "}" +:+ rest))
      with (if Ascii.eqb c "{"
            then prepend "{" (format_go kwargs FText (name +:+ "}" +:+ rest))
            else format_go kwargs (FName EmptyString)
                   (String c name +:+ "}" +:+ rest)).
    by rewrite Ho.
  - rewrite (format_go_name kwargs EmptyString name rest Hn).
    change (EmptyString +:+ name) with name.
    by rewrite (render_field_plain kwargs name v Hp Hv).
Qed.

Lemma format_source (kwargs table : gmap string string) (ps : list piece) :
  Forall (fun p => piece_ok p = true) ps →
  (∀ name, name ∈ keys ps → kwargs !! name = Some (replacement table name)) →
  py_format (source ps) kwargs = Ok (expand table ps).
Proof.
  unfold py_format. induction 1 as [|[s|name] ps Hp Hps IH]; intros Hkw.
  - done.
  - simpl in *. by rewrite format_go_lit, IH.
  - cbn [source expand].
    rewrite (format_go_key kwargs name (replacement table name)); [|done|].
    + rewrite IH; [done|]. intros n Hn. apply Hkw. by right.
    + apply Hkw. by left.
Qed.

Lemma format_kwargs_lookup (table : gmap string string) (l : list string)
    (name : string) :
  name ∈ l →
  format_kwargs table (list_to_set l) !! name = Some (replacement table name).
Proof.
  intros Hin. unfold format_kwargs. apply lookup_set_to_map.
  - by intros y y' _ _ ?.
  - exists name. split; [by apply elem_of_list_to_set|].
    unfold replacement, unrecognized. by destruct (table !! name).
Qed.

Lemma substitute_source (table : gmap string string) (ps : list piece) :
  Forall (fun p => piece_ok p = true) ps →
  substitute table (source ps) = Ok (expand table ps).
Proof.
  intros Hps. unfold substitute. rewrite (findall_source ps Hps).
  apply format_source; [done|]. intros name Hn.
  by apply format_kwargs_lookup.
Qed.

Lemma quotable_facts (c : ascii) :
  quotable c = true → Py.repr_char Py.squote c = String c EmptyString.
Proof.
  destruct c as [[] [] [] [] [] [] [] []]; vm_compute; intros; done.
Qed.

Lemma repr_quotable (s : string) :
  all_chars quotable s = true →
  Py.repr s = String Py.squote s +:+ String Py.squote EmptyString.
Proof.
  intros Hs. unfold Py.repr.
  assert (Hq : Py.has_char Py.squote s = false).
  { induction s as [|c s IH]; simpl in *; [done|].
    apply andb_prop in Hs as [Hc Hs]. rewrite (IH Hs), orb_false_r.
    unfold quotable in Hc.
    by destruct (Ascii.eqb c Py.squote); rewrite ?andb_false_r in Hc. }
  rewrite Hq. simpl. do 2 f_equal.
  induction s as [|c s IH]; simpl in *; [done|].
  apply andb_prop in Hs as [Hc Hs].
  apply orb_false_iff in Hq as [_ Hq].
  by rewrite (quotable_facts c Hc), (IH Hs Hq).
Qed.

(** C4, amended: when the braces of the comments are those of keys [{name}]
    with a plain name (not empty, without brace, bracket, dot, colon,
    exclamation mark, and not a number), the substitution returns, and
    every key is replaced: by its entry of the table when it has one, by
    [<UNRECOGNIZED FORMAT KEY repr(name)>] when it has none, the [repr]
    being the name between single quotes for a name of printable characters
    without single quote and backslash. *)
Theorem plain_keys_are_replaced (table : gmap string string)
    (ps : list piece) :
  Forall (fun p => piece_ok p = true) ps →
  substitute table (source ps) = Ok (expand table ps)
  ∧ (∀ src, reveal_comments src = source ps →
       _parse_reveals src =
         Ok (reveal_expressions src, Py.split "/n" (expand FORMAT_DICT ps)))
  ∧ (∀ name, all_chars quotable name = true →
       replacement table name =
         match table !! name with
         | Some v => v
         | None => "<UNRECOGNIZED FORMAT KEY '" +:+ name +:+ "'>"
         end).
Proof.
  intros Hps. split; [by apply substitute_source|]. split.
  - intros src Hsrc. unfold _parse_reveals.
    fold (reveal_rows src). fold (reveal_comments src). rewrite Hsrc.
    by rewrite (substitute_source FORMAT_DICT ps Hps).
  - intros name Hq. unfold replacement.
    destruct (table !! name); [done|].
    rewrite (repr_quotable name Hq). simpl. by rewrite append_assoc.
Qed.

(** *** More on the keys and the lines of [OUTPUT_MYPY] *)

Lemma contains_char (c : ascii) (s : string) :
  Py.contains (String c EmptyString) s = Py.has_char c s.
Proof.
  induction s as [|a s IH]; [done|].
  cbn [Py.contains Py.has_char Py.startswith]. rewrite IH.
  by rewrite andb_true_r, Ascii.eqb_sym.
Qed.

Lemma cut_char_spec (c : ascii) (s : string) :
  match Py.cut (String c EmptyString) s with
  | Some (a, b) => s = a +:+ String c b ∧ Py.has_char c a = false
  | None => Py.has_char c s = false
  end.
Proof.
  induction s as [|x s IH]; [done|].
  cbn [Py.cut Py.startswith]. rewrite andb_true_r.
  destruct (Ascii.eqb c x) eqn:Hx.
  - apply Ascii.eqb_eq in Hx as ->. by split.
  - destruct (Py.cut (String c EmptyString) s) as [[a b]|].
    + destruct IH as [-> Ha]. split; [done|].
      cbn [Py.has_char]. by rewrite Ascii.eqb_sym, Hx, Ha.
    + cbn [Py.has_char]. by rewrite Ascii.eqb_sym, Hx, IH.
Qed.

Lemma os_path_join_nil_l (b : string) : os_path_join EmptyString b = b.
Proof. unfold os_path_join. by destruct (Py.startswith "/" b). Qed.

Lemma has_char_app (c : ascii) (a b : string) :
  Py.has_char c (a +:+ b) = Py.has_char c a || Py.has_char c b.
Proof.
  induction a as [|x a IH]; simpl; [done|]. by rewrite IH, orb_assoc.
Qed.

Lemma has_char_remove_char (c : ascii) (s : string) :
  Py.has_char c (Py.remove_char c s) = false.
Proof.
  induction s as [|x s IH]; simpl; [done|].
  destruct (Ascii.eqb x c) eqn:Hx; [done|]. simpl. by rewrite Hx, IH.
Qed.

(** The pieces of [s.split("\n")] have no line end, and no character that
    [s] has not. *)
Lemma split_nl_pieces (cur s x : string) :
  x ∈ Py.split_go Py.nl 0 cur s →
  (Py.has_char (Py.chr 10) cur = false →
   Py.has_char (Py.chr 10) x = false)
  ∧ ∀ c, Py.has_char c cur = false → Py.has_char c s = false →
         Py.has_char c x = false.
Proof.
  revert cur. induction s as [|a s IH]; intros cur.
  - intros ->%list_elem_of_singleton. by split.
  - cbn [Py.split_go Py.nl Py.startswith]. rewrite andb_true_r.
    destruct (Ascii.eqb (Py.chr 10) a) eqn:Ha.
    + apply Ascii.eqb_eq in Ha as <-.
      intros [-> | Hin]%elem_of_cons.
      * split; [done|]. by intros c Hc _.
      * change (String.length (String (Py.chr 10) EmptyString) - 1)%nat
          with 0%nat in Hin.
        destruct (IH _ Hin) as [H1 H2]. split; [by intros _; apply H1|].
        intros c _ [_ Hs]%orb_false_iff. by apply H2.
    + intros Hin. destruct (IH _ Hin) as [H1 H2]. split.
      * intros Hc. apply H1. rewrite has_char_app, Hc. simpl.
        by rewrite Ascii.eqb_sym, Ha.
      * intros c Hc [Hca Hs]%orb_false_iff. apply H2; [|done].
        rewrite has_char_app, Hc. simpl. by rewrite Hca.
Qed.

Lemma output_lines_clean (d line : string) :
  line ∈ output_lines d →
  Py.has_char "*" line = false ∧ Py.has_char (Py.chr 10) line = false.
Proof.
  unfold output_lines, Py.split. intros Hin.
  destruct (split_nl_pieces _ _ _ Hin) as [H1 H2]. split; [|by apply H1].
  apply H2; [done|]. apply has_char_remove_char.
Qed.

Lemma key_func_spec (line : string) :
  match Py.cut ":" line with
  | Some (a, b) => _key_func line = a ∧ _strip_filename line = b
  | None => _key_func line = line ∧ _strip_filename line = line
  end.
Proof.
  unfold _key_func, _strip_filename, Py.split1. simpl.
  destruct (Py.cut ":" line) as [[a b]|]; simpl;
    by rewrite os_path_join_nil_l.
Qed.

(** The key and the message of a line in which [os.path.splitdrive] finds
    no drive. *)
Lemma key_func_no_drive (line : string) :
  splitdrive line = (EmptyString, line) →
  match Py.cut ":" line with
  | Some (a, b) => _key_func line = a ∧ _strip_filename line = b
  | None => _key_func line = line ∧ _strip_filename line = line
  end.
Proof.
  intros Hdrive. unfold _key_func, _strip_filename, Py.split1.
  rewrite Hdrive.
  destruct (Py.cut ":" line) as [[a b]|]; cbn [hd List.last];
    by rewrite os_path_join_nil_l.
Qed.

Lemma key_func_no_drive_no_colon (line : string) :
  splitdrive line = (EmptyString, line) →
  Py.has_char ":" (_key_func line) = false.
Proof.
  forget_parameters. intros Hdrive.
  pose proof (key_func_no_drive line Hdrive) as Hk.
  pose proof (cut_char_spec ":" line) as Hc.
  destruct (Py.cut ":" line) as [[a b]|].
  - destruct Hk as [-> _]. by destruct Hc.
  - by destruct Hk as [-> _].
Qed.

(** A line that is a text without colon, a colon and a rest has the text as
    its key and the rest as its message. *)
Lemma key_func_of_line (line a b : string) :
  splitdrive line = (EmptyString, line) →
  line = a +:+ ":" +:+ b → Py.has_char ":" a = false →
  _key_func line = a ∧ _strip_filename line = b.
Proof.
  forget_parameters. intros Hdrive Hline Ha.
  pose proof (key_func_no_drive line Hdrive) as Hk.
  assert (Hcut : Py.cut ":" line = Some (a, b)).
  { rewrite Hline. clear Hline Hk Hdrive.
    induction a as [|c a IH]; [done|].
    cbn [Py.has_char] in Ha. apply orb_false_iff in Ha as [Hc Ha].
    change (String c a +:+ ":" +:+ b) with (String c (a +:+ ":" +:+ b)).
    cbn [Py.cut Py.startswith]. rewrite Ascii.eqb_sym, Hc. cbn [andb].
    by rewrite (IH Ha). }
  by rewrite Hcut in Hk.
Qed.

(** X1: the key and the message of an output line in which
    [os.path.splitdrive] finds no drive, as it is for every line with
    [posixpath].  A line with a colon is its key, a colon, and what
    [_strip_filename] returns; a line without a colon is its own key and its
    own message.  The key has no colon. *)
Theorem key_and_message_rebuild_line (line : string) :
  splitdrive line = (EmptyString, line) →
  (Py.has_char ":" line = true →
   line = _key_func line +:+ ":" +:+ _strip_filename line)
  ∧ (Py.has_char ":" line = false →
     _key_func line = line ∧ _strip_filename line = line)
  ∧ Py.has_char ":" (_key_func line) = false.
Proof.
  forget_parameters. intros Hdrive.
  pose proof (key_func_no_drive line Hdrive) as Hk.
  pose proof (cut_char_spec ":" line) as Hc.
  destruct (Py.cut ":" line) as [[a b]|].
  - destruct Hk as [-> ->]. destruct Hc as [Hl Ha]. split; [done|].
    split; [|done]. intros Hno. rewrite Hl, has_char_app in Hno.
    simpl in Hno. by rewrite orb_true_r in Hno.
  - destruct Hk as [-> ->]. split; [by rewrite Hc|]. by split.
Qed.

(** X2: what [run_mypy] leaves in [OUTPUT_MYPY] when it starts from the
    empty dictionary.  A key is not empty; the list kept for it is not
    empty; its lines are lines of the output of mypy for one directory, each
    with that key, without asterisk and without line end.  When
    [os.path.splitdrive] finds no drive in the lines of the output, as with
    [posixpath], the key has no colon. *)
Theorem output_mypy_invariant (st st' : state) (k : string)
    (lines : list string) :
  OUTPUT_MYPY st = ∅ →
  run_mypy st = Ok st' →
  OUTPUT_MYPY st' !! k = Some lines →
  k ≠ EmptyString ∧ lines ≠ [] ∧
  (∃ d, d ∈ directories ∧
     Forall (fun line => line ∈ output_lines d ∧ _key_func line = k ∧
                         Py.has_char "*" line = false ∧
                         Py.has_char (Py.chr 10) line = false) lines) ∧
  ((∀ d line, d ∈ directories → line ∈ output_lines d →
              splitdrive line = (EmptyString, line)) →
   Py.has_char ":" k = false).
Proof.
  intros Hinit Hrun Hk.
  pose proof (run_mypy_output st st' Hrun) as Hout. rewrite Hinit in Hout.
  rewrite Hout in Hk.
  assert (Hsome : is_Some (updated_output directories ∅ !! k)) by eauto.
  apply updated_output_is_Some in Hsome as [[? Hempty] | [Hne _]].
  { by rewrite lookup_empty in Hempty. }
  destruct (updated_output_lookup _ _ _ _ Hk) as [Hm | (Hnil & d & Hd & Hl)].
  { by rewrite lookup_empty in Hm. }
  split; [by apply nonempty_true|]. split; [done|]. split.
  - exists d. split; [done|].
    apply Forall_forall. intros line Hin. destruct (Hl line Hin) as [Hdl Hkey].
    split; [done|]. split; [done|]. by apply (output_lines_clean d).
  - intros Hdrive. destruct lines as [|line lines]; [done|].
    destruct (Hl line) as [Hdl <-]; [by left|].
    apply key_func_no_drive_no_colon. by apply (Hdrive d).
Qed.

(** X3: when [os.path.splitdrive] finds no drive in the lines of the output
    of mypy, as with [posixpath], a path with a colon is never a key of
    [OUTPUT_MYPY]: whatever mypy prints, [test_success] passes for it, and
    [test_fail] raises the assertion failure of
    [assert path in output_mypy]. *)
Theorem path_with_colon_is_never_found (st st' : state) (path src : string) :
  OUTPUT_MYPY st = ∅ →
  run_mypy st = Ok st' →
  (∀ d line, d ∈ directories → line ∈ output_lines d →
             splitdrive line = (EmptyString, line)) →
  Py.has_char ":" path = true →
  OUTPUT_MYPY st' !! path = None
  ∧ test_success (OUTPUT_MYPY st') path = Ok tt
  ∧ test_fail (OUTPUT_MYPY st') path src = Raise (AssertionError EmptyString).
Proof.
  intros Hinit Hrun Hdrive Hcolon.
  assert (Hnone : OUTPUT_MYPY st' !! path = None).
  { destruct (OUTPUT_MYPY st' !! path) as [lines|] eqn:Hl; [|done].
    pose proof (run_mypy_output st st' Hrun) as Hout. rewrite Hinit in Hout.
    rewrite Hout in Hl.
    destruct (updated_output_lookup _ _ _ _ Hl)
      as [Hm | (Hnil & d & Hd & Hk)].
    { by rewrite lookup_empty in Hm. }
    destruct lines as [|line lines]; [done|].
    destruct (Hk line) as [Hdl <-]; [by left|].
    by rewrite (key_func_no_drive_no_colon line (Hdrive d line Hd Hdl))
      in Hcolon. }
  split; [done|]. unfold test_success, test_fail. by rewrite Hnone.
Qed.

Lemma dict_update_app {V} (m : gmap string V) (l1 l2 : list (string * V)) :
  dict_update m (l1 ++ l2) = dict_update (dict_update m l1) l2.
Proof. unfold dict_update. apply fold_left_app. Qed.

Lemma dict_update_notin {V} (l : list (string * V)) (m : gmap string V)
    (k : string) :
  k ∉ l.*1 → dict_update m l !! k = m !! k.
Proof.
  unfold dict_update. revert m.
  induction l as [|[k' v] l IH]; intros m Hk; simpl; [done|].
  simpl in Hk. apply not_elem_of_cons in Hk as [Hne Hk].
  rewrite (IH _ Hk). by apply lookup_insert_ne.
Qed.

Lemma groupby_head {A} (key : A → string) (x : A) (l : list A) :
  ∃ g rest, groupby key (x :: l) = (key x, g) :: rest.
Proof.
  simpl. destruct (groupby key l) as [|[k g] rest]; [by eexists _, _|].
  destruct (decide (key x = k)) as [<- | Hne]; by eexists _, _.
Qed.

(** A run of lines with one key, followed by a line with another key or by
    nothing, is one group. *)
Lemma groupby_run {A} (key : A → string) (k : string) (run post : list A) :
  run ≠ [] → Forall (fun x => key x = k) run →
  (∀ y, head post = Some y → key y ≠ k) →
  groupby key (run ++ post) = (k, run) :: groupby key post.
Proof.
  intros Hne Hrun Hpost. induction Hrun as [|x run Hx Hrun IH]; [done|].
  destruct run as [|x' run].
  - simpl. destruct post as [|y post]; [by rewrite Hx|].
    destruct (groupby_head key y post) as (g & rest & Hg).
    rewrite Hg. rewrite decide_False; [by rewrite Hx|].
    rewrite Hx. intros Heq. by apply (Hpost y).
  - specialize (IH ltac:(done)).
    change ((x :: x' :: run) ++ post) with (x :: ((x' :: run) ++ post)).
    cbn [groupby]. rewrite IH. by rewrite decide_True.
Qed.

(** Two texts of lines whose keys differ where they meet are grouped
    apart. *)
Lemma groupby_app {A} (key : A → string) (l1 l2 : list A) :
  (∀ x y, last l1 = Some x → head l2 = Some y → key x ≠ key y) →
  groupby key (l1 ++ l2) = groupby key l1 ++ groupby key l2.
Proof.
  induction l1 as [|x l1 IH]; intros Hb; [done|].
  destruct l1 as [|x' l1].
  - simpl. destruct l2 as [|y l2]; [done|].
    destruct (groupby_head key y l2) as (g & rest & Hg). rewrite Hg.
    rewrite decide_False; [done|]. by apply Hb.
  - assert (IH' : groupby key ((x' :: l1) ++ l2)
                  = groupby key (x' :: l1) ++ groupby key l2).
    { apply IH. intros a b Ha. apply Hb. by rewrite last_cons_cons. }
    change ((x :: x' :: l1) ++ l2) with (x :: ((x' :: l1) ++ l2)).
    cbn [groupby]. rewrite IH'.
    destruct (groupby_head key x' l1) as (g & rest & Hg).
    change (groupby key (x' :: l1)) with
      (match groupby key l1 with
       | [] => [(key x', [x'])]
       | (k, g) :: rest =>
           if decide (key x' = k) then (k, x' :: g) :: rest
           else (key x', [x']) :: (k, g) :: rest
       end) in *.
    rewrite Hg. simpl. by destruct (decide (key x = key x')).
Qed.

Lemma filter_nonempty_keys_notin (l : list (string * list string))
    (k : string) :
  k ∉ l.*1 → k ∉ (List.filter (fun kv => nonempty kv.1) l).*1.
Proof.
  intros Hk Hin. apply Hk. apply list_elem_of_fmap in Hin as (kv & -> & Hin).
  apply list_elem_of_In, filter_In in Hin as [Hin _].
  apply list_elem_of_fmap. exists kv. split; [done | by apply list_elem_of_In].
Qed.

(** *** The lines that [run_mypy] keeps for a key *)

Lemma last_run_exists (k : string) (l : list string) :
  Exists (fun line => _key_func line = k) l → ∃ run, last_run k l run.
Proof.
  forget_parameters.
  induction l as [|x l IH]; intros Hex; [by apply Exists_nil in Hex|].
  destruct (decide (Exists (fun line => _key_func line = k) l))
    as [Hl | Hl].
  - destruct (IH Hl) as (run & pre & post & -> & Hne & Hrun & Hpre & Hpost).
    destruct pre as [|p pre].
    + destruct (decide (_key_func x = k)) as [Hx | Hx].
      * exists (x :: run), [], post. split; [done|]. split; [done|].
        split; [by constructor|]. by split.
      * exists run, [x], post. split; [done|]. split; [done|].
        split; [done|]. split; [|done]. by intros y [= <-].
    + exists run, (x :: p :: pre), post. split; [done|]. split; [done|].
      split; [done|]. split; [|done]. intros y Hy. apply Hpre.
      by rewrite last_cons_cons in Hy.
  - apply not_Exists_Forall in Hl; [|intros y; apply _].
    apply Exists_cons in Hex as [Hx | Hex].
    + exists [x], [], l. split; [done|]. split; [done|].
      split; [by repeat constructor|]. split; [done|].
      eapply Forall_impl; [exact Hl|]. by intros y Hy.
    + exfalso. rewrite Forall_forall in Hl. rewrite Exists_exists in Hex.
      destruct Hex as (y & Hy & Hky). by apply (Hl y Hy).
Qed.

(** The body of the loop of [run_mypy] leaves the last run of a key under
    the key. *)
Lemma parsed_output_last_run (d k : string)
    (output : gmap string (list string)) (run : list string) :
  k ≠ EmptyString → last_run k (output_lines d) run →
  dict_update output (parsed_output d) !! k = Some run.
Proof.
  intros Hk (pre & post & Hlines & Hne & Hrun & Hpre & Hpost).
  unfold parsed_output. rewrite Hlines.
  assert (Hhead : ∀ y, head post = Some y → _key_func y ≠ k).
  { intros y Hy. destruct post as [|? post]; [done|]. injection Hy as ->.
    by apply Forall_cons in Hpost as [? _]. }
  rewrite groupby_app.
  - rewrite (groupby_run _ k run post Hne Hrun Hhead).
    rewrite List.filter_app. cbn [List.filter fst].
    assert (nonempty k = true) as -> by by apply nonempty_true.
    rewrite dict_update_app.
    change (?x :: ?l) with ([x] ++ l). rewrite dict_update_app.
    rewrite dict_update_notin.
    + unfold dict_update. simpl. apply lookup_insert_eq.
    + apply filter_nonempty_keys_notin. intros Hin.
      apply groupby_keys in Hin as (y & Hy & Hky).
      rewrite Forall_forall in Hpost. by apply (Hpost y).
  - intros x y Hx Hy. destruct run as [|r run]; [done|].
    simpl in Hy. injection Hy as <-.
    apply Forall_cons in Hrun as [-> _]. by apply Hpre.
Qed.

(** It leaves a key without line as it is, and the empty key too. *)
Lemma parsed_output_no_line (d k : string)
    (output : gmap string (list string)) :
  no_line_of k d → dict_update output (parsed_output d) !! k = output !! k.
Proof.
  intros Hno. apply dict_update_notin. intros Hin.
  apply parsed_output_keys in Hin as (_ & line & Hl & Hkey).
  unfold no_line_of in Hno. rewrite Forall_forall in Hno.
  by apply (Hno line Hl).
Qed.


Lemma no_line_of_dec (k d : string) :
  no_line_of k d ∨ Exists (fun line => _key_func line = k) (output_lines d).
Proof.
  unfold no_line_of.
  destruct (decide (Exists (fun line => _key_func line = k)
                      (output_lines d))) as [Hex | Hno]; [by right|].
  left. apply not_Exists_Forall in Hno; [|intros y; apply _].
  eapply Forall_impl; [exact Hno|]. by intros y Hy.
Qed.

(** What the loop over the directories leaves under a key. *)
Lemma updated_output_kept (ds : list string)
    (output : gmap string (list string)) (k : string) :
  k ≠ EmptyString →
  (Forall (no_line_of k) ds ∧ updated_output ds output !! k = output !! k)
  ∨ (∃ lines, kept_lines ds k lines ∧
              updated_output ds output !! k = Some lines).
Proof.
  intros Hk. unfold updated_output. revert output.
  induction ds as [|d ds IH]; intros output; cbn [fold_left].
  - left. by split.
  - destruct (IH (dict_update output (parsed_output d)))
      as [[Hno Hl] | (lines & (ds1 & d' & ds2 & -> & Hrun & Hno) & Hl)].
    + destruct (no_line_of_dec k d) as [Hd | Hd].
      * left. split; [by constructor|].
        by rewrite Hl, parsed_output_no_line.
      * right. destruct (last_run_exists k _ Hd) as [run Hrun].
        exists run. split.
        -- by exists [], d, ds.
        -- by rewrite Hl, (parsed_output_last_run d k output run Hk Hrun).
    + right. exists lines. split; [|done].
      by exists (d :: ds1), d', ds2.
Qed.



(** C5, amended: after [run_mypy], [test_success] raises its assertion
    failure for a path exactly when the path is a key of [OUTPUT_MYPY], that
    is when mypy printed a line of that key in one of its four runs.  The
    message lists the lines kept for the file, which are the last run of its
    lines in the output for the last directory that has one, not all the
    lines that mypy printed for it; each is listed as [_strip_filename]
    leaves it, which for a line without drive is the text after its first
    colon, the key being the text before. *)
Theorem test_success_fails_iff_mypy_output (st st' : state) (path : string) :
  OUTPUT_MYPY st = ∅ →
  run_mypy st = Ok st' →
  path ≠ EmptyString →
  ((∃ msg, test_success (OUTPUT_MYPY st') path = Raise (AssertionError msg))
     ↔ path ∈ dom (OUTPUT_MYPY st'))
  ∧ (path ∉ dom (OUTPUT_MYPY st') →
     test_success (OUTPUT_MYPY st') path = Ok tt)
  ∧ (path ∈ dom (OUTPUT_MYPY st') ↔
     ∃ d line, d ∈ directories ∧ line ∈ output_lines d ∧ _key_func line = path)
  ∧ (∀ lines, OUTPUT_MYPY st' !! path = Some lines →
       kept_lines directories path lines ∧
       test_success (OUTPUT_MYPY st') path =
         Raise (AssertionError
                  ("Unexpected mypy output" +:+ Py.nl +:+ Py.nl
                   +:+ Py.join Py.nl (List.map _strip_filename lines))))
  ∧ (∀ line a b,
       splitdrive line = (EmptyString, line) →
       line = a +:+ ":" +:+ b → Py.has_char ":" a = false →
       _key_func line = a ∧ _strip_filename line = b).
Proof.
  intros Hinit Hrun Hpath.
  pose proof (run_mypy_output st st' Hrun) as Hout. rewrite Hinit in Hout.
  split; [|split; [|split; [|split]]].
  - rewrite elem_of_dom. unfold test_success.
    destruct (OUTPUT_MYPY st' !! path) as [lines|] eqn:Hl.
    + split; [by eauto | intros _; by eexists].
    + split; [by intros [msg ?] | by intros [? ?]].
  - rewrite elem_of_dom. unfold test_success.
    destruct (OUTPUT_MYPY st' !! path) as [lines|] eqn:Hl; [|done].
    intros []. by eexists.
  - rewrite elem_of_dom, Hout, updated_output_is_Some, lookup_empty.
    split.
    + intros [[? [=]] | [_ ?]]. done.
    + intros H. right. split; [by apply nonempty_true | done].
  - intros lines Hl. split.
    + rewrite Hout in Hl.
      destruct (updated_output_kept directories ∅ path Hpath)
        as [[_ Hno] | (lines' & Hkept & Hl')].
      * by rewrite Hl, lookup_empty in Hno.
      * rewrite Hl in Hl'. by injection Hl' as ->.
    + unfold test_success. by rewrite Hl.
  - intros line a b. apply key_func_of_line.
Qed.

(** X4: when the lines that mypy prints for a file are not all together,
    [OUTPUT_MYPY] keeps the last run of them only.  If the output of a
    directory is [pre ++ run ++ post], with [run] the lines of the key [k]
    that stand together and no line of [post] with that key, the loop body
    of [run_mypy] leaves [run] under [k], whatever [pre] has. *)
Theorem last_run_of_a_file_is_kept (d k : string)
    (output : gmap string (list string)) (pre run post : list string) :
  ¬ invocation_failed (mypy_call d) →
  output_lines d = pre ++ run ++ post →
  k ≠ EmptyString → run ≠ [] →
  Forall (fun line => _key_func line = k) run →
  (∀ x, last pre = Some x → _key_func x ≠ k) →
  Forall (fun line => _key_func line ≠ k) post →
  ∃ output', run_directory d output = Ok output' ∧ output' !! k = Some run.
Proof.
  intros Hgood Hlines Hk Hne Hrun Hpre Hpost.
  rewrite (run_directory_ok d output Hgood). eexists. split; [done|].
  unfold parsed_output. rewrite Hlines.
  assert (Hhead : ∀ y, head post = Some y → _key_func y ≠ k).
  { intros y Hy. destruct post as [|? post]; [done|]. injection Hy as ->.
    by apply Forall_cons in Hpost as [? _]. }
  rewrite groupby_app.
  - rewrite (groupby_run _ k run post Hne Hrun Hhead).
    rewrite List.filter_app. cbn [List.filter fst].
    assert (nonempty k = true) as -> by by apply nonempty_true.
    rewrite dict_update_app.
    change (?x :: ?l) with ([x] ++ l). rewrite dict_update_app.
    rewrite dict_update_notin.
    + unfold dict_update. simpl. apply lookup_insert_eq.
    + apply filter_nonempty_keys_notin. intros Hin.
      apply groupby_keys in Hin as (y & Hy & Hky).
      rewrite Forall_forall in Hpost. by apply (Hpost y).
  - intros x y Hx Hy. destruct run as [|r run]; [done|].
    simpl in Hy. injection Hy as <-.
    apply Forall_cons in Hrun as [-> _]. by apply Hpre.
Qed.

(** X5: the first statement of [run_mypy] leaves [OUTPUT_MYPY] as it is,
    never makes the cache directory, keeps an existing one exactly when the
    variable is set to the empty text, and has nothing more to do when it is
    run again. *)
Theorem clear_cache_effect (st : state) :
  OUTPUT_MYPY (clear_cache st) = OUTPUT_MYPY st
  ∧ (cache_isdir (clear_cache st) = true ↔
     cache_isdir st = true ∧
     environ !! "NUMPY_TYPING_TEST_CLEAR_CACHE" = Some EmptyString)
  ∧ clear_cache (clear_cache st) = clear_cache st.
Proof.
  unfold clear_cache, clear_cache_requested. destruct st as [output isdir].
  destruct isdir,
    (environ !! "NUMPY_TYPING_TEST_CLEAR_CACHE") as [[|c v]|]; simpl;
    (split; [done|]); (split; [|done]);
    split; try done; by intros [? ?].
Qed.

(** *** More on [test_fail] *)

Lemma for_each_raise {A} (body : A → result unit) (l : list A) (e : exn) :
  for_each body l = Raise e → ∃ x, x ∈ l ∧ body x = Raise e.
Proof.
  induction l as [|x l IH]; [done|]. simpl.
  destruct (body x) as [[]|e'] eqn:Hx.
  - intros (y & Hy & He)%IH. exists y. split; [by right | done].
  - intros [= ->]. exists x. split; [by left | done].
Qed.

Lemma enumerate_elem_of {A} (l : list A) (k i : nat) (x : A) :
  (i, x) ∈ enumerate k l ↔ (k ≤ i)%nat ∧ l !! (i - k)%nat = Some x.
Proof.
  revert k. induction l as [|y l IH]; intros k; simpl.
  - rewrite elem_of_nil. split; [done | by intros [_ ?]].
  - rewrite elem_of_cons, IH. split.
    + intros [[= -> ->] | [Hk Hl]].
      * split; [lia|]. by rewrite Nat.sub_diag.
      * split; [lia|]. by replace (i - k)%nat with (S (i - S k)) by lia.
    + intros [Hk Hl]. destruct (decide (i = k)) as [-> | Hne].
      * left. rewrite Nat.sub_diag in Hl. simpl in Hl. congruence.
      * right. split; [lia|].
        by replace (i - k)%nat with (S (i - S k)) in Hl by lia.
Qed.

Lemma check_fail_lines_Ok_iff (path : string) (errors : gmap Z string)
    (lines : list string) :
  check_fail_lines path errors lines = Ok tt ↔
  ∀ i line, lines !! i = Some line →
            check_fail_line path errors (Z.of_nat i + 1) line = Ok tt.
Proof.
  unfold check_fail_lines. rewrite for_each_Ok, Forall_forall. split.
  - intros H i line Hl. apply (H (i, line)).
    apply enumerate_elem_of. split; [lia|]. by rewrite Nat.sub_0_r.
  - intros H [i line] [_ Hl]%enumerate_elem_of.
    rewrite Nat.sub_0_r in Hl. by apply H.
Qed.

Lemma errors_get_insert (errors : gmap Z string) (k n : Z) (v : string) :
  errors_get (<[k := v]> errors) n =
  if decide (k = n) then v else errors_get errors n.
Proof.
  unfold errors_get. destruct (decide (k = n)) as [-> | Hne].
  - by rewrite lookup_insert_eq.
  - by rewrite lookup_insert_ne.
Qed.

(** What the first loop of [test_fail] leaves for a line number. *)
Lemma collect_errors_lookup (out : list string) (errors0 errors : gmap Z string)
    (n : Z) :
  collect_errors out errors0 = Ok errors →
  errors !! n =
  match lines_for n out with
  | [] => errors0 !! n
  | l => Some (errors_get errors0 n +:+ concat_lines l)
  end.
Proof.
  revert errors0. induction out as [|raw out IH]; intros errors0.
  - by intros [= <-].
  - rewrite collect_errors_cons.
    destruct (match_fail_line (fail_error_line raw)) as [g|] eqn:Hm; [|done].
    destruct (Py.int g) as [k|] eqn:Hk; [|done].
    intros Hc. rewrite (IH _ Hc).
    assert (Hraw : fail_lineno raw = Some k).
    { unfold fail_lineno. by rewrite Hm, Hk. }
    unfold lines_for. cbn [List.filter]. rewrite Hraw.
    fold (lines_for n out).
    destruct (decide (k = n)) as [-> | Hne].
    + rewrite bool_decide_eq_true_2 by done.
      rewrite errors_get_insert, lookup_insert_eq, decide_True by done.
      destruct (lines_for n out) as [|r l]; cbn [concat_lines].
      * by rewrite append_nil_r.
      * by rewrite !append_assoc.
    + rewrite bool_decide_eq_false_2 by congruence.
      rewrite errors_get_insert, decide_False by done.
      by rewrite lookup_insert_ne by done.
Qed.

Lemma collect_errors_total (out : list string) (errors0 : gmap Z string) :
  Forall (fun raw => fail_lineno raw ≠ None) out →
  ∃ errors, collect_errors out errors0 = Ok errors.
Proof.
  revert errors0. induction out as [|raw out IH]; intros errors0 Hall.
  - by eexists.
  - apply Forall_cons in Hall as [Hraw Hall]. rewrite collect_errors_cons.
    unfold fail_lineno in Hraw.
    destruct (match_fail_line (fail_error_line raw)) as [g|]; [|done].
    destruct (Py.int g) as [k|]; [|done]. by apply IH.
Qed.

Lemma collect_errors_Ok_wf (out : list string) (errors0 errors : gmap Z string) :
  collect_errors out errors0 = Ok errors →
  Forall (fun raw => fail_lineno raw ≠ None) out.
Proof.
  revert errors0. induction out as [|raw out IH]; intros errors0; [done|].
  rewrite collect_errors_cons.
  destruct (match_fail_line (fail_error_line raw)) as [g|] eqn:Hm; [|done].
  destruct (Py.int g) as [k|] eqn:Hk; [|done].
  intros Hc. constructor; [|by eapply IH].
  unfold fail_lineno. by rewrite Hm, Hk.
Qed.

(** The first loop of [test_fail] raises for a line that does not match the
    pattern, or for a line whose number has more digits than [int]
    reads. *)
Lemma collect_errors_raise (out : list string) (errors0 : gmap Z string)
    (e : exn) :
  collect_errors out errors0 = Raise e →
  ∃ raw, raw ∈ out ∧
    ((match_fail_line (fail_error_line raw) = None ∧
      e = ValueError ("Unexpected error line format: "
                      +:+ fail_error_line raw))
     ∨ (∃ group, match_fail_line (fail_error_line raw) = Some group ∧
          (Py.int_max_str_digits < String.length group)%nat ∧
          e = ValueError (Py.int_limit_message (String.length group)))).
Proof.
  revert errors0. induction out as [|raw out IH]; intros errors0; [done|].
  rewrite collect_errors_cons.
  destruct (match_fail_line (fail_error_line raw)) as [g|] eqn:Hm.
  - destruct (match_fail_line_digits _ _ Hm) as [Hd Hne].
    pose proof (int_all_digits g Hd Hne) as Hint.
    destruct (Nat.ltb_spec Py.int_max_str_digits (String.length g))
      as [Hlong | Hshort].
    + rewrite Hint. intros [= <-]. exists raw. split; [by left|].
      right. by exists g.
    + destruct Hint as [k ->].
      intros (raw' & Hin & Hbad)%IH. exists raw'. split; [by right | done].
  - intros [= <-]. exists raw. split; [by left|]. by left.
Qed.

Lemma collect_errors_text (out : list string) (errors : gmap Z string)
    (n : Z) :
  collect_errors out ∅ = Ok errors →
  errors_get errors n = concat_lines (lines_for n out)
  ∧ (errors !! n = None ↔ lines_for n out = []).
Proof.
  intros Hc. pose proof (collect_errors_lookup out ∅ errors n Hc) as Hl.
  unfold errors_get. rewrite Hl, lookup_empty.
  by destruct (lines_for n out).
Qed.

(** X6: the text that [test_fail] accumulates for a line number is made of
    the output lines that report that number, in the order of the output,
    each cut at its first line end and followed by a line end; a number
    that no output line reports has no entry. *)
Theorem accumulated_text_of_a_line (out : list string)
    (errors : gmap Z string) (n : Z) :
  collect_errors out ∅ = Ok errors →
  errors_get errors n = concat_lines (lines_for n out)
  ∧ (errors !! n = None ↔ lines_for n out = []).
Proof. apply collect_errors_text. Qed.

Lemma check_fail_line_Ok_iff (path : string) (errors : gmap Z string)
    (n : Z) (line : string) :
  check_fail_line path errors n line = Ok tt ↔
  Py.startswith "#" line = true
  ∨ (Py.contains " E:" line = false ∧ errors !! n = None)
  ∨ (Py.contains "# E:" line = true ∧
     Py.contains (Py.strip (Py.partition "  # E: " line).2)
       (Py.strip (errors_get errors n)) = true).
Proof.
  unfold check_fail_line, _test_fail.
  destruct (Py.partition "  # E: " line) as [[expression sep] marker].
  cbn [snd].
  destruct (Py.startswith "#" line); [by split; [left|]|].
  destruct (Py.contains " E:" line) eqn:HE; simpl.
  - destruct (Py.contains "# E:" line).
    + destruct (Py.contains (Py.strip marker) _); simpl.
      * split; [by right; right | done].
      * split; [done | intros [? | [[? _] | [_ ?]]]; done].
    + split; [done | intros [? | [[? _] | [? _]]]; done].
  - destruct (errors !! n) as [v|] eqn:Hn.
    + rewrite bool_decide_eq_false_2 by done.
      destruct (Py.contains "# E:" line).
      * destruct (Py.contains (Py.strip marker) _); simpl.
        -- split; [by right; right | done].
        -- split; [done | intros [? | [[_ ?] | [_ ?]]]; done].
      * split; [done | intros [? | [[_ ?] | [? _]]]; done].
    + rewrite bool_decide_eq_true_2 by done. split; [|done].
      intros _. right. by left.
Qed.

Lemma check_fail_line_raise (path : string) (errors : gmap Z string)
    (n : Z) (line : string) (e : exn) :
  check_fail_line path errors n line = Raise e →
  (Py.contains "# E:" line = true ∧
   Py.contains (Py.strip (Py.partition "  # E: " line).2)
     (Py.strip (errors_get errors n)) = false ∧
   e = AssertionError
         (_FAIL_MSG2 n (Py.partition "  # E: " line).1.1
            (Py.strip (errors_get errors n))
            (Py.strip (Py.partition "  # E: " line).2)))
  ∨ (Py.contains "# E:" line = false ∧
     e = Failed ("Unexpected mypy output at line "
                 +:+ Py.str_of_int n +:+ Py.nl +:+ Py.nl
                 +:+ errors_get errors n)).
Proof.
  unfold check_fail_line, _test_fail.
  destruct (Py.partition "  # E: " line) as [[expression sep] marker].
  cbn [fst snd].
  destruct (_ || _); [done|].
  destruct (Py.contains "# E:" line).
  - destruct (Py.contains (Py.strip marker) _); [done|].
    intros [= <-]. by left.
  - intros [= <-]. by right.
Qed.

(** X7: [test_fail] passes exactly when the path is a key of the output,
    every output line of the file matches the pattern with a line number
    that [int] reads, and every line of the file is accepted: it begins
    with [#], or it has no [ E:] and mypy reports nothing for it, or it has
    [# E:] and the stripped text after [  # E: ] is found in the stripped
    text accumulated for it. *)
Theorem test_fail_passes_iff (output_mypy : gmap string (list string))
    (path src : string) :
  test_fail output_mypy path src = Ok tt ↔
  ∃ out, output_mypy !! path = Some out ∧
    Forall (fun raw => fail_lineno raw ≠ None) out ∧
    ∀ i line, Py.readlines src !! i = Some line →
              line_accepted out (Z.of_nat i + 1) line.
Proof.
  unfold test_fail. destruct (output_mypy !! path) as [out|]; last first.
  { split; [done | by intros (? & ? & _)]. }
  assert (Hacc : ∀ errors, collect_errors out ∅ = Ok errors →
            ∀ n line, check_fail_line path errors n line = Ok tt ↔
                      line_accepted out n line).
  { intros errors Hc n line. rewrite check_fail_line_Ok_iff.
    unfold line_accepted.
    destruct (collect_errors_text out errors n Hc) as [-> ->]. done. }
  destruct (collect_errors out ∅) as [errors|e] eqn:Hc.
  - rewrite check_fail_lines_Ok_iff. split.
    + intros H. exists out. split; [done|].
      split; [by eapply collect_errors_Ok_wf|].
      intros i line Hl. by apply (Hacc errors), H.
    + intros (out' & [= <-] & _ & H) i line Hl. by apply (Hacc errors), H.
  - split; [done|]. intros (out' & [= <-] & Hwf & _).
    destruct (collect_errors_total out ∅ Hwf) as [errors Herr]. congruence.
Qed.

(** X8: the exceptions of [test_fail].  It raises the bare assertion
    failure when the path is not a key of the output, the [ValueError] of
    an output line that does not match the pattern, the [ValueError] of
    [int] for a line number of more digits than the limit, the assertion
    failure [Error mismatch] for a line with [# E:], or the failure
    [Unexpected mypy output] of [pytest.fail] for a line without; it never
    raises the assertion failure [Extra error] of [_test_fail]. *)
Theorem test_fail_exceptions (output_mypy : gmap string (list string))
    (path src : string) (e : exn) :
  test_fail output_mypy path src = Raise e →
  ((output_mypy !! path = None ∧ e = AssertionError EmptyString)
   ∨ (∃ out raw, output_mypy !! path = Some out ∧ raw ∈ out ∧
        match_fail_line (fail_error_line raw) = None ∧
        e = ValueError ("Unexpected error line format: "
                        +:+ fail_error_line raw))
   ∨ (∃ out raw group, output_mypy !! path = Some out ∧ raw ∈ out ∧
        match_fail_line (fail_error_line raw) = Some group ∧
        (Py.int_max_str_digits < String.length group)%nat ∧
        e = ValueError (Py.int_limit_message (String.length group)))
   ∨ (∃ i line text, Py.readlines src !! i = Some line ∧
        Py.contains "# E:" line = true ∧
        e = AssertionError
              (_FAIL_MSG2 (Z.of_nat i + 1) (Py.partition "  # E: " line).1.1
                 text (Py.strip (Py.partition "  # E: " line).2)))
   ∨ (∃ i line text, Py.readlines src !! i = Some line ∧
        Py.contains "# E:" line = false ∧
        e = Failed ("Unexpected mypy output at line "
                    +:+ Py.str_of_int (Z.of_nat i + 1) +:+ Py.nl +:+ Py.nl
                    +:+ text)))
  ∧ ∀ lineno expression error,
      e ≠ AssertionError (_FAIL_MSG1 lineno expression error).
Proof.
  unfold test_fail. intros He.
  assert (Hcases :
    (output_mypy !! path = None ∧ e = AssertionError EmptyString)
    ∨ (∃ out raw, output_mypy !! path = Some out ∧ raw ∈ out ∧
         match_fail_line (fail_error_line raw) = None ∧
         e = ValueError ("Unexpected error line format: "
                         +:+ fail_error_line raw))
    ∨ (∃ out raw group, output_mypy !! path = Some out ∧ raw ∈ out ∧
         match_fail_line (fail_error_line raw) = Some group ∧
         (Py.int_max_str_digits < String.length group)%nat ∧
         e = ValueError (Py.int_limit_message (String.length group)))
    ∨ (∃ i line text, Py.readlines src !! i = Some line ∧
         Py.contains "# E:" line = true ∧
         e = AssertionError
               (_FAIL_MSG2 (Z.of_nat i + 1) (Py.partition "  # E: " line).1.1
                  text (Py.strip (Py.partition "  # E: " line).2)))
    ∨ (∃ i line text, Py.readlines src !! i = Some line ∧
         Py.contains "# E:" line = false ∧
         e = Failed ("Unexpected mypy output at line "
                     +:+ Py.str_of_int (Z.of_nat i + 1) +:+ Py.nl +:+ Py.nl
                     +:+ text))).
  { destruct (output_mypy !! path) as [out|]; last first.
    { left. split; [done | congruence]. }
    destruct (collect_errors out ∅) as [errors|e'] eqn:Hc.
    - apply for_each_raise in He as ([i line] & Hin & Hb).
      apply enumerate_elem_of in Hin as [_ Hl]. rewrite Nat.sub_0_r in Hl.
      apply check_fail_line_raise in Hb as [(Hm & _ & ->) | [Hm ->]].
      + do 3 right. left. by eexists i, line, _.
      + do 4 right. by eexists i, line, _.
    - injection He as ->.
      apply collect_errors_raise in Hc
        as (raw & Hin & [[Hbad ->] | (g & Hm & Hlong & ->)]).
      + right. left. by exists out, raw.
      + do 2 right. left. by exists out, raw, g. }
  split; [done|]. intros lineno expression error ->.
  destruct Hcases as [[_ [=]] | [(? & ? & _ & _ & _ & [=])
    | [(? & ? & ? & _ & _ & _ & _ & [=])
    | [(? & ? & ? & _ & _ & [=]) | (? & ? & ? & _ & _ & [=])]]]].
Qed.

(** X9: a line with [# E:] whose marker text is empty is accepted whatever
    mypy reports for it.  The marker text is what follows [  # E: ],
    stripped, so this is the case of a marker with nothing after it and of
    a marker that two spaces do not precede. *)
Theorem empty_marker_is_accepted (path : string) (errors : gmap Z string)
    (n : Z) (line : string) :
  Py.contains "# E:" line = true →
  Py.strip (Py.partition "  # E: " line).2 = EmptyString →
  check_fail_line path errors n line = Ok tt.
Proof.
  intros Hm Hs. apply check_fail_line_Ok_iff. right. right.
  split; [done|]. rewrite Hs. by destruct (Py.strip (errors_get errors n)).
Qed.

Lemma for_each_ext {A} (body1 body2 : A → result unit) (l : list A) :
  (∀ x, x ∈ l → body1 x = body2 x) → for_each body1 l = for_each body2 l.
Proof.
  induction l as [|x l IH]; intros H; [done|]. simpl.
  rewrite <- (H x) by by left. destruct (body1 x); [|done].
  apply IH. intros y Hy. apply H. by right.
Qed.

Lemma check_fail_line_ext (path : string) (errors1 errors2 : gmap Z string)
    (n : Z) (line : string) :
  errors1 !! n = errors2 !! n →
  check_fail_line path errors1 n line = check_fail_line path errors2 n line.
Proof. intros H. unfold check_fail_line, errors_get. by rewrite H. Qed.

Lemma collect_errors_agree (n : Z) (out : list string)
    (errors1 errors2 : gmap Z string) :
  (∀ m, m ≠ n → errors1 !! m = errors2 !! m) →
  same_errors_but n (collect_errors out errors1) (collect_errors out errors2).
Proof.
  revert errors1 errors2. induction out as [|raw out IH];
    intros errors1 errors2 Hag; [done|].
  rewrite !collect_errors_cons.
  destruct (match_fail_line (fail_error_line raw)) as [g|]; [|done].
  destruct (Py.int g) as [k|]; [|done].
  apply IH. intros m Hm. destruct (decide (k = m)) as [-> | Hne].
  - rewrite !lookup_insert_eq. unfold errors_get. by rewrite (Hag m Hm).
  - rewrite !lookup_insert_ne by done. by apply Hag.
Qed.

Lemma collect_errors_without (n : Z) (pre post : list string) (raw : string)
    (errors0 : gmap Z string) :
  fail_lineno raw = Some n →
  same_errors_but n (collect_errors (pre ++ raw :: post) errors0)
    (collect_errors (pre ++ post) errors0).
Proof.
  intros Hraw. revert errors0. induction pre as [|x pre IH]; intros errors0.
  - cbn [app]. rewrite collect_errors_cons. unfold fail_lineno in Hraw.
    destruct (match_fail_line (fail_error_line raw)) as [g|]; [|done].
    destruct (Py.int g) as [k|]; [|done]. injection Hraw as ->.
    apply collect_errors_agree. intros m Hm. by rewrite lookup_insert_ne.
  - cbn [app]. rewrite !collect_errors_cons.
    destruct (match_fail_line (fail_error_line x)) as [g|]; [|done].
    destruct (Py.int g) as [k|]; [|done]. apply IH.
Qed.

(** X10: an output line of mypy that reports a line number that is not the
    number of a line of the file (zero, or beyond the last line) has no
    effect on [test_fail]: the result is the one without that output
    line. *)
Theorem diagnostic_outside_the_file_is_ignored
    (output_mypy : gmap string (list string)) (path src : string)
    (pre post : list string) (raw : string) (n : Z) :
  output_mypy !! path = Some (pre ++ raw :: post) →
  fail_lineno raw = Some n →
  n ≤ 0 ∨ Z.of_nat (length (Py.readlines src)) < n →
  test_fail output_mypy path src =
  test_fail (<[path := pre ++ post]> output_mypy) path src.
Proof.
  intros Hout Hraw Hn. unfold test_fail. rewrite Hout, lookup_insert_eq.
  pose proof (collect_errors_without n pre post raw ∅ Hraw) as Hsame.
  destruct (collect_errors (pre ++ raw :: post) ∅) as [e1|x1],
    (collect_errors (pre ++ post) ∅) as [e2|x2]; simpl in Hsame;
    [|done|done|by subst].
  unfold check_fail_lines. apply for_each_ext.
  intros [i line] [_ Hl]%enumerate_elem_of. rewrite Nat.sub_0_r in Hl.
  apply check_fail_line_ext, Hsame.
  apply lookup_lt_Some in Hl. lia.
Qed.

(** *** More on the stripping of module names *)

Lemma strip_sub_go_word (cur w s : string) :
  all_chars Py.is_word w = true →
  strip_sub_go cur (w +:+ s) = strip_sub_go (cur +:+ w) s.
Proof.
  revert cur. induction w as [|c w IH]; intros cur; simpl.
  - by rewrite append_nil_r.
  - intros [Hc Hw]%andb_prop. rewrite Hc, (IH _ Hw).
    by rewrite append_assoc.
Qed.

Lemma nonempty_app (a b : string) :
  nonempty (a +:+ b) = nonempty a || nonempty b.
Proof. by destruct a. Qed.

Lemma starts_with_word_not_dot (s : string) :
  starts_with_word s = true → ∃ c s', s = String c s' ∧ Py.is_word c = true.
Proof. destruct s as [|c s']; [done|]. by exists c, s'. Qed.

(** A qualifying name at the head of the text is dropped. *)
Lemma strip_sub_go_qualified (cur w s : string) :
  all_chars Py.is_word w = true → nonempty (cur +:+ w) = true →
  starts_with_word s = true →
  strip_sub_go cur (w +:+ "." +:+ s) = strip_sub_go EmptyString s.
Proof.
  intros Hw Hne Hs. rewrite (strip_sub_go_word cur w _ Hw).
  change ("." +:+ s) with (String "." s). cbn [strip_sub_go].
  by rewrite Hne, Hs.
Qed.

Lemma starts_with_word_app (p t : string) :
  p ≠ EmptyString → starts_with_word (p +:+ t) = starts_with_word p.
Proof. by destruct p. Qed.

Lemma strip_sub_go_context (p w s cur : string) :
  (∃ c, last_char p = Some c ∧ Py.is_word c = false) →
  all_chars Py.is_word w = true → w ≠ EmptyString →
  starts_with_word s = true →
  strip_sub_go cur (p +:+ w +:+ "." +:+ s) = strip_sub_go cur (p +:+ s).
Proof.
  intros Hp Hw Hne Hs. revert cur.
  assert (Hqual : strip_sub_go EmptyString (w +:+ "." +:+ s)
                  = strip_sub_go EmptyString s).
  { apply strip_sub_go_qualified; [done | | done]. by destruct w. }
  assert (Hws : starts_with_word (w +:+ "." +:+ s) = true).
  { destruct w as [|c w]; [done|]. simpl in *. by apply andb_prop in Hw as [? _]. }
  induction p as [|c p IH]; intros cur.
  { by destruct Hp as (? & [=] & _). }
  destruct p as [|c' p].
  - destruct Hp as (? & [= <-] & Hc).
    change (String c EmptyString +:+ ?t) with (String c t).
    cbn [strip_sub_go]. rewrite Hc, Hws, Hs.
    destruct (_ && _); by rewrite Hqual.
  - assert (Hp' : ∃ c0, last_char (String c' p) = Some c0 ∧
                        Py.is_word c0 = false) by done.
    specialize (IH Hp').
    change (String c (String c' p) +:+ ?t)
      with (String c (String c' p +:+ t)).
    cbn [strip_sub_go]. rewrite !starts_with_word_app by done.
    destruct (Py.is_word c); [by apply IH|].
    destruct (_ && _); by rewrite IH.
Qed.

(** X11: a name and the same name qualified by a module are stripped to the
    same text: at the beginning of the text or after a character that is
    not a word character, a run of word characters and a dot before a word
    character are dropped, whatever follows. *)
Theorem qualified_name_is_stripped (p w s : string) :
  p = EmptyString ∨ (∃ c, last_char p = Some c ∧ Py.is_word c = false) →
  all_chars Py.is_word w = true → w ≠ EmptyString →
  starts_with_word s = true →
  _STRIP_PATTERN_sub (p +:+ w +:+ "." +:+ s) = _STRIP_PATTERN_sub (p +:+ s).
Proof.
  forget_parameters.
  intros [-> | Hp] Hw Hne Hs; unfold _STRIP_PATTERN_sub.
  - apply strip_sub_go_qualified; [done | | done]. by destruct w.
  - by apply strip_sub_go_context.
Qed.

Lemma strip_sub_go_no_dot (cur s : string) :
  Py.has_char "." s = false → strip_sub_go cur s = cur +:+ s.
Proof.
  revert cur. induction s as [|c s IH]; intros cur; simpl.
  - by rewrite append_nil_r.
  - intros [Hc Hs]%orb_false_iff. rewrite Hc.
    simpl. destruct (Py.is_word c).
    + rewrite (IH _ Hs). by rewrite append_assoc.
    + by rewrite (IH _ Hs).
Qed.

Lemma strip_sub_go_starts (s : string) :
  starts_with_word (strip_sub_go EmptyString s) = true →
  starts_with_word s = true.
Proof.
  destruct s as [|c s]; [done|]. simpl.
  destruct (Py.is_word c) eqn:Hc; [done|].
  rewrite andb_false_r. simpl. by rewrite Hc.
Qed.

Lemma strip_sub_go_idem (cur s : string) :
  all_chars Py.is_word cur = true →
  strip_sub_go EmptyString (strip_sub_go cur s) = strip_sub_go cur s.
Proof.
  revert cur. induction s as [|c s IH]; intros cur Hcur.
  - simpl. rewrite <- (append_nil_r cur) at 1.
    by rewrite (strip_sub_go_word EmptyString cur EmptyString Hcur).
  - cbn [strip_sub_go]. destruct (Py.is_word c) eqn:Hc.
    + apply IH. clear IH. induction cur as [|a cur IHc]; simpl in *.
      * by rewrite Hc.
      * apply andb_prop in Hcur as [-> Hcur]. by apply IHc.
    + destruct (Ascii.eqb c "." && nonempty cur && starts_with_word s)
        eqn:Hdel; [by apply IH|].
      rewrite (strip_sub_go_word EmptyString cur _ Hcur).
      cbn [strip_sub_go String.append]. rewrite Hc.
      assert (Ascii.eqb c "." && nonempty cur
              && starts_with_word (strip_sub_go EmptyString s) = false) as ->.
      { destruct (starts_with_word (strip_sub_go EmptyString s)) eqn:Hst;
          [|by rewrite andb_false_r].
        by rewrite (strip_sub_go_starts s Hst) in Hdel. }
      by rewrite (IH EmptyString).
Qed.

(** X12: the stripping of module names leaves a text without a dot as it
    is, and stripping a stripped text changes nothing. *)
Theorem strip_is_idempotent (s : string) :
  (Py.has_char "." s = false → _STRIP_PATTERN_sub s = s)
  ∧ _STRIP_PATTERN_sub (_STRIP_PATTERN_sub s) = _STRIP_PATTERN_sub s.
Proof.
  forget_parameters. unfold _STRIP_PATTERN_sub. split.
  - by apply strip_sub_go_no_dot.
  - by apply strip_sub_go_idem.
Qed.

(** *** More on [test_reveal] *)

Lemma index_beyond {A} (l : list A) (i : Z) :
  Z.of_nat (length l) ≤ i → i ≤ Py.maxsize →
  Py.index l i = Raise (IndexError "list index out of range").
Proof.
  intros Hi Hmax. unfold Py.index.
  destruct (Z.ltb_spec i (- Py.maxsize - 1)) as [?|_];
    [unfold Py.maxsize in *; lia|].
  destruct (Z.ltb_spec Py.maxsize i) as [?|_]; [lia|]. cbn [orb].
  destruct (Z.ltb_spec i 0) as [?|_]; [lia|].
  destruct (Z.leb_spec 0 i) as [_|?]; [|lia].
  by destruct (Z.ltb_spec i (Z.of_nat (length l))) as [?|_]; [lia|].
Qed.

Lemma index_too_large {A} (l : list A) (i : Z) :
  Py.maxsize < i →
  Py.index l i =
    Raise (IndexError "cannot fit 'int' into an index-sized integer").
Proof.
  intros Hi. unfold Py.index.
  destruct (Z.ltb_spec Py.maxsize i) as [_|?]; [|lia].
  by rewrite orb_true_r.
Qed.

Lemma index_minus_one {A} (l : list A) (x : A) :
  last l = Some x → Py.index l (-1) = Ok x.
Proof.
  intros Hx. unfold Py.index.
  assert (length l ≠ 0)%nat as Hlen by (by destruct l).
  rewrite last_lookup in Hx.
  change ((-1 <? - Py.maxsize - 1) || (Py.maxsize <? -1)) with false.
  change (-1 <? 0) with true. cbn match.
  destruct (Z.leb_spec 0 (-1 + Z.of_nat (length l))) as [_|?]; [|lia].
  destruct (Z.ltb_spec (-1 + Z.of_nat (length l)) (Z.of_nat (length l)))
    as [_|?]; [|lia].
  cbn [andb].
  replace (Z.to_nat (-1 + Z.of_nat (length l))) with (pred (length l)) by lia.
  by rewrite Hx.
Qed.

Lemma np_getitem_minus_one (a : list string) (x : string) :
  last a = Some x → np_getitem a (-1) = Ok x.
Proof.
  intros Hx. unfold np_getitem.
  assert (length a ≠ 0)%nat as Hlen by (by destruct a).
  rewrite last_lookup in Hx.
  change (-1 <? 0) with true. cbn match.
  destruct (Z.leb_spec 0 (-1 + Z.of_nat (length a))) as [_|?]; [|lia].
  destruct (Z.ltb_spec (-1 + Z.of_nat (length a)) (Z.of_nat (length a)))
    as [_|?]; [|lia].
  cbn [andb].
  replace (Z.to_nat (-1 + Z.of_nat (length a))) with (pred (length a)) by lia.
  by rewrite Hx.
Qed.

(** X13: the line number of a note of mypy in [test_reveal].  A note for a
    line number beyond the list of the expected reveals raises the
    [IndexError] of the list: [list index out of range] for a number that
    fits the index type, [cannot fit 'int' into an index-sized integer] for
    a larger one.  A note for the line number 0 raises nothing of the kind:
    the index -1 takes the last expected reveal and the last expression, and
    the note is compared with them. *)
Theorem note_line_number_outside_the_file (path : string)
    (expression_array reveal_list : list string) (raw group : string)
    (n : Z) :
  match_reveal_line (_strip_filename raw) = Some group →
  Py.int group = Ok n →
  Py.contains "Revealed type is" (_strip_filename raw) = true →
  (Z.of_nat (length reveal_list) < n → n - 1 ≤ Py.maxsize →
   check_reveal_line path expression_array reveal_list raw =
     Raise (IndexError "list index out of range"))
  ∧ (Py.maxsize < n - 1 →
     check_reveal_line path expression_array reveal_list raw =
       Raise (IndexError "cannot fit 'int' into an index-sized integer"))
  ∧ (n = 0 → ∀ marker expression,
       last reveal_list = Some marker →
       last expression_array = Some expression →
       check_reveal_line path expression_array reveal_list raw =
         _test_reveal path expression marker (_strip_filename raw) 0).
Proof.
  intros Hm Hn Hr. unfold check_reveal_line.
  rewrite Hm, Hn, bind_Ok. cbn zeta. rewrite Hr. cbn [negb].
  split; [|split].
  - intros Hlen Hmax.
    rewrite (index_beyond reveal_list (n - 1)); [done| |done]. lia.
  - intros Hmax. by rewrite (index_too_large reveal_list (n - 1)).
  - intros -> marker expression Hmk Hex.
    change (0 - 1) with (-1).
    by rewrite (index_minus_one _ _ Hmk), bind_Ok,
      (np_getitem_minus_one _ _ Hex), bind_Ok.
Qed.

(** [split] undoes [join] for the separator of [_parse_reveals]. *)
Lemma startswith_slash_n (s : string) :
  Py.startswith "/n" s = true → Py.contains "/n" s = true.
Proof. intros H. destruct s; simpl in *; by rewrite H. Qed.

Lemma split_go_last (cur x : string) :
  Py.contains "/n" x = false →
  Py.split_go "/n" 0 cur x = [cur +:+ x].
Proof.
  revert cur. induction x as [|c x IH]; intros cur Hx.
  - by rewrite append_nil_r.
  - cbn [Py.contains] in Hx. apply orb_false_iff in Hx as [Hst Hx].
    cbn [Py.split_go]. rewrite Hst, (IH _ Hx). by rewrite append_assoc.
Qed.

Lemma split_go_piece (cur x rest : string) :
  Py.contains "/n" x = false →
  Py.split_go "/n" 0 cur (x +:+ "/n" +:+ rest) =
  (cur +:+ x) :: Py.split_go "/n" 0 EmptyString rest.
Proof.
  revert cur. induction x as [|c x IH]; intros cur Hx.
  - rewrite append_nil_r. by destruct rest.
  - cbn [Py.contains] in Hx. apply orb_false_iff in Hx as [Hst Hx].
    change (String c x +:+ "/n" +:+ rest)
      with (String c (x +:+ "/n" +:+ rest)).
    cbn [Py.split_go].
    assert (Py.startswith "/n" (String c (x +:+ "/n" +:+ rest)) = false)
      as ->.
    { destruct x as [|c' x]; [|exact Hst].
      cbn. destruct (Ascii.eqb "/" c); [|done]. by cbn. }
    rewrite (IH _ Hx). by rewrite append_assoc.
Qed.

Lemma split_join (l : list string) :
  l ≠ [] → Forall (fun x => Py.contains "/n" x = false) l →
  Py.split "/n" (Py.join "/n" l) = l.
Proof.
  intros Hne Hl. unfold Py.split.
  induction Hl as [|x l Hx Hl IH]; [done|].
  destruct l as [|y l].
  - by rewrite split_go_last.
  - change (Py.join "/n" (x :: y :: l))
      with (x +:+ "/n" +:+ Py.join "/n" (y :: l)).
    rewrite (split_go_piece _ _ _ Hx). by rewrite IH.
Qed.

Lemma split_go_not_nil (sep : string) (k : nat) (cur s : string) :
  Py.split_go sep k cur s ≠ [].
Proof.
  revert k cur. induction s as [|c s IH]; intros k cur; [done|].
  cbn [Py.split_go]. destruct k; [|apply IH].
  destruct (Py.startswith sep (String c s)); [done|apply IH].
Qed.

(** X14: the expected reveals are those of the lines.  When the comments of
    a file have no brace and none of them has the text [/n], the text with
    which [_parse_reveals] joins and splits them, [_parse_reveals] returns
    the expression and the comment of each line, in the order of the lines:
    the two lists have the length of the list of the lines, and for each
    line they have the text before and the text after [  # E: ] as the
    array of numpy gives them, without the NUL characters at their end. *)
Theorem comments_without_keys_are_kept (src : string) :
  all_chars not_brace (reveal_comments src) = true →
  Forall (fun r => Py.contains "/n" r.2 = false) (reveal_rows src) →
  ∃ expression_array reveal_list,
    _parse_reveals src = Ok (expression_array, reveal_list)
    ∧ length expression_array
      = length (Py.split Py.nl (Py.remove_char "*" src))
    ∧ length reveal_list = length expression_array
    ∧ ∀ i line,
        Py.split Py.nl (Py.remove_char "*" src) !! i = Some line →
        expression_array !! i
          = Some (np_str (Py.partition "  # E: " (np_str line)).1.1)
        ∧ reveal_list !! i
          = Some (np_str (Py.partition "  # E: " (np_str line)).2).
Proof.
  intros Hb Hn.
  exists (reveal_expressions src), (List.map (fun r => r.2) (reveal_rows src)).
  split; [|split; [|split]].
  - unfold _parse_reveals.
    fold (reveal_rows src). fold (reveal_comments src).
    pose proof (substitute_source FORMAT_DICT [Lit (reveal_comments src)])
      as Hsub.
    cbn [source expand] in Hsub. rewrite append_nil_r in Hsub.
    rewrite Hsub by (constructor; [exact Hb | constructor]).
    cbn. f_equal. f_equal. unfold reveal_comments. apply split_join.
    + unfold reveal_rows, np_char_partition, Py.split.
      pose proof (split_go_not_nil Py.nl 0 EmptyString
                    (Py.remove_char "*" src)).
      by destruct (Py.split_go _ _ _ _).
    + by apply Forall_fmap.
  - unfold reveal_expressions, reveal_rows, np_char_partition.
    by rewrite !length_map.
  - unfold reveal_expressions. by rewrite !length_map.
  - intros i line Hl.
    unfold reveal_expressions, reveal_rows, np_char_partition.
    change (@List.map) with (@fmap list _).
    rewrite !list_lookup_fmap, Hl. cbn [fmap option_fmap option_map].
    by destruct (Py.partition "  # E: " (np_str line)) as [[a b] c].
Qed.

(** *** The format table *)

Lemma find_snoc {A} (f : A → bool) (l : list A) (x : A) :
  List.find f (l ++ [x]) =
  match List.find f l with
  | Some y => Some y
  | None => if f x then Some x else None
  end.
Proof.
  induction l as [|a l IH]; simpl; [done|]. by destruct (f a).
Qed.

Lemma first_ctypes_snoc (key : string * Z) (l : list (string * string))
    (np_name ct_name : string) :
  first_ctypes key (l ++ [(np_name, ct_name)]) =
  match first_ctypes key l with
  | Some v => Some v
  | None => if bool_decide (np_dtype np_name = key)
            then Some ("ctypes." +:+ ct_name) else None
  end.
Proof.
  unfold first_ctypes. rewrite find_snoc.
  destruct (List.find _ l); [done|]. simpl. by destruct (bool_decide _).
Qed.

Lemma first_ctypes_is_Some (l : list (string * string))
    (np_name ct_name : string) :
  (np_name, ct_name) ∈ l → is_Some (first_ctypes (np_dtype np_name) l).
Proof.
  intros Hin. unfold first_ctypes.
  destruct (List.find _ l) as [y|] eqn:Hf; [by eexists|].
  apply list_elem_of_In in Hin.
  pose proof (List.find_none _ _ Hf _ Hin) as Hno. simpl in Hno.
  by rewrite bool_decide_eq_false in Hno.
Qed.

(** The state of the loop of [_construct_ctypes_dict] after the items [l]. *)
Lemma ctypes_loop (l : list (string * string)) :
  NoDup (l.*2) →
  let st := fold_left ctypes_step l (∅, ∅) in
  (∀ key, st.2 !! key = first_ctypes key l)
  ∧ (∀ np_name ct_name, (np_name, ct_name) ∈ l →
       st.1 !! ct_name = first_ctypes (np_dtype np_name) l)
  ∧ (∀ k, k ∉ l.*2 → st.1 !! k = None).
Proof.
  induction l as [|[np0 ct0] l IH] using rev_ind; intros Hnd st.
  { split; [done|]. split; [|done]. by intros ?? ?%elem_of_nil. }
  rewrite fmap_app in Hnd. apply NoDup_app in Hnd as (Hnd & Hnot & _).
  specialize (IH Hnd). cbn zeta in IH. destruct IH as (HV & HR & HD).
  subst st. rewrite fold_left_app. cbn [fold_left].
  destruct (fold_left ctypes_step l (∅, ∅)) as [ret visited].
  cbn [fst snd] in *. cbn [ctypes_step fst snd].
  assert (HV' : ∀ key,
    <[np_dtype np0 := default ("ctypes." +:+ ct0) (visited !! np_dtype np0)]>
      visited !! key = first_ctypes key (l ++ [(np0, ct0)])).
  { intros key. rewrite first_ctypes_snoc, <- HV.
    destruct (decide (np_dtype np0 = key)) as [<-|Hne].
    - rewrite lookup_insert_eq, bool_decide_eq_true_2 by done.
      by destruct (visited !! np_dtype np0).
    - rewrite lookup_insert_ne by done.
      destruct (visited !! key); [done|]. by rewrite bool_decide_eq_false_2. }
  split; [exact HV'|]. split.
  - intros np_name ct_name [Hin | [= -> ->]%list_elem_of_singleton]%elem_of_app.
    + rewrite <- HV'.
      assert (ct_name ≠ ct0) as Hct.
      { intros ->. apply (Hnot ct0); [|by left].
        apply list_elem_of_fmap. by exists (np_name, ct0). }
      rewrite lookup_insert_ne by done. rewrite (HR _ _ Hin), <- HV.
      destruct (decide (np_dtype np0 = np_dtype np_name)) as [Heq|Hne].
      * rewrite Heq, lookup_insert_eq.
        destruct (first_ctypes_is_Some l _ _ Hin) as [v Hv].
        rewrite <- HV in Hv. by rewrite Hv.
      * by rewrite lookup_insert_ne.
    + by rewrite <- HV', !lookup_insert_eq.
  - intros k Hk. rewrite fmap_app, not_elem_of_app in Hk.
    destruct Hk as [Hk Hk0]. rewrite lookup_insert_ne; [by apply HD|].
    intros <-. apply Hk0. by left.
Qed.

Lemma ctypes_names_NoDup : NoDup (ctypes_names.*2).
Proof. forget_parameters. apply (bool_decide_unpack _). by vm_compute. Qed.

Lemma ctypes_dict_None (k : string) :
  k ∉ ctypes_names.*2 → _construct_ctypes_dict !! k = None.
Proof.
  destruct (ctypes_loop ctypes_names ctypes_names_NoDup) as (_ & _ & HD).
  apply HD.
Qed.

Lemma format_dict_numpy (name : string) :
  name ∈ ["uint128"; "uint256"; "int128"; "int256"; "float80"; "float96";
          "float128"; "float256"; "complex160"; "complex192"; "complex256";
          "complex512"] →
  FORMAT_DICT !! name = Some ("numpy." +:+ name)
  ∧ _STRIP_PATTERN_sub ("numpy." +:+ name) = name.
Proof.
  rewrite !elem_of_cons, elem_of_nil. intros H. unfold FORMAT_DICT.
  repeat (destruct H as [-> | H];
    [split; [|by vm_compute];
     rewrite lookup_union_r;
       [by vm_compute
       |apply ctypes_dict_None, (bool_decide_unpack _); by vm_compute]|]).
  done.
Qed.

(** X15: [_construct_ctypes_dict] matches every name of [ctypes] of its
    table to the first name of the table, in the order of the table, whose
    numpy scalar type has the same [kind] and [itemsize]; the entry has the
    prefix [ctypes.].  [FORMAT_DICT] has these entries, and for a key that
    is not a [ctypes] name of the table it has the entry of
    [_construct_format_dict]. *)
Theorem ctypes_name_of_first_same_dtype (i : nat) (np_name ct_name : string) :
  ctypes_names !! i = Some (np_name, ct_name) →
  (∃ v, first_ctypes (np_dtype np_name) ctypes_names = Some v ∧
        _construct_ctypes_dict !! ct_name = Some v ∧
        FORMAT_DICT !! ct_name = Some v)
  ∧ (∀ k, k ∉ ctypes_names.*2 →
          FORMAT_DICT !! k = _construct_format_dict !! k).
Proof.
  intros Hi%list_elem_of_lookup_2.
  destruct (ctypes_loop ctypes_names ctypes_names_NoDup) as (_ & HR & HD).
  fold _construct_ctypes_dict in HR, HD. split.
  - destruct (first_ctypes_is_Some _ _ _ Hi) as [v Hv]. exists v.
    split; [done|]. rewrite (HR _ _ Hi). split; [done|].
    unfold FORMAT_DICT. apply lookup_union_Some_l. by rewrite (HR _ _ Hi).
  - intros k Hk. unfold FORMAT_DICT. apply lookup_union_r. by apply HD.
Qed.

(** *** More on [test_extended_precision] *)

(** The pieces of [s.split(c)] do not have the character [c]. *)
Lemma split_char_pieces (c : ascii) (cur s x : string) :
  x ∈ Py.split_go (String c EmptyString) 0 cur s →
  Py.has_char c cur = false → Py.has_char c x = false.
Proof.
  revert cur. induction s as [|a s IH]; intros cur.
  - by intros ->%list_elem_of_singleton.
  - cbn [Py.split_go Py.startswith]. rewrite andb_true_r.
    destruct (Ascii.eqb c a) eqn:Ha.
    + intros [-> | Hin]%elem_of_cons; [done|]. intros _.
      by apply (IH _ Hin).
    + intros Hin Hc. apply (IH _ Hin). rewrite has_char_app, Hc. simpl.
      by rewrite Ascii.eqb_sym, Ha.
Qed.

Lemma unpack_last3_message (s _lineno msg_typ msg : string) :
  unpack_last3 (Py.split ":" s) = Ok (_lineno, msg_typ, msg) →
  _strip_filename msg = msg.
Proof.
  forget_parameters.
  unfold unpack_last3. intros Hun.
  assert (Hin : msg ∈ Py.split ":" s).
  { apply list_elem_of_In, in_rev.
    destruct (rev (Py.split ":" s)) as [|m [|t [|l r]]]; [done..|].
    injection Hun as _ _ ->. by left. }
  apply split_char_pieces in Hin; [|done].
  pose proof (key_func_spec msg) as Hk.
  pose proof (cut_char_spec ":" msg) as Hc.
  destruct (Py.cut ":" msg) as [[a b]|]; [|by destruct Hk].
  destruct Hc as [-> _]. rewrite has_char_app in Hin. simpl in Hin.
  by rewrite orb_true_r in Hin.
Qed.

Lemma LINENO_MAPPING_names (lineno : Z) (name : string) :
  LINENO_MAPPING !! lineno = Some name →
  name ∈ ["uint128"; "uint256"; "int128"; "int256"; "float80"; "float96";
          "float128"; "float256"; "complex160"; "complex192"; "complex256";
          "complex512"].
Proof.
  forget_parameters.
  intros H%elem_of_list_to_map_2. revert H.
  rewrite !elem_of_cons, !elem_of_nil. intros H.
  repeat (destruct H as [[= _ ->] | H]; [naive_solver|]). done.
Qed.

(** X16: the four outcomes of [test_extended_precision] for a diagnostic of
    a line of [LINENO_MAPPING].  The message is the text after the last
    colon, which [_strip_filename] leaves as it is.  For a type that the
    platform has, a note passes exactly when the name of the type is found
    in the message stripped of module names (the entry of [FORMAT_DICT] is
    the name after [numpy.], so the look-up never fails), and an error
    raises the [ValueError] that shows the line number.  For a type that the
    platform lacks, a note passes whatever it says, and an error passes
    exactly when its message has [Module has no attribute]. *)
Theorem listed_line_outcomes (path : string) (expression_list : list string)
    (raw _lineno msg_typ msg line name : string) (lineno : Z) :
  unpack_last3 (Py.split ":" raw) = Ok (_lineno, msg_typ, msg) →
  Py.int _lineno = Ok lineno →
  Py.index expression_list (lineno - 1) = Ok line →
  LINENO_MAPPING !! lineno = Some name →
  (Py.strip msg_typ = "note" →
   in_list name _EXTENDED_PRECISION_LIST = true →
   (check_extended_line path expression_list raw = Ok tt ↔
    Py.contains name (_STRIP_PATTERN_sub msg) = true))
  ∧ (Py.strip msg_typ = "note" →
     in_list name _EXTENDED_PRECISION_LIST = false →
     check_extended_line path expression_list raw = Ok tt)
  ∧ (Py.strip msg_typ = "error" →
     in_list name _EXTENDED_PRECISION_LIST = true →
     check_extended_line path expression_list raw =
       Raise (ValueError ("Unexpected reveal line format: "
                          +:+ Py.str_of_int lineno)))
  ∧ (Py.strip msg_typ = "error" →
     in_list name _EXTENDED_PRECISION_LIST = false →
     (check_extended_line path expression_list raw = Ok tt ↔
      Py.contains "Module has no attribute" msg = true)).
Proof.
  intros Hun Hint Hidx Hname. unfold check_extended_line.
  rewrite Hun, bind_Ok. cbn beta iota.
  rewrite Hint, bind_Ok, Hidx, bind_Ok.
  rewrite (unpack_last3_message _ _ _ _ Hun).
  unfold getitem_int. rewrite Hname, bind_Ok.
  destruct (format_dict_numpy name (LINENO_MAPPING_names _ _ Hname))
    as [Hfmt Hstrip].
  split; [|split; [|split]]; intros -> ->;
    try change (in_list "note" ["error"; "note"]) with true;
    try change (in_list "error" ["error"; "note"]) with true;
    try change (String.eqb "note" "error") with false;
    try change (String.eqb "error" "error") with true;
    cbn [negb].
  - unfold getitem_str. rewrite Hfmt, bind_Ok.
    unfold _test_reveal. rewrite Hstrip. clear.
    destruct (Py.contains name (_STRIP_PATTERN_sub msg)); cbn [negb];
      split; intros [=]; reflexivity.
  - reflexivity.
  - reflexivity.
  - unfold _test_fail. clear.
    destruct (Py.contains "Module has no attribute" msg); cbn [negb];
      split; intros [=]; reflexivity.
Qed.

(** *** [get_test_cases] *)

Lemma rcut_None (sep : ascii) (s : string) :
  rcut sep s = None ↔ Py.has_char sep s = false.
Proof.
  induction s as [|c s IH]; simpl; [done|].
  destruct (rcut sep s) as [[a b]|].
  - split; [done|]. intros [_ Hs]%orb_false_iff.
    by apply IH in Hs.
  - destruct (Ascii.eqb c sep); [done|]. simpl. by rewrite <- IH.
Qed.

Lemma rcut_Some (sep : ascii) (s a b : string) :
  rcut sep s = Some (a, b) ↔
  s = a +:+ String sep b ∧ Py.has_char sep b = false.
Proof.
  split.
  - revert a. induction s as [|c s IH]; intros a; simpl; [done|].
    destruct (rcut sep s) as [[a' b']|] eqn:Hr.
    + intros [= <- <-]. destruct (IH a' eq_refl) as [-> Hb]. by split.
    + destruct (Ascii.eqb c sep) eqn:Hc; [|done]. intros [= <- <-].
      apply Ascii.eqb_eq in Hc as ->. split; [done|]. by apply rcut_None.
  - intros [-> Hb]. induction a as [|c a IH]; simpl.
    + apply rcut_None in Hb. by rewrite Hb, Ascii.eqb_refl.
    + by rewrite IH.
Qed.

(** [os.path.splitext] on a file name: the name is the stem and the
    extension; the extension is empty, or a dot and a text without dot after
    a stem that is not made of dots only. *)
Lemma splitext_name (fname stem ext : string) :
  Py.has_char "/" fname = false →
  splitext fname = (stem, ext) →
  fname = stem +:+ ext ∧
  (ext = EmptyString ∨
   ∃ e, ext = String "." e ∧ Py.has_char "." e = false ∧
        only_dots stem = false).
Proof.
  intros Hs%rcut_None. unfold splitext. rewrite Hs.
  destruct (rcut "." fname) as [[st e]|] eqn:Hr.
  - apply rcut_Some in Hr as [-> He].
    destruct (only_dots st) eqn:Hd; intros [= <- <-].
    + split; [by rewrite append_nil_r | by left].
    + split; [done|]. right. by exists e.
  - intros [= <- <-]. split; [by rewrite append_nil_r | by left].
Qed.

Lemma splitext_stem (stem e : string) :
  Py.has_char "/" (stem +:+ String "." e) = false →
  Py.has_char "." e = false → only_dots stem = false →
  splitext (stem +:+ String "." e) = (stem, String "." e).
Proof.
  intros Hs%rcut_None He Hd. unfold splitext. rewrite Hs.
  assert (rcut "." (stem +:+ String "." e) = Some (stem, e)) as ->.
  { by apply rcut_Some. }
  by rewrite Hd.
Qed.

Lemma in_list_extensions (ext : string) :
  in_list ext [".pyi"; ".py"] = true ↔ ext = ".pyi" ∨ ext = ".py".
Proof.
  unfold in_list. cbn [existsb]. rewrite orb_false_r, orb_true_iff.
  by rewrite !String.eqb_eq.
Qed.

Lemma elem_of_cases_of_files (root : string) (files : list string)
    (path id : string) :
  (path, id) ∈ cases_of_files root files ↔
  ∃ fname ext, fname ∈ files ∧ splitext fname = (id, ext) ∧
               (ext = ".pyi" ∨ ext = ".py") ∧
               path = os_path_join root fname.
Proof.
  unfold cases_of_files. rewrite list_elem_of_In, in_flat_map. split.
  - intros (fname & Hin%list_elem_of_In & Hc).
    destruct (splitext fname) as [short ext] eqn:Hsp.
    destruct (in_list ext [".pyi"; ".py"]) eqn:He; [|done].
    destruct Hc as [[= <- <-]|[]]. exists fname, ext.
    by rewrite <- in_list_extensions.
  - intros (fname & ext & Hin%list_elem_of_In & Hsp & He & ->).
    exists fname. split; [done|]. rewrite Hsp.
    apply in_list_extensions in He as ->. by left.
Qed.

Lemma cases_of_files_spec (root : string) (files : list string)
    (path id : string) :
  Forall (fun fname => Py.has_char "/" fname = false) files →
  ((path, id) ∈ cases_of_files root files ↔
   ∃ ext, (ext = ".pyi" ∨ ext = ".py") ∧ id +:+ ext ∈ files ∧
          only_dots id = false ∧ path = os_path_join root (id +:+ ext)).
Proof.
  forget_parameters.
  intros Hfiles. rewrite elem_of_cases_of_files. split.
  - intros (fname & ext & Hin & Hsp & He & ->).
    pose proof (proj1 (Forall_forall _ _) Hfiles fname Hin) as Hs.
    destruct (splitext_name _ _ _ Hs Hsp) as [-> Hext].
    exists ext. split; [done|]. split; [done|]. split; [|done].
    destruct Hext as [-> | (e & _ & _ & Hd)]; [by destruct He|done].
  - intros (ext & He & Hin & Hd & ->).
    exists (id +:+ ext), ext. split; [done|]. split; [|done].
    pose proof (proj1 (Forall_forall _ _) Hfiles _ Hin) as Hs.
    destruct He as [-> | ->]; by apply splitext_stem.
Qed.

(** X17: the files of a directory that [get_test_cases] makes cases of.  A
    file gives a case exactly when its name is a stem followed by [.pyi] or
    [.py], the stem not being made of dots only (so not empty: a file named
    [.py] gives none); the [id] of the case is the stem and its path is the
    directory joined with the name. *)
Theorem case_of_a_python_file (root : string) (files : list string)
    (path id : string) :
  Forall (fun fname => Py.has_char "/" fname = false) files →
  ((path, id) ∈ cases_of_files root files ↔
   ∃ ext, (ext = ".pyi" ∨ ext = ".py") ∧ id +:+ ext ∈ files ∧
          only_dots id = false ∧ path = os_path_join root (id +:+ ext)).
Proof. apply cases_of_files_spec. Qed.

Lemma tree_induction (P : tree → Prop) :
  (∀ dirs files, Forall (fun d => P d.2) dirs → P (Tree dirs files)) →
  ∀ t, P t.
Proof.
  intros H. fix IH 1. intros [dirs files]. apply H.
  induction dirs as [|[name sub] ds IHds]; constructor;
    [apply IH | apply IHds].
Qed.

Lemma names_ok_Tree (dirs : list (string * tree)) (files : list string) :
  names_ok (Tree dirs files) = true →
  Forall (fun fname => Py.has_char "/" fname = false) files
  ∧ Forall (fun d => Py.has_char "/" d.1 = false ∧ names_ok d.2 = true) dirs.
Proof.
  cbn [names_ok]. intros [Hf Hd]%andb_prop. split.
  - apply Forall_forall. intros x Hx%list_elem_of_In.
    rewrite forallb_forall in Hf. specialize (Hf x Hx).
    unfold no_slash in Hf. by destruct (Py.has_char "/" x).
  - clear Hf. induction dirs as [|[name sub] ds IH]; [constructor|].
    apply andb_prop in Hd as [[Hn Hs]%andb_prop Hd].
    constructor; [|by apply IH]. cbn [fst snd]. split; [|exact Hs].
    unfold no_slash in Hn. by destruct (Py.has_char "/" name).
Qed.

(** The cases of a directory are those of its files, then those of its
    sub-directories in the order of the listing. *)
Lemma get_test_cases_Tree (directory : string)
    (dirs : list (string * tree)) (files : list string) :
  get_test_cases directory (Tree dirs files) =
  cases_of_files directory files ++
  flat_map (fun d => get_test_cases (os_path_join directory d.1) d.2) dirs.
Proof.
  unfold get_test_cases. cbn [walk flat_map]. f_equal.
  induction dirs as [|[name sub] ds IH]; [done|].
  cbn [flat_map fst snd]. by rewrite flat_map_app, IH.
Qed.

Lemma os_path_join_below (a b : string) :
  Py.has_char "/" b = false → ∃ m, os_path_join a b = a +:+ m +:+ b.
Proof.
  intros Hb. unfold os_path_join.
  assert (Py.startswith "/" b = false) as ->.
  { destruct b as [|c b]; [done|]. cbn [Py.has_char] in Hb.
    apply orb_false_iff in Hb as [Hc _]. cbn [Py.startswith].
    by rewrite Ascii.eqb_sym, Hc. }
  destruct (_ || _); [by exists EmptyString | by exists "/"].
Qed.

(** X18: the cases of [get_test_cases] are below the directory.  For a tree
    whose names have no [/], as the names of a listing are, the path of
    every case is the directory, followed by a text, the [id] and [.pyi] or
    [.py]; the [id] has no [/] and is not made of dots only. *)
Theorem cases_are_below_the_directory (directory : string) (t : tree)
    (path id : string) :
  names_ok t = true →
  (path, id) ∈ get_test_cases directory t →
  ∃ middle ext, (ext = ".pyi" ∨ ext = ".py") ∧
                path = directory +:+ middle +:+ id +:+ ext ∧
                only_dots id = false ∧ Py.has_char "/" id = false.
Proof.
  forget_parameters. revert directory path id.
  induction t as [dirs files IH] using tree_induction.
  intros directory path id [Hfiles Hdirs]%names_ok_Tree.
  rewrite get_test_cases_Tree, elem_of_app. intros [Hin | Hin].
  - apply cases_of_files_spec in Hin as (ext & He & Hin & Hd & ->); [|done].
    pose proof (proj1 (Forall_forall _ _) Hfiles _ Hin) as Hs.
    destruct (os_path_join_below directory _ Hs) as [m ->].
    exists m, ext. split; [done|]. split; [done|]. split; [done|].
    cbn beta in Hs. rewrite has_char_app in Hs.
    by apply orb_false_iff in Hs as [? _].
  - apply list_elem_of_In, in_flat_map in Hin
      as ([name sub] & Hd%list_elem_of_In & Hin%list_elem_of_In).
    cbn [fst snd] in Hin.
    pose proof (proj1 (Forall_forall _ _) IH _ Hd) as IHsub.
    pose proof (proj1 (Forall_forall _ _) Hdirs _ Hd) as [Hn Hok].
    cbn [fst snd] in *.
    destruct (IHsub _ _ _ Hok Hin) as (m & ext & He & -> & Hid & Hsl).
    destruct (os_path_join_below directory name Hn) as [m0 ->].
    exists (m0 +:+ name +:+ m), ext. split; [done|]. split; [|done].
    by rewrite !append_assoc.
Qed.

(** *** The exceptions of [test_reveal] *)

Lemma check_reveal_line_raise (path : string)
    (expression_array reveal_list : list string) (raw : string) (e : exn) :
  check_reveal_line path expression_array reveal_list raw = Raise e →
  (match_reveal_line (_strip_filename raw) = None ∧
   e = ValueError ("Unexpected reveal line format: " +:+ _strip_filename raw))
  ∨ (∃ group, match_reveal_line (_strip_filename raw) = Some group ∧
       (Py.int_max_str_digits < String.length group)%nat ∧
       e = ValueError (Py.int_limit_message (String.length group)))
  ∨ (Py.contains "Revealed type is" (_strip_filename raw) = false ∧
     e = AssertionError EmptyString)
  ∨ (∃ msg, e = IndexError msg)
  ∨ ∃ n expression marker,
      note_lineno raw = Some n ∧
      Py.index reveal_list (n - 1) = Ok marker ∧
      np_getitem expression_array (n - 1) = Ok expression ∧
      e = AssertionError
            (_REVEAL_MSG n expression
               (_STRIP_PATTERN_sub (_strip_filename raw))
               (_STRIP_PATTERN_sub marker)).
Proof.
  unfold check_reveal_line, note_lineno.
  destruct (match_reveal_line (_strip_filename raw)) as [g|] eqn:Hm.
  2: { intros [= <-]. by left. }
  destruct (match_reveal_line_digits _ _ Hm) as [Hd Hne].
  pose proof (int_all_digits g Hd Hne) as Hint.
  destruct (Nat.ltb_spec Py.int_max_str_digits (String.length g))
    as [Hlong | Hshort].
  { rewrite Hint. intros [= <-]. right. left. by exists g. }
  destruct Hint as [n Hn]. rewrite Hn, bind_Ok. cbn zeta.
  destruct (Py.contains "Revealed type is" _) eqn:Hr; cbn [negb].
  2: { intros [= <-]. do 2 right. by left. }
  destruct (Py.index reveal_list (n - 1)) as [marker|e1] eqn:Hmk.
  2: { intros [= <-]. do 3 right. left. revert Hmk. unfold Py.index.
       destruct (_ || _); [intros [= <-]; by eexists|].
       destruct (_ && _); [|intros [= <-]; by eexists].
       destruct (_ !! _); [done | intros [= <-]; by eexists]. }
  rewrite bind_Ok.
  destruct (np_getitem expression_array (n - 1)) as [expression|e1] eqn:Hex.
  2: { intros [= <-]. do 3 right. left. revert Hex. unfold np_getitem.
       destruct (_ && _); [|intros [= <-]; by eexists].
       destruct (_ !! _); [done | intros [= <-]; by eexists]. }
  rewrite bind_Ok. unfold _test_reveal.
  replace (1 + (n - 1)) with n by lia.
  destruct (Py.contains (_STRIP_PATTERN_sub marker) _); [done|].
  cbn [negb]. intros [= <-]. do 4 right.
  by exists n, expression, marker.
Qed.

(** X19: the exceptions of [test_reveal] once the file is parsed.  It
    raises the bare assertion failure when the path is not a key of the
    output or a note does not say [Revealed type is], the [ValueError] of a
    line that does not match the pattern, the [ValueError] of [int] for a
    line number of more digits than the limit, the [IndexError] of a line
    number outside the lists, or the assertion failure [Reveal mismatch]
    with the number of the line, its expression and the two stripped
    texts. *)
Theorem test_reveal_exceptions (output_mypy : gmap string (list string))
    (path src : string) (expression_array reveal_list : list string)
    (e : exn) :
  _parse_reveals src = Ok (expression_array, reveal_list) →
  test_reveal output_mypy path src = Raise e →
  (output_mypy !! path = None ∧ e = AssertionError EmptyString)
  ∨ ∃ out raw, output_mypy !! path = Some out ∧ raw ∈ out ∧
      ((match_reveal_line (_strip_filename raw) = None ∧
       e = ValueError ("Unexpected reveal line format: " +:+ _strip_filename raw))
      ∨ (∃ group, match_reveal_line (_strip_filename raw) = Some group ∧
           (Py.int_max_str_digits < String.length group)%nat ∧
           e = ValueError (Py.int_limit_message (String.length group)))
      ∨ (Py.contains "Revealed type is" (_strip_filename raw) = false ∧
         e = AssertionError EmptyString)
      ∨ (∃ msg, e = IndexError msg)
      ∨ ∃ n expression marker,
          note_lineno raw = Some n ∧
          Py.index reveal_list (n - 1) = Ok marker ∧
          np_getitem expression_array (n - 1) = Ok expression ∧
          e = AssertionError
                (_REVEAL_MSG n expression
                   (_STRIP_PATTERN_sub (_strip_filename raw))
                   (_STRIP_PATTERN_sub marker))).
Proof.
  intros Hparse. unfold test_reveal. rewrite Hparse.
  destruct (output_mypy !! path) as [out|]; [|intros [= <-]; by left].
  intros (raw & Hin & Hraw)%for_each_raise. right. exists out, raw.
  split; [done|]. split; [done|]. by apply check_reveal_line_raise in Hraw.
Qed.

End Harness.

(** *** The extended-precision declarations *)

(** C8, on the code: every kind name has an alias and a class, and the base
    of the class is the type of the alias for ten of the twelve names; the
    classes [uint256] and [int256] have the classes [uint128] and [int128]
    as their bases, not the 256-bit types that [Uint256] and [Int256]
    name. *)
Theorem extended_precision_bases :
  Forall (fun kind =>
            is_Some (ExtendedPrecision.alias_of kind.2 ExtendedPrecision.module)
            ∧ is_Some (ExtendedPrecision.class_base kind.1
                         ExtendedPrecision.module))
    ExtendedPrecision.kinds
  ∧ List.filter (fun kind => negb (ExtendedPrecision.base_matches_alias kind))
      ExtendedPrecision.kinds
    = [("uint256", "Uint256"); ("int256", "Int256")]
  ∧ ExtendedPrecision.class_base "uint256" ExtendedPrecision.module
    = Some (ExtendedPrecision.Class "uint128")
  ∧ ExtendedPrecision.alias_of "Uint256" ExtendedPrecision.module
    = Some (ExtendedPrecision.Generic "np.unsignedinteger" ["_256Bit"])
  ∧ ExtendedPrecision.class_base "int256" ExtendedPrecision.module
    = Some (ExtendedPrecision.Class "int128")
  ∧ ExtendedPrecision.alias_of "Int256" ExtendedPrecision.module
    = Some (ExtendedPrecision.Generic "np.signedinteger" ["_256Bit"]).
Proof.
  split; [|by vm_compute].
  repeat constructor; by eexists.
Qed.

(** C9, on the code: with the variable set to ["0"] an existing cache
    directory is removed, as it is when the variable is not set. *)
Theorem cache_cleared_with_variable_0 :
  let st := {| OUTPUT_MYPY := ∅; cache_isdir := true |} in
  cache_isdir (clear_cache {[ "NUMPY_TYPING_TEST_CLEAR_CACHE" := "0" ]} st)
    = false
  ∧ cache_isdir (clear_cache ∅ st) = false.
Proof. by vm_compute. Qed.

(** ** Concrete runs *)

Lemma reveal_expected_in_observed_witness :
  test_reveal linux_NBitInt linux_C_INTP linux_dtype reveal_output "f.pyi"
    reveal_src = Ok tt
  ↔ Forall (reveal_line_ok ["reveal_type(x)"; "reveal_type(y)"; ""]
              ["int"; "numpy.int8"; ""])
      [ "f.pyi:1: note: Revealed type is 'builtins.int'";
        "f.pyi:2: note: Revealed type is 'numpy.int8'" ].
Proof.
  refine (proj1 (reveal_expected_in_observed linux_NBitInt linux_C_INTP
                   linux_dtype reveal_output "f.pyi" reveal_src _ _ _ _ _));
    vm_compute; reflexivity.
Defined.

(** C1, as stated, fails: the note of mypy for line 1, stripped, is not
    found in the expected reveal of line 1, stripped (it is the other way
    round), and [test_reveal] passes. *)
Lemma reveal_observed_in_expected_fails :
  let src := lines_of ["reveal_type(x)  # E: int"] in
  let note := "f.pyi:1: note: Revealed type is 'builtins.int'" in
  _parse_reveals linux_NBitInt linux_C_INTP linux_dtype src
    = Ok (["reveal_type(x)"; ""], ["int"; ""])
  ∧ Py.contains (_STRIP_PATTERN_sub (_strip_filename note))
      (_STRIP_PATTERN_sub "int") = false
  ∧ test_reveal linux_NBitInt linux_C_INTP linux_dtype
      {[ "f.pyi" := [note] ]} "f.pyi" src = Ok tt.
Proof. by vm_compute. Qed.

Lemma unmarked_error_fails_witness :
  is_ok (test_fail fail_output "f.py" fail_src) = false
  ∧ ∀ errors,
      collect_errors [ "f.py:1: error: Unsupported operand";
                       "f.py:2: error: No overload variant of sin" ] ∅
        = Ok errors →
      check_fail_lines "f.py" errors (take 0 (Py.readlines fail_src)) = Ok tt →
      test_fail fail_output "f.py" fail_src =
        Raise (Failed ("Unexpected mypy output at line "
                       +:+ Py.str_of_int (Z.of_nat 0 + 1) +:+ Py.nl +:+ Py.nl
                       +:+ errors_get errors (Z.of_nat 0 + 1))).
Proof.
  refine (unmarked_error_fails fail_output "f.py" fail_src _
            "f.py:1: error: Unsupported operand"
            ("np.add(1, 'a')" +:+ Py.nl) 0 _ _ _ _ _ _);
    try (vm_compute; reflexivity).
  by left.
Defined.

(** C2, as stated, fails: mypy reports an error for line 1, which has no
    marker and begins with [#], and [test_fail] passes. *)
Lemma comment_line_error_passes :
  let src := lines_of [ "# np.add(1, 'a')"; "np.sin(1, 2)  # E: No overload" ] in
  let out := [ "f.py:1: error: Unsupported operand";
               "f.py:2: error: No overload variant of sin" ] in
  fail_lineno "f.py:1: error: Unsupported operand" = Some 1
  ∧ Py.readlines src !! 0%nat = Some ("# np.add(1, 'a')" +:+ Py.nl)
  ∧ Py.contains "# E:" ("# np.add(1, 'a')" +:+ Py.nl) = false
  ∧ test_fail {[ "f.py" := out ]} "f.py" src = Ok tt.
Proof. by vm_compute. Qed.

Lemma marked_line_passes_iff_witness :
  check_fail_line "f.py"
    {[ 1 := "1: error: Unsupported operand" +:+ Py.nl;
       2 := "2: error: No overload variant of sin" +:+ Py.nl ]}
    (Z.of_nat 1 + 1) ("np.sin(1, 2)  # E: No overload variant" +:+ Py.nl)
    = Ok tt
  ↔ (∃ raw, raw ∈ [ "f.py:1: error: Unsupported operand";
                    "f.py:2: error: No overload variant of sin" ]
            ∧ fail_lineno raw = Some (Z.of_nat 1 + 1))
    ∧ Py.contains (Py.strip ("No overload variant" +:+ Py.nl))
        (errors_get
           {[ 1 := "1: error: Unsupported operand" +:+ Py.nl;
              2 := "2: error: No overload variant of sin" +:+ Py.nl ]}
           (Z.of_nat 1 + 1)) = true.
Proof.
  refine (proj1 (marked_line_passes_iff fail_output "f.py" fail_src _ _ 1
                   _ "np.sin(1, 2)" ("No overload variant" +:+ Py.nl)
                   _ _ _ _ _ _));
    try (vm_compute; reflexivity).
  vm_compute. discriminate.
Defined.

(** C3, as stated, fails: line 1 carries the marker [# E: Incompatible
    types], mypy reports nothing for line 1, and the test passes: the line
    begins with [#] and is passed over. *)
Lemma commented_marker_passes_without_error :
  let src := lines_of [ "# a: int = 'b'  # E: Incompatible types";
                        "np.sin(1, 2)  # E: No overload" ] in
  let out := [ "f.py:2: error: No overload variant of sin" ] in
  Py.readlines src !! 0%nat
    = Some ("# a: int = 'b'  # E: Incompatible types" +:+ Py.nl)
  ∧ Py.contains "# E: Incompatible types"
      ("# a: int = 'b'  # E: Incompatible types" +:+ Py.nl) = true
  ∧ Forall (fun raw => fail_lineno raw ≠ Some 1) out
  ∧ test_fail {[ "f.py" := out ]} "f.py" src = Ok tt.
Proof.
  split; [by vm_compute|]. split; [by vm_compute|]. split; [|by vm_compute].
  repeat constructor. by vm_compute.
Qed.

Lemma plain_keys_are_replaced_witness :
  substitute {[ "int8" := "numpy.int8" ]}
    (source [Lit "Tuple["; Key "int8"; Lit ", "; Key "float8"; Lit "]"])
  = Ok (expand {[ "int8" := "numpy.int8" ]}
          [Lit "Tuple["; Key "int8"; Lit ", "; Key "float8"; Lit "]"]).
Proof.
  refine (proj1 (plain_keys_are_replaced linux_NBitInt linux_C_INTP
                   linux_dtype _ _ _)).
  repeat constructor.
Defined.

Example plain_keys_example :
  substitute {[ "int8" := "numpy.int8" ]} "Tuple[{int8}, {float8}]"
  = Ok "Tuple[numpy.int8, <UNRECOGNIZED FORMAT KEY 'float8'>]".
Proof. by vm_compute. Qed.

(** C4, as stated, fails: the reveal of a [TypedDict] has braces, what is
    between them is taken as a format key, and [str.format] raises a
    [KeyError]; a closing brace alone raises a [ValueError]. *)
Lemma substitution_raises :
  _parse_reveals linux_NBitInt linux_C_INTP linux_dtype
    (lines_of ["reveal_type(d)  # E: TypedDict('D', {'x': builtins.int})"])
  = Raise (KeyError (KStr "'x'"))
  ∧ _parse_reveals linux_NBitInt linux_C_INTP linux_dtype
      (lines_of ["reveal_type(s)  # E: Set}"])
    = Raise (ValueError "Single '}' encountered in format string").
Proof. by vm_compute. Qed.

Lemma test_success_fails_iff_mypy_output_witness :
  ∃ st',
    run_mypy "data" "tests/data" ∅ mypy_one_error
      {| OUTPUT_MYPY := ∅; cache_isdir := true |} = Ok st'
    ∧ ((∃ msg, test_success (OUTPUT_MYPY st') "data/pass/a.py"
               = Raise (AssertionError msg))
       ↔ "data/pass/a.py" ∈ dom (OUTPUT_MYPY st')).
Proof.
  eexists. split; [vm_compute; reflexivity|].
  refine (proj1 (test_success_fails_iff_mypy_output "data" "tests/data" ∅
                   mypy_one_error {| OUTPUT_MYPY := ∅; cache_isdir := true |}
                   _ "data/pass/a.py" _ _ _)).
  - reflexivity.
  - vm_compute. reflexivity.
  - discriminate.
Defined.

(** C5, as stated, fails: mypy prints two lines for the file [a.py], with a
    line for another file between them, and the message of [test_success]
    lists the second one only. *)
Lemma test_success_lists_the_last_run_only :
  let line1 := "data/pass/a.py:1: error: x" in
  let line2 := "data/pass/a.py:2: error: z" in
  List.filter (fun line => String.eqb (_key_func line) "data/pass/a.py")
    (output_lines "tests/data" mypy_two_runs "data/pass") = [line1; line2]
  ∧ match run_mypy "data" "tests/data" ∅ mypy_two_runs
            {| OUTPUT_MYPY := ∅; cache_isdir := true |} with
    | Ok st' =>
        test_success (OUTPUT_MYPY st') "data/pass/a.py"
        = Raise (AssertionError
                   ("Unexpected mypy output" +:+ Py.nl +:+ Py.nl
                    +:+ "2: error: z"))
    | Raise _ => False
    end.
Proof. by vm_compute. Qed.

Example test_success_example :
  ∃ st',
    run_mypy "data" "tests/data" ∅ mypy_one_error
      {| OUTPUT_MYPY := ∅; cache_isdir := true |} = Ok st'
    ∧ test_success (OUTPUT_MYPY st') "data/pass/a.py"
      = Raise (AssertionError
                 ("Unexpected mypy output" +:+ Py.nl +:+ Py.nl
                  +:+ "3: error: oops"))
    ∧ test_success (OUTPUT_MYPY st') "data/pass/b.py" = Ok tt.
Proof. eexists. split; [vm_compute; reflexivity|]. by vm_compute. Qed.

Lemma malformed_line_raises_ValueError_witness :
  (∃ msg, test_fail reveal_output_bad "f.pyi" reveal_src
          = Raise (ValueError msg))
  ∧ test_reveal linux_NBitInt linux_C_INTP linux_dtype reveal_output_bad
      "f.pyi" reveal_src
    = Raise (ValueError ("Unexpected reveal line format: "
                         +:+ _strip_filename
                               "f.pyi: note: In module imported here:")).
Proof.
  destruct (malformed_line_raises_ValueError linux_NBitInt linux_C_INTP
              linux_dtype reveal_output_bad "f.pyi" reveal_src
              [ "f.pyi:1: note: Revealed type is 'builtins.int'";
                "f.pyi: note: In module imported here:" ]
              "f.pyi: note: In module imported here:" eq_refl)
    as [Hfail Hreveal].
  split.
  - apply Hfail; [by right; left | by vm_compute].
  - apply (Hreveal ["reveal_type(x)"; "reveal_type(y)"; ""]
             ["int"; "numpy.int8"; ""]
             ["f.pyi:1: note: Revealed type is 'builtins.int'"] []);
      [by vm_compute | done | | by vm_compute].
    repeat constructor.
    exists "1", 1, "int", "reveal_type(x)". by vm_compute.
Defined.

(** C7, as stated, fails: the second output line does not match the
    pattern, and [test_reveal] ends with the assertion failure of the first
    line, not with a [ValueError]. *)
Lemma malformed_line_after_mismatch :
  let out := [ "f.pyi:1: note: Revealed type is 'builtins.str'";
               "f.pyi: note: In module imported here:" ] in
  match_reveal_line (_strip_filename "f.pyi: note: In module imported here:")
    = None
  ∧ test_reveal linux_NBitInt linux_C_INTP linux_dtype {[ "f.pyi" := out ]}
      "f.pyi" reveal_src
    = Raise (AssertionError
               (_REVEAL_MSG 1 "reveal_type(x)"
                  "1: note: Revealed type is 'str'" "int")).
Proof. by vm_compute. Qed.

Lemma unlisted_line_raises_KeyError_witness :
  test_extended_precision "data" linux_NBitInt linux_C_INTP linux_extended
    linux_dtype
    {[ "data/misc/extended_precision.pyi" :=
         [ "data/misc/extended_precision.pyi:1: error: Cannot find module" ] ]}
    extended_src
  = Raise (KeyError (KInt 1)).
Proof.
  refine (unlisted_line_raises_KeyError "data" linux_NBitInt linux_C_INTP
            linux_extended linux_dtype _ extended_src [] []
            "data/misc/extended_precision.pyi:1: error: Cannot find module"
            "1" " error" " Cannot find module"
            ("import numpy as np" +:+ Py.nl) 1 _ _ _ _ _ _ _);
    try (vm_compute; reflexivity).
  - by left.
  - vm_compute. intros H. by repeat (apply elem_of_cons in H as [H | H];
      [discriminate|]); apply elem_of_nil in H.
Defined.

(** C10, as stated, fails: the note that mypy adds after an import error has
    a colon in its message; its line number 1 is not a key of
    [LINENO_MAPPING], and the test ends with the [ValueError] of [int], not
    with a [KeyError]. *)
Lemma unlisted_line_with_colon_raises_ValueError :
  let note := "data/misc/extended_precision.pyi:1: note: See https://mypy.readthedocs.io/en/stable/running_mypy.html#missing-imports" in
  fail_lineno note = Some 1
  ∧ LINENO_MAPPING !! 1 = None
  ∧ test_extended_precision "data" linux_NBitInt linux_C_INTP linux_extended
      linux_dtype {[ "data/misc/extended_precision.pyi" := [note] ]}
      extended_src
    = Raise (ValueError "invalid literal for int() with base 10: ' note'").
Proof. by vm_compute. Qed.

(** *** Runs for the further properties *)

Lemma key_and_message_rebuild_line_witness :
  "f.py:1: error: x"
  = _key_func "f.py:1: error: x" +:+ ":" +:+ _strip_filename "f.py:1: error: x".
Proof.
  refine (proj1 (key_and_message_rebuild_line "f.py:1: error: x" _) _).
  - reflexivity.
  - vm_compute. reflexivity.
Defined.

Lemma output_mypy_invariant_witness :
  ∃ st',
    run_mypy "data" "tests/data" ∅ mypy_one_error
      {| OUTPUT_MYPY := ∅; cache_isdir := true |} = Ok st'
    ∧ "data/pass/a.py" ≠ EmptyString
    ∧ ["data/pass/a.py:3: error: oops"] ≠ []
    ∧ (∃ d, d ∈ directories "data" ∧
         Forall (fun line =>
                   line ∈ output_lines "tests/data" mypy_one_error d ∧
                   _key_func line = "data/pass/a.py" ∧
                   Py.has_char "*" line = false ∧
                   Py.has_char (Py.chr 10) line = false)
           ["data/pass/a.py:3: error: oops"])
    ∧ ((∀ d line, d ∈ directories "data" →
                  line ∈ output_lines "tests/data" mypy_one_error d →
                  splitdrive line = (EmptyString, line)) →
       Py.has_char ":" "data/pass/a.py" = false).
Proof.
  eexists. split; [vm_compute; reflexivity|].
  refine (output_mypy_invariant "data" "tests/data" ∅ mypy_one_error
            {| OUTPUT_MYPY := ∅; cache_isdir := true |} _
            "data/pass/a.py" ["data/pass/a.py:3: error: oops"] _ _ _);
    vm_compute; reflexivity.
Defined.

Lemma path_with_colon_is_never_found_witness :
  ∃ st',
    run_mypy "data" "tests/data" ∅ mypy_one_error
      {| OUTPUT_MYPY := ∅; cache_isdir := true |} = Ok st'
    ∧ OUTPUT_MYPY st' !! "data/pass/a.py:3" = None
    ∧ test_success (OUTPUT_MYPY st') "data/pass/a.py:3" = Ok tt
    ∧ test_fail (OUTPUT_MYPY st') "data/pass/a.py:3" fail_src
      = Raise (AssertionError EmptyString).
Proof.
  eexists. split; [vm_compute; reflexivity|].
  refine (path_with_colon_is_never_found "data" "tests/data" ∅
            mypy_one_error {| OUTPUT_MYPY := ∅; cache_isdir := true |} _
            "data/pass/a.py:3" fail_src _ _ _ _);
    vm_compute; reflexivity.
Defined.

Lemma last_run_of_a_file_is_kept_witness :
  ∃ output',
    run_directory "tests/data" mypy_interleaved "data/fail" ∅ = Ok output'
    ∧ output' !! "a.py" = Some ["a.py:2: error: z"].
Proof.
  refine (last_run_of_a_file_is_kept "tests/data" mypy_interleaved
            "data/fail" "a.py" ∅ ["a.py:1: error: x"; "b.py:1: error: y"]
            ["a.py:2: error: z"] [EmptyString] _ _ _ _ _ _ _).
  - intros [H | [_ H]]; vm_compute in H; by apply H.
  - vm_compute. reflexivity.
  - discriminate.
  - discriminate.
  - repeat constructor.
  - intros x [= <-]. vm_compute. discriminate.
  - repeat constructor. vm_compute. discriminate.
Defined.

Lemma accumulated_text_of_a_line_witness :
  ∃ errors,
    collect_errors [ "f.py:1: error: Unsupported operand";
                     "f.py:2: error: No overload variant of sin";
                     "f.py:1: note: See the overloads" ] ∅ = Ok errors
    ∧ errors_get errors 1
      = concat_lines [ "f.py:1: error: Unsupported operand";
                       "f.py:1: note: See the overloads" ].
Proof.
  eexists. split; [vm_compute; reflexivity|].
  refine (proj1 (accumulated_text_of_a_line
                   [ "f.py:1: error: Unsupported operand";
                     "f.py:2: error: No overload variant of sin";
                     "f.py:1: note: See the overloads" ] _ 1 _)).
  vm_compute. reflexivity.
Defined.

Lemma test_fail_exceptions_witness :
  ∃ e,
    test_fail fail_output "f.py" fail_src = Raise e
    ∧ ∀ lineno expression error,
        e ≠ AssertionError (_FAIL_MSG1 lineno expression error).
Proof.
  eexists. split; [vm_compute; reflexivity|].
  refine (proj2 (test_fail_exceptions fail_output "f.py" fail_src _ _)).
  vm_compute. reflexivity.
Defined.

Lemma empty_marker_is_accepted_witness :
  check_fail_line "f.py" ∅ 1 "np.sin(1, 2) # E: No overload variant" = Ok tt.
Proof.
  refine (empty_marker_is_accepted "f.py" ∅ 1
            "np.sin(1, 2) # E: No overload variant" _ _);
    vm_compute; reflexivity.
Defined.

Lemma diagnostic_outside_the_file_is_ignored_witness :
  test_fail
    {[ "f.py" := [ "f.py:2: error: No overload variant of sin";
                   "f.py:9: error: Unsupported operand" ] ]}
    "f.py" fail_src
  = test_fail
      (<[ "f.py" := [ "f.py:2: error: No overload variant of sin" ] ++ [] ]>
         {[ "f.py" := [ "f.py:2: error: No overload variant of sin";
                        "f.py:9: error: Unsupported operand" ] ]})
      "f.py" fail_src.
Proof.
  refine (diagnostic_outside_the_file_is_ignored
            {[ "f.py" := [ "f.py:2: error: No overload variant of sin";
                           "f.py:9: error: Unsupported operand" ] ]}
            "f.py" fail_src [ "f.py:2: error: No overload variant of sin" ]
            [] "f.py:9: error: Unsupported operand" 9 _ _ _).
  - vm_compute. reflexivity.
  - vm_compute. reflexivity.
  - right. vm_compute. reflexivity.
Defined.

Lemma qualified_name_is_stripped_witness :
  _STRIP_PATTERN_sub ("Revealed type is '" +:+ "numpy" +:+ "." +:+ "int8'")
  = _STRIP_PATTERN_sub ("Revealed type is '" +:+ "int8'").
Proof.
  refine (qualified_name_is_stripped "Revealed type is '" "numpy" "int8'"
            _ _ _ _).
  - right. exists "'"%char. split; vm_compute; reflexivity.
  - vm_compute. reflexivity.
  - discriminate.
  - vm_compute. reflexivity.
Defined.

Lemma strip_is_idempotent_witness :
  _STRIP_PATTERN_sub "builtins_int" = "builtins_int".
Proof.
  refine (proj1 (strip_is_idempotent "builtins_int") _).
  vm_compute. reflexivity.
Defined.

Lemma note_line_number_outside_the_file_witness :
  check_reveal_line "f.pyi" ["reveal_type(x)"; ""] ["int"; ""]
    "f.pyi:7: note: Revealed type is 'builtins.int'"
  = Raise (IndexError "list index out of range").
Proof.
  refine (proj1 (note_line_number_outside_the_file "f.pyi"
                   ["reveal_type(x)"; ""] ["int"; ""]
                   "f.pyi:7: note: Revealed type is 'builtins.int'" "7" 7
                   _ _ _) _ _);
    try (vm_compute; reflexivity).
  vm_compute. discriminate.
Defined.

Lemma comments_without_keys_are_kept_witness :
  ∃ expression_array reveal_list,
    _parse_reveals linux_NBitInt linux_C_INTP linux_dtype
      (lines_of [ "reveal_type(x)  # E: int"; "y = 1" ])
    = Ok (expression_array, reveal_list)
    ∧ length expression_array
      = length (Py.split Py.nl
                  (Py.remove_char "*"
                     (lines_of [ "reveal_type(x)  # E: int"; "y = 1" ])))
    ∧ length reveal_list = length expression_array
    ∧ ∀ i line,
        Py.split Py.nl
          (Py.remove_char "*"
             (lines_of [ "reveal_type(x)  # E: int"; "y = 1" ])) !! i
        = Some line →
        expression_array !! i
          = Some (np_str (Py.partition "  # E: " (np_str line)).1.1)
        ∧ reveal_list !! i
          = Some (np_str (Py.partition "  # E: " (np_str line)).2).
Proof.
  refine (comments_without_keys_are_kept linux_NBitInt linux_C_INTP
            linux_dtype
            (lines_of [ "reveal_type(x)  # E: int"; "y = 1" ]) _ _).
  - vm_compute. reflexivity.
  - apply (bool_decide_unpack _). vm_compute. exact I.
Defined.

Lemma ctypes_name_of_first_same_dtype_witness :
  ∃ v, first_ctypes linux_dtype (linux_dtype "longlong") ctypes_names = Some v
       ∧ _construct_ctypes_dict linux_dtype !! "c_longlong" = Some v
       ∧ FORMAT_DICT linux_NBitInt linux_C_INTP linux_dtype !! "c_longlong"
         = Some v.
Proof.
  refine (proj1 (ctypes_name_of_first_same_dtype linux_NBitInt linux_C_INTP
                   linux_dtype 9 "longlong" "c_longlong" _)).
  reflexivity.
Defined.

Lemma listed_line_outcomes_witness :
  check_extended_line linux_NBitInt linux_C_INTP linux_extended linux_dtype
    "data/misc/extended_precision.pyi" (Py.readlines extended_src)
    "data/misc/extended_precision.pyi:3: error: Module has no attribute uint128"
  = Ok tt
  ↔ Py.contains "Module has no attribute"
      " Module has no attribute uint128" = true.
Proof.
  refine (proj2 (proj2 (proj2
            (listed_line_outcomes linux_NBitInt linux_C_INTP linux_extended
               linux_dtype "data/misc/extended_precision.pyi"
               (Py.readlines extended_src)
               "data/misc/extended_precision.pyi:3: error: Module has no attribute uint128"
               "3" " error" " Module has no attribute uint128"
               ("reveal_type(np.uint128())" +:+ Py.nl) "uint128" 3
               _ _ _ _))) _ _);
    vm_compute; reflexivity.
Defined.

Lemma case_of_a_python_file_witness :
  ("data/pass/a.py", "a")
    ∈ cases_of_files "data/pass" ["a.py"; ".py"; "notes.txt"; "b.pyi"]
  ↔ ∃ ext, (ext = ".pyi" ∨ ext = ".py")
           ∧ "a" +:+ ext ∈ ["a.py"; ".py"; "notes.txt"; "b.pyi"]
           ∧ only_dots "a" = false
           ∧ "data/pass/a.py" = os_path_join "data/pass" ("a" +:+ ext).
Proof.
  refine (case_of_a_python_file "data/pass"
            ["a.py"; ".py"; "notes.txt"; "b.pyi"] "data/pass/a.py" "a" _).
  apply (bool_decide_unpack _). vm_compute. exact I.
Defined.

Lemma cases_are_below_the_directory_witness :
  ∃ middle ext,
    (ext = ".pyi" ∨ ext = ".py")
    ∧ "data/pass/sub/b.pyi" = "data/pass" +:+ middle +:+ "b" +:+ ext
    ∧ only_dots "b" = false ∧ Py.has_char "/" "b" = false.
Proof.
  refine (cases_are_below_the_directory "data/pass" pass_tree
            "data/pass/sub/b.pyi" "b" _ _).
  - vm_compute. reflexivity.
  - apply (bool_decide_unpack _). vm_compute. exact I.
Defined.

Lemma test_reveal_exceptions_witness :
  ∃ e,
    test_reveal linux_NBitInt linux_C_INTP linux_dtype reveal_output_bad
      "f.pyi" reveal_src = Raise e
    ∧ ((reveal_output_bad !! "f.pyi" = None ∧ e = AssertionError EmptyString)
       ∨ ∃ out raw, reveal_output_bad !! "f.pyi" = Some out ∧ raw ∈ out ∧
           ((match_reveal_line (_strip_filename raw) = None ∧
             e = ValueError ("Unexpected reveal line format: "
                             +:+ _strip_filename raw))
            ∨ (∃ group,
                 match_reveal_line (_strip_filename raw) = Some group ∧
                 (Py.int_max_str_digits < String.length group)%nat ∧
                 e = ValueError (Py.int_limit_message (String.length group)))
            ∨ (Py.contains "Revealed type is" (_strip_filename raw) = false ∧
               e = AssertionError EmptyString)
            ∨ (∃ msg, e = IndexError msg)
            ∨ ∃ n expression marker,
                note_lineno raw = Some n ∧
                Py.index ["int"; "numpy.int8"; ""] (n - 1) = Ok marker ∧
                np_getitem ["reveal_type(x)"; "reveal_type(y)"; ""] (n - 1)
                  = Ok expression ∧
                e = AssertionError
                      (_REVEAL_MSG n expression
                         (_STRIP_PATTERN_sub (_strip_filename raw))
                         (_STRIP_PATTERN_sub marker)))).
Proof.
  eexists. split; [vm_compute; reflexivity|].
  refine (test_reveal_exceptions linux_NBitInt linux_C_INTP linux_dtype
            reveal_output_bad "f.pyi" reveal_src
            ["reveal_type(x)"; "reveal_type(y)"; ""]
            ["int"; "numpy.int8"; ""] _ _ _);
    vm_compute; reflexivity.
Defined.

(** ** The embedded library functions on small inputs *)

Example repr_plain : Py.repr "int8" = "'int8'".
Proof. reflexivity. Qed.

Example repr_with_quote :
  Py.repr "'x'" = String Py.dquote ("'x'" +:+ String Py.dquote EmptyString).
Proof. reflexivity. Qed.

Example int_with_space : Py.int " 17" = Ok 17.
Proof. reflexivity. Qed.

Example int_of_word :
  Py.int " note"
  = Raise (ValueError "invalid literal for int() with base 10: ' note'").
Proof. reflexivity. Qed.

Example split_on_colon :
  Py.split ":" "a.pyi:3: note: x" = ["a.pyi"; "3"; " note"; " x"].
Proof. reflexivity. Qed.

Example split_on_two_characters :
  Py.split "/n" "int/n/nfloat" = ["int"; ""; "float"].
Proof. reflexivity. Qed.

Example partition_marker :
  Py.partition "  # E: " "f(1)  # E: bad"
  = ("f(1)", "  # E: ", "bad").
Proof. reflexivity. Qed.

Example readlines_two :
  Py.readlines (lines_of ["a"; "b"]) = ["a" +:+ Py.nl; "b" +:+ Py.nl].
Proof. reflexivity. Qed.

Example int_of_a_control_character :
  Py.int (String (Py.chr 28) "5")
  = Raise (ValueError ("invalid literal for int() with base 10: "
                       +:+ Py.repr (String (Py.chr 28) "5"))).
Proof. by vm_compute. Qed.

Example index_that_does_not_fit :
  Py.index ["a"; "b"; "c"] (2 ^ 64)
  = Raise (IndexError "cannot fit 'int' into an index-sized integer").
Proof. by vm_compute. Qed.

Example np_getitem_out_of_bounds :
  np_getitem ["a"; "b"; "c"] 3
  = Raise (IndexError "index 3 is out of bounds for axis 0 with size 3").
Proof. by vm_compute. Qed.

Example np_char_partition_drops_NUL :
  np_char_partition [ "x  # E: int" +:+ String (Py.chr 0) EmptyString ]
    "  # E: "
  = [ ("x", "  # E: ", "int") ].
Proof. by vm_compute. Qed.

Example index_from_the_end : Py.index ["a"; "b"; "c"] (-1) = Ok "c".
Proof. reflexivity. Qed.

Example groupby_runs :
  groupby _key_func ["a:1: x"; "a:2: y"; "b:1: z"; "a:3: w"]
  = [("a", ["a:1: x"; "a:2: y"]); ("b", ["b:1: z"]); ("a", ["a:3: w"])].
Proof. reflexivity. Qed.

Example strip_filename_line :
  _strip_filename "data/fail/a.pyi:3: error: oops" = "3: error: oops".
Proof. reflexivity. Qed.

Example strip_pattern_qualified :
  _STRIP_PATTERN_sub "numpy.floating[numpy._typing._64Bit]"
  = "floating[_64Bit]".
Proof. reflexivity. Qed.

Example strip_pattern_trailing_dot : _STRIP_PATTERN_sub "a.b. c..d" = "b. c..d".
Proof. reflexivity. Qed.

Example match_fail_line_error : match_fail_line "12: error: oops" = Some "12".
Proof. reflexivity. Qed.

Example match_fail_line_no_number :
  match_fail_line " note: In module imported here:" = None.
Proof. reflexivity. Qed.

Example match_reveal_line_error : match_reveal_line "12: error: oops" = None.
Proof. reflexivity. Qed.

Example findall_keys :
  findall_braces "Tuple[{int8}, {float8}]" = ["int8"; "float8"].
Proof. reflexivity. Qed.

Example format_escaped_braces :
  py_format "{{{a}}}" {[ "a" := "b" ]} = Ok "{b}".
Proof. by vm_compute. Qed.

Example format_empty_field :
  py_format "{}" ∅
  = Raise (IndexError
             "Replacement index 0 out of range for positional args tuple").
Proof. by vm_compute. Qed.

Example format_dict_ctypes :
  FORMAT_DICT linux_NBitInt linux_C_INTP linux_dtype !! "c_ulonglong"
  = Some "ctypes.c_ulong".
Proof. by vm_compute. Qed.
